(** * nagoya: image builds through container systems

    A shallow embedding of the parts of nagoya that decide how images
    are built:

    - [nagoya/moromi.py] and [nagoya/build/build.py]: the declarative
      spec mini-languages ([parse_volume_spec], [parse_dir_spec]) and
      the choice of build path ([build_images]);
    - [nagoya/dockerext/container.py]: the [Callspec] record and the
      [Container] lifecycle methods ([create], [start], [stop],
      [remove], [wait]);
    - further down, the rest of the two modules: the text forms of
      the value classes ([from_text], [api_formatted], [__str__]),
      the [add_] methods and [TempContainer] as a context manager;
      [parse_link_spec], [optional_plural], the layered build
      ([build_image]) and the block of [build_container_system] in
      [moromi.py];
    - [build_container_system] of [build/build.py], run under the
      container system of the spec, which stands for the class
      [BuildContainerSystem] that the sources do not have.

    Python values that may be [None] are [option]s, dictionaries are
    [gmap]s, exceptions are the constructors of [exn], and code that
    talks to the container engine runs in a state-and-error monad whose
    state is the trace of everything the code did to the outside
    world. *)

From Stdlib Require Import ZArith Ascii String Lia.
From stdpp Require Import base option list gmap strings pretty.

Local Open Scope string_scope.
Local Open Scope Z_scope.

(** ** Python values shared by the modules *)

(** The part of [docker inspect]'s answer that the code reads:
    [State.Pid], [State.StartedAt] and the keys of [Volumes]. *)
Record inspect_info := InspectInfo {
  state_pid : Z;
  state_started_at : string;
  volumes_keys : list string;
}.

(** Exceptions.  [ContainerExitError] is the class of
    [dockerext/container.py] (code, logs, inspect);
    [BuildContainerExitError] is the class of the same name in
    [build/build.py], which only carries a message.  [APIError] is
    [docker.errors.APIError] with [e.response.status_code] and
    [Timeout] is [requests.exceptions.Timeout].  [PyNameError] is
    what the evaluation of a name that is bound nowhere raises. *)
Inductive exn :=
| InvalidFormat (message : string)
| ContainerExitError (code : Z) (logs : option string)
                     (inspect : option inspect_info)
| BuildContainerExitError (message : string)
| APIError (status_code : Z)
| Timeout
| PyTypeError (message : string)
| PyValueError (message : string)
| PyAttributeError (message : string)
| PyKeyError (key : string)
| PyNameError (name : string)
| PyException (message : string).

Inductive result (A : Type) :=
| Ok (a : A)
| Raise (e : exn).
Arguments Ok {A} a.
Arguments Raise {A} e.

(** ** Strings *)

Module Str.

Definition is_char (c : ascii) (a : ascii) : bool := Ascii.eqb a c.

Fixpoint drop (n : nat) (s : string) : string :=
  match n, s with
  | O, _ => s
  | S n', String _ s' => drop n' s'
  | S _, EmptyString => EmptyString
  end.

Fixpoint take (n : nat) (s : string) : string :=
  match n, s with
  | O, _ => EmptyString
  | S n', String c s' => String c (take n' s')
  | S _, EmptyString => EmptyString
  end.

(** [strip_prefix p s] is [Some rest] when [s = p ++ rest]. *)
Fixpoint strip_prefix (p s : string) : option string :=
  match p, s with
  | EmptyString, _ => Some s
  | String a p', String b s' =>
      if Ascii.eqb a b then strip_prefix p' s' else None
  | String _ _, EmptyString => None
  end.

(** [s.rfind(c) + 1]: one past the last occurrence of [c], [0] when
    there is none. *)
Fixpoint rfind_succ (c : ascii) (s : string) : nat :=
  match s with
  | EmptyString => O
  | String a s' =>
      match rfind_succ c s' with
      | O => if Ascii.eqb a c then 1%nat else O
      | S n => S (S n)
      end
  end.

Fixpoint all (p : ascii -> bool) (s : string) : bool :=
  match s with
  | EmptyString => true
  | String a s' => p a && all p s'
  end.

(** [s.lstrip(c)] *)
Fixpoint lstrip (c : ascii) (s : string) : string :=
  match s with
  | EmptyString => EmptyString
  | String a s' => if Ascii.eqb a c then lstrip c s' else s
  end.

(** [s.rstrip(c)] *)
Fixpoint rstrip (c : ascii) (s : string) : string :=
  match s with
  | EmptyString => EmptyString
  | String a s' =>
      match rstrip c s' with
      | EmptyString => if Ascii.eqb a c then EmptyString else String a EmptyString
      | r => String a r
      end
  end.

(** [s.split(c)] *)
Fixpoint split (c : ascii) (s : string) : list string :=
  match s with
  | EmptyString => [EmptyString]
  | String a s' =>
      let rest := split c s' in
      if Ascii.eqb a c then EmptyString :: rest
      else match rest with
           | h :: t => String a h :: t
           | [] => [String a EmptyString]
           end
  end.

(** [str.isspace] of Python 3, what [str.strip()] removes.  A
    character of a [string] is a code point below 256: the white space
    there is tab to carriage return (9 to 13), the four separators 28
    to 31, the space (32), the next-line control (133) and the
    no-break space (160). *)
Definition is_space (a : ascii) : bool :=
  let n := nat_of_ascii a in
  ((9 <=? n)%nat && (n <=? 13)%nat) || ((28 <=? n)%nat && (n <=? 32)%nat)
  || (n =? 133)%nat || (n =? 160)%nat.

Fixpoint lstrip_space (s : string) : string :=
  match s with
  | EmptyString => EmptyString
  | String a s' => if is_space a then lstrip_space s' else s
  end.

Fixpoint rstrip_space (s : string) : string :=
  match s with
  | EmptyString => EmptyString
  | String a s' =>
      match rstrip_space s' with
      | EmptyString => if is_space a then EmptyString else String a EmptyString
      | r => String a r
      end
  end.

(** [s.strip()] *)
Definition strip (s : string) : string := rstrip_space (lstrip_space s).

(** [sub] occurs in [s] *)
Definition occurs_in (sub s : string) : Prop :=
  exists before after, s = before +:+ sub +:+ after.

End Str.

(** ** [posixpath] *)

Module os_path.

(** [i = p.rfind('/') + 1; return p[i:]] *)
Definition basename (p : string) : string :=
  Str.drop (Str.rfind_succ "/" p) p.

(** [head = p[:i]; if head and head != '/'*len(head): head =
    head.rstrip('/')] *)
Definition dirname (p : string) : string :=
  let head := Str.take (Str.rfind_succ "/" p) p in
  if negb (String.eqb head "") && negb (Str.all (Str.is_char "/") head)
  then Str.rstrip "/" head
  else head.

(** [join(a, b)] on strings *)
Definition join_str (a b : string) : string :=
  match Str.strip_prefix "/" b with
  | Some _ => b
  | None =>
      if String.eqb a "" || (Str.rfind_succ "/" a =? String.length a)%nat
      then a +:+ b
      else a +:+ "/" +:+ b
  end.

(** [join] applied to values that may be [None]: Python 3 raises
    [TypeError] from [os.fspath] (Python 2 an [AttributeError] from
    [None.endswith]); either way no path comes back. *)
Definition join (a b : option string) : result string :=
  match a, b with
  | Some a, Some b => Ok (join_str a b)
  | _, _ => Raise (PyTypeError "expected str, bytes or os.PathLike object, not NoneType")
  end.

End os_path.

(** ** Regular expressions of the spec mini-languages

    The patterns of the source use literals, greedy [+] over a
    character class, concatenation, alternation, named groups and the
    anchors [^] and [$].  The matcher is a backtracking one, as
    Python's: alternatives are tried left to right, [+] tries the
    longest repetition first. *)

Inductive regex :=
| Bos                                  (* ^ *)
| Eos                                  (* $ *)
| Lit (text : string)
| Plus (cls : ascii -> bool)           (* [...]+ or .+ *)
| Cat (r1 r2 : regex)
| Alt (r1 r2 : regex)
| Named (name : string) (r : regex).   (* (?P<name>r) *)

Module Re.

Declare Scope regex_scope.
Delimit Scope regex_scope with re.
Bind Scope regex_scope with regex.
Infix "·" := Cat (at level 41, right associativity) : regex_scope.
Infix "⊕" := Alt (at level 42, right associativity) : regex_scope.

(** [.] without [DOTALL]: anything but a newline *)
Definition dot (a : ascii) : bool := negb (Ascii.eqb a "010").
(** [[^ ]] *)
Definition not_space (a : ascii) : bool := negb (Ascii.eqb a " ").
(** [[^: ]] *)
Definition not_colon_space (a : ascii) : bool :=
  negb (Ascii.eqb a ":") && negb (Ascii.eqb a " ").

(** [$] without [MULTILINE]: at the end, or just before a newline that
    ends the string. *)
Definition at_end (s : string) : bool :=
  match s with
  | EmptyString => true
  | String a EmptyString => Ascii.eqb a "010"
  | _ => false
  end.

Abbreviation captures := (gmap string string).

Section Exec.
Variable subject : string.

(** [cls+] on [s]; the continuation gets the text taken and the
    rest.  The longest run is tried first. *)
Fixpoint plus_class {R} (cls : ascii -> bool) (s : string)
         (k : string -> string -> option R) : option R :=
  match s with
  | EmptyString => None
  | String a s' =>
      if cls a then
        match plus_class cls s' (fun got rest => k (String a got) rest) with
        | Some r => Some r
        | None => k (String a EmptyString) s'
        end
      else None
  end.

(** [exec r s caps k] matches [r] at the head of [s] and hands the
    text it took, the rest and the groups set so far to [k]; when
    [k] fails the next way of matching [r] is tried. *)
Fixpoint exec (r : regex) (s : string) (caps : captures)
         (k : string -> string -> captures -> option captures)
  : option captures :=
  match r with
  | Bos => if String.eqb s subject then k EmptyString s caps else None
  | Eos => if at_end s then k EmptyString s caps else None
  | Lit text =>
      match Str.strip_prefix text s with
      | Some s' => k text s' caps
      | None => None
      end
  | Plus cls => plus_class cls s (fun got rest => k got rest caps)
  | Cat r1 r2 =>
      exec r1 s caps (fun got1 s1 caps1 =>
        exec r2 s1 caps1 (fun got2 s2 caps2 => k (got1 +:+ got2) s2 caps2))
  | Alt r1 r2 =>
      match exec r1 s caps k with
      | Some c => Some c
      | None => exec r2 s caps k
      end
  | Named name r1 =>
      exec r1 s caps (fun got s' caps' => k got s' (<[name := got]> caps'))
  end.
End Exec.

(** [pattern.match(subject)]: anchored at the start, not at the end *)
Definition re_match (r : regex) (subject : string) : option captures :=
  exec subject r subject ∅ (fun _ _ caps => Some caps).

Fixpoint group_names (r : regex) : list string :=
  match r with
  | Cat r1 r2 | Alt r1 r2 => group_names r1 ++ group_names r2
  | Named name r1 => name :: group_names r1
  | _ => []
  end.

(** [match.groupdict()]: every named group of the pattern is a key;
    a group that took no part in the match maps to [None]. *)
Definition groupdict (r : regex) (caps : captures) : gmap string (option string) :=
  list_to_map ((fun n => (n, caps !! n)) <$> group_names r).

End Re.
Import Re.

(** ** [nagoya/moromi.py], the spec parsers *)

(** [r'^(?P<image>[^ ]+) then (discard$|persist to (?P<persist_image>[^: ]+)$)'] *)
Definition volume_spec_pattern : regex :=
  (Bos · Named "image" (Plus not_space) · Lit " then " ·
   ((Lit "discard" · Eos) ⊕
    (Lit "persist to " · Named "persist_image" (Plus not_colon_space) · Eos)))%re.

Record VolImg := mkVolImg {
  image : option string;
  persist_image : option string;
}.

Definition invalid_format {A} (opt_name spec image_name : string) : result A :=
  Raise (InvalidFormat ("Invalid " +:+ opt_name +:+ " specification '" +:+ spec
                        +:+ "' for image " +:+ image_name)).

(** [return VolImg( **match.groupdict() )]: the keyword arguments are the
    entries of the dictionary. *)
Definition parse_volume_spec (spec opt_name image_name : string) : result VolImg :=
  match re_match volume_spec_pattern spec with
  | Some caps =>
      let gd := groupdict volume_spec_pattern caps in
      match gd !! "image", gd !! "persist_image" with
      | Some i, Some p => Ok (mkVolImg i p)
      | _, _ => Raise (PyTypeError "__new__() missing required argument")
      end
  | None => invalid_format opt_name spec image_name
  end.

(** [r'^(?P<sourcepath>.+) (?:in (?P<inpath>.+)|at (?P<atpath>.+))$'] *)
Definition dir_spec_pattern : regex :=
  (Bos · Named "sourcepath" (Plus dot) · Lit " " ·
   ((Lit "in " · Named "inpath" (Plus dot)) ⊕
    (Lit "at " · Named "atpath" (Plus dot))) · Eos)%re.

Record ResPaths := mkResPaths {
  src_path : option string;
  dest_path : option string;
  dest_dir : option string;
}.

(** [gd[key]] *)
Definition getitem {V} (gd : gmap string V) (key : string) : result V :=
  match gd !! key with
  | Some v => Ok v
  | None => Raise (PyKeyError key)
  end.

Global Instance result_ret : MRet result := fun _ a => Ok a.
Global Instance result_bind : MBind result := fun _ _ f r =>
  match r with
  | Ok a => f a
  | Raise e => Raise e
  end.

Definition os_path_basename (p : option string) : result string :=
  match p with
  | Some p => Ok (os_path.basename p)
  | None => Raise (PyTypeError "expected str, bytes or os.PathLike object, not NoneType")
  end.

Definition os_path_dirname (p : option string) : result string :=
  match p with
  | Some p => Ok (os_path.dirname p)
  | None => Raise (PyTypeError "expected str, bytes or os.PathLike object, not NoneType")
  end.

(** [parse_dir_spec] of [moromi.py].  [groupdict()] has a key for every
    named group, so the test ["inpath" in gd] is a membership test on
    the keys.  The copy in [build/build.py] differs in that it writes
    the two keys as bare names. *)
Definition parse_dir_spec (spec opt_name image_name : string) : result ResPaths :=
  match re_match dir_spec_pattern spec with
  | Some caps =>
      let gd := groupdict dir_spec_pattern caps in
      src_path ← getitem gd "sourcepath";
      src_basename ← os_path_basename src_path;
      if decide (is_Some (gd !! "inpath")) then
        image_dir ← getitem gd "inpath";
        image_path ← os_path.join image_dir (Some src_basename);
        Ok (mkResPaths src_path (Some image_path) image_dir)
      else if decide (is_Some (gd !! "atpath")) then
        image_path ← getitem gd "atpath";
        image_dir ← os_path_dirname image_path;
        Ok (mkResPaths src_path image_path (Some image_dir))
      else Raise (PyException "dir_spec_pattern is broken")
  | None => invalid_format opt_name spec image_name
  end.

(** ** The outside world

    Every call to the container engine, every callback fired and every
    log record is an [effect]; a run is judged by its trace.  The engine
    is a function from the history so far and the call to its answer,
    so that it may answer the same call differently over time. *)

Inductive call :=
| CreateContainer (name image : string) (detach : bool) (volumes : list string)
                  (entrypoint working_dir : option string)
                  (environment command : list string)
| Start (container : string) (cap_add cap_drop : list string)
        (binds : gmap (option string) (string * bool))
        (links : list (string * string)) (volumes_from : list string)
| Kill (container : string) (signal : Z)
| Wait (container : string) (timeout : option Z)
| RemoveContainer (container : string) (force : bool)
| InspectContainer (container : string)
| Logs (container : string)
| Commit (container : string) (repository : option string)
| Ping
| Build (tag : option string) (base : string) (includes : list (string * string)).

(** What a call gives back when it does not raise.  For [Wait] it is
    the [StatusCode] entry of the JSON answer, when there is one. *)
Definition answer (c : call) : Type :=
  match c with
  | Wait _ _ => option Z
  | InspectContainer _ => inspect_info
  | Logs _ => string
  | _ => unit
  end.

Inductive level := DEBUG | INFO | ERROR.

Inductive effect :=
| Engine (c : call)
| Callback (event_part event callback_func container : string)
| Log (lvl : level) (message : string)
| TempDirEnter (host_dir image_root : string)
| TempDirInclude (host_dir path : string) (executable : bool)
| TempDirExit (host_dir : string).

Record World := {
  (** the engine behind [docker.Client] *)
  engine : list effect -> forall c : call, result (answer c);
  (** how the callback [callback_func] ends when fired on a container *)
  callback_outcome : list effect -> string -> string -> result unit;
  (** the values of successive [str(uuid.uuid4())] *)
  uuids : nat -> string;
  (** the directories of successive temporary resource directories *)
  tmpdirs : nat -> string;
}.

Record state := mkState {
  trace : list effect;
  uuid_next : nat;
  tmp_next : nat;
}.

Definition initial : state := mkState [] 0 0.

Definition M (A : Type) : Type := state -> state * result A.

Global Instance M_ret : MRet M := fun _ a st => (st, Ok a).
Global Instance M_bind : MBind M := fun _ _ f m st =>
  match m st with
  | (st', Ok a) => f a st'
  | (st', Raise e) => (st', Raise e)
  end.

Definition raise {A} (e : exn) : M A := fun st => (st, Raise e).

(** [try: body except Exception as e: handler e]; a handler that does
    not catch [e] raises it again. *)
Definition try_except {A} (body : M A) (handler : exn -> M A) : M A := fun st =>
  match body st with
  | (st', Raise e) => handler e st'
  | r => r
  end.

(** [with enter as r: body r]: [leave r] runs on every way out of the
    body *)
Definition with_ {R A} (enter : M R) (leave : R -> M unit) (body : R -> M A) : M A :=
  r ← enter;
  ((fun st =>
      match body r st with
      | (st', Ok a) => (leave r;; mret a) st'
      | (st', Raise e) => (leave r;; raise e) st'
      end) : M A).

(** the state after further events *)
Definition extend (st : state) (evs : list effect) : state :=
  mkState (trace st ++ evs) (uuid_next st) (tmp_next st).

Definition emit (ev : effect) : M unit := fun st => (extend st [ev], Ok tt).

Definition log (lvl : level) (message : string) : M unit := emit (Log lvl message).

Definition lift {A} (r : result A) : M A := fun st => (st, r).

Fixpoint for_each {A} (l : list A) (body : A -> M unit) : M unit :=
  match l with
  | [] => mret tt
  | x :: l' => body x;; for_each l' body
  end.

(** a [for] loop that updates local variables [acc] *)
Fixpoint fold_each {A S} (l : list A) (acc : S) (body : S -> A -> M S) : M S :=
  match l with
  | [] => mret acc
  | x :: l' => acc' ← body acc x; fold_each l' acc' body
  end.

Section World.
Context (w : World).

(** one call to the engine: recorded, then answered *)
Definition client (c : call) : M (answer c) := fun st =>
  (extend st [Engine c], engine w (trace st) c).

(** [str(uuid.uuid4())] *)
Definition uuid4 : M string := fun st =>
  (mkState (trace st) (S (uuid_next st)) (tmp_next st), Ok (uuids w (uuid_next st))).

Definition fire (event_part event callback_func container : string) : M unit := fun st =>
  (extend st [Callback event_part event callback_func container],
   callback_outcome w (trace st) callback_func container).

End World.

(** ** [nagoya/dockerext/container.py] *)

Module dockerext.

Record Env := mkEnv { key : string; value : string }.

Record VolumeLink := mkVolumeLink {
  host_path : option string;
  container_path : string;
  read_only : bool;
}.

Record VolumeFromLink := mkVolumeFromLink {
  vf_container_name : string;
  mode : string;
}.

Record NetworkLink := mkNetworkLink {
  nl_container_name : string;
  alias : string;
}.

(** [callback_func] is the coordinate of the function.  Firing it is
    [fire]: the call shows in the trace, and the world says whether the
    function returns or raises. *)
Record Callspec := mkCallspec {
  event_part : string;
  event : string;
  callback_func : string;
}.

Definition valid_events : gset string :=
  {[ "init"; "create"; "start"; "stop"; "remove" ]}.
Definition valid_event_parts : gset string := {[ "pre"; "post" ]}.

(** An expression statement whose value is an exception object: the
    object is built and dropped, nothing is raised. *)
Definition expression_statement (e : exn) : result unit := Ok tt.

(** [Callspec.__init__] *)
Definition Callspec__init__ (event_part event callback_func : string)
  : result Callspec :=
  (if negb (bool_decide (event_part ∈ valid_event_parts))
   then expression_statement
          (PyValueError ("Event part '" +:+ event_part +:+ "' is not valid"))
   else Ok tt);;
  (if negb (bool_decide (event ∈ valid_events))
   then expression_statement
          (PyValueError ("Event '" +:+ event +:+ "' is not valid"))
   else Ok tt);;
  Ok (mkCallspec event_part event callback_func).

Record Container := mkContainer {
  image : string;
  name : string;
  detach : bool;
  entrypoint : option string;
  run_once : bool;
  working_dir : option string;
  add_capabilities : list string;
  drop_capabilities : list string;
  callbacks : list Callspec;
  commands : list string;
  envs : list Env;
  links : list NetworkLink;
  volumes : list VolumeLink;
  volumes_from : list VolumeFromLink;
}.

Definition env_api_formatted (e : Env) : string := key e +:+ "=" +:+ value e.
Definition vf_api_formatted (v : VolumeFromLink) : string :=
  vf_container_name v +:+ ":" +:+ mode v.
Definition nl_api_formatted (l : NetworkLink) : string * string :=
  (nl_container_name l, alias l).

Definition envs_api_formatted (self : Container) : list string :=
  env_api_formatted <$> envs self.
Definition volumes_api_container_paths (self : Container) : list string :=
  container_path <$> volumes self.
(** [binds.update(v.bind_formatted())] for each volume in turn *)
Definition volumes_api_binds (self : Container)
  : gmap (option string) (string * bool) :=
  foldl (fun binds v => <[host_path v := (container_path v, read_only v)]> binds)
        ∅ (volumes self).
Definition volumes_from_api_formatted (self : Container) : list string :=
  vf_api_formatted <$> volumes_from self.
Definition links_api_formatted (self : Container) : list (string * string) :=
  nl_api_formatted <$> links self.

Definition dependency_names (self : Container) : gset string :=
  list_to_set (nl_container_name <$> links self)
  ∪ list_to_set (vf_container_name <$> volumes_from self).

Definition started_never : string := "0001-01-01T00:00:00Z".

(** assignments to attributes and appends to the list attributes *)
Definition set_entrypoint (self : Container) (e : option string) : Container :=
  mkContainer (image self) (name self) (detach self) e (run_once self)
    (working_dir self) (add_capabilities self) (drop_capabilities self)
    (callbacks self) (commands self) (envs self) (links self) (volumes self)
    (volumes_from self).
Definition set_working_dir (self : Container) (d : option string) : Container :=
  mkContainer (image self) (name self) (detach self) (entrypoint self)
    (run_once self) d (add_capabilities self) (drop_capabilities self)
    (callbacks self) (commands self) (envs self) (links self) (volumes self)
    (volumes_from self).
Definition append_link (self : Container) (l : NetworkLink) : Container :=
  mkContainer (image self) (name self) (detach self) (entrypoint self)
    (run_once self) (working_dir self) (add_capabilities self)
    (drop_capabilities self) (callbacks self) (commands self) (envs self)
    (links self ++ [l]) (volumes self) (volumes_from self).
Definition append_volume (self : Container) (v : VolumeLink) : Container :=
  mkContainer (image self) (name self) (detach self) (entrypoint self)
    (run_once self) (working_dir self) (add_capabilities self)
    (drop_capabilities self) (callbacks self) (commands self) (envs self)
    (links self) (volumes self ++ [v]) (volumes_from self).
Definition append_volume_from (self : Container) (v : VolumeFromLink) : Container :=
  mkContainer (image self) (name self) (detach self) (entrypoint self)
    (run_once self) (working_dir self) (add_capabilities self)
    (drop_capabilities self) (callbacks self) (commands self) (envs self)
    (links self) (volumes self) (volumes_from self ++ [v]).

Section Methods.
Context (w : World).

Definition _process_callbacks (self : Container) (part ev : string) : M unit :=
  for_each (callbacks self) (fun callspec =>
    if String.eqb (event_part callspec) part && String.eqb (event callspec) ev
    then fire w (event_part callspec) (event callspec)
              (callback_func callspec) (name self)
    else mret tt).

Definition tolerate_status (flag : bool) (status : Z) (message : string)
           (e : exn) : M unit :=
  match e with
  | APIError status_code =>
      if flag && (status_code =? status) then log DEBUG message else raise e
  | _ => raise e
  end.

Definition create (self : Container) (exists_ok : bool) : M unit :=
  try_except
    (_process_callbacks self "pre" "create";;
     log DEBUG ("Attempting to create container " +:+ name self);;
     client w (CreateContainer (name self) (image self) (detach self)
                 (volumes_api_container_paths self) (entrypoint self)
                 (working_dir self) (envs_api_formatted self)
                 (match commands self with [] => [""] | cs => cs end));;
     log INFO ("Created container " +:+ name self);;
     _process_callbacks self "post" "create")
    (tolerate_status exists_ok 409
       ("Container " +:+ name self +:+ " already exists")).

Definition logs (self : Container) (not_exists_ok : bool) : M (option string) :=
  try_except
    (out ← client w (Logs (name self)); mret (Some out))
    (fun e =>
       tolerate_status not_exists_ok 404
         ("Container " +:+ name self +:+ " does not exist") e;;
       mret None).

Definition inspect (self : Container) (not_exists_ok : bool)
  : M (option inspect_info) :=
  try_except
    (info ← client w (InspectContainer (name self)); mret (Some info))
    (fun e =>
       tolerate_status not_exists_ok 404
         ("Container " +:+ name self +:+ " does not exist") e;;
       mret None).

Definition wait (self : Container) (timeout : option Z) (error_ok : bool) : M Z :=
  d ← client w (Wait (name self) timeout);
  let status := match d with Some status_code => status_code | None => -1 end in
  if error_ok || (status =? 0) then mret status
  else
    captured ← logs self true;
    snapshot ← inspect self true;
    raise (ContainerExitError status captured snapshot).

(** the local function [start] inside [Container.start] *)
Definition start_body (self : Container) : M unit :=
  _process_callbacks self "pre" "start";;
  log DEBUG ("Attempting to start container " +:+ name self);;
  client w (Start (name self) (add_capabilities self) (drop_capabilities self)
              (volumes_api_binds self) (links_api_formatted self)
              (volumes_from_api_formatted self));;
  (if negb (detach self) then
     log INFO ("Waiting for container " +:+ name self +:+ " to finish");;
     wait self None false;;
     log INFO ("Container " +:+ name self +:+ " exited ok")
   else
     log INFO ("Started container " +:+ name self));;
  _process_callbacks self "post" "start".

(** the engine call of [start], and what the local function does
    once the engine has answered it *)
Definition start_call (self : Container) : call :=
  Start (name self) (add_capabilities self) (drop_capabilities self)
    (volumes_api_binds self) (links_api_formatted self)
    (volumes_from_api_formatted self).

Definition after_start (self : Container) : M unit :=
  (if negb (detach self) then
     log INFO ("Waiting for container " +:+ name self +:+ " to finish");;
     wait self None false;;
     log INFO ("Container " +:+ name self +:+ " exited ok")
   else
     log INFO ("Started container " +:+ name self));;
  _process_callbacks self "post" "start".

Definition start (self : Container) : M unit :=
  if run_once self then
    container_info ← client w (InspectContainer (name self));
    if String.eqb (state_started_at container_info) started_never
    then start_body self
    else log DEBUG ("Container " +:+ name self +:+
                    " is configured to run only once and has been started before")
  else start_body self.

Definition init (self : Container) : M unit :=
  _process_callbacks self "pre" "init";;
  log DEBUG ("Initializing container " +:+ name self);;
  create self true;;
  start self;;
  _process_callbacks self "post" "init".

Definition on_timeout (handler : M unit) (e : exn) : M unit :=
  match e with
  | Timeout => handler
  | _ => raise e
  end.

Definition stop (self : Container) (not_exists_ok : bool) : M unit :=
  log DEBUG ("Attempting to stop container " +:+ name self);;
  try_except
    (container_info ← client w (InspectContainer (name self));
     let pid := state_pid container_info in
     if pid =? 0 then
       log DEBUG ("Container " +:+ name self +:+ " is not running")
     else
       _process_callbacks self "pre" "stop";;
       client w (Kill (name self) 15);;
       try_except
         (wait self (Some 20) true;;
          log INFO ("Stopped container " +:+ name self);;
          _process_callbacks self "post" "stop")
         (on_timeout
            (client w (Kill (name self) 9);;
             try_except
               (wait self (Some 20) true;;
                log INFO ("Killed container " +:+ name self);;
                _process_callbacks self "post" "stop")
               (on_timeout
                  (log ERROR ("Unable to kill container " +:+ name self
                              +:+ ": timed out"))))))
    (tolerate_status not_exists_ok 404
       ("Container " +:+ name self +:+ " does not exist")).

Definition remove (self : Container) (not_exists_ok : bool) : M unit :=
  try_except
    (_process_callbacks self "pre" "remove";;
     log DEBUG ("Attempting to remove container " +:+ name self);;
     client w (RemoveContainer (name self) true);;
     log INFO ("Removed container " +:+ name self);;
     _process_callbacks self "post" "remove")
    (tolerate_status not_exists_ok 404
       ("Container " +:+ name self +:+ " doesn't exist")).

(** [Container.__init__] with the arguments the builds pass; the
    default of [name] is computed whether or not it is used. *)
Definition Container__init__ (image : string) (name : option string)
           (detach : bool) : M Container :=
  fresh ← uuid4 w;
  mret (mkContainer image (default fresh name) detach None false None
                    [] [] [] [] [] [] [] []).

(** [image.split(":")[0]] *)
Fixpoint before_colon (s : string) : string :=
  match s with
  | EmptyString => EmptyString
  | String a s' => if Ascii.eqb a ":" then EmptyString else String a (before_colon s')
  end.

Definition TempContainer (image : string) (name : option string)
           (detach : bool) : M Container :=
  let image_name := before_colon image in
  name ← match name with
         | None => u ← uuid4 w; mret (image_name +:+ "." +:+ Str.take 8 u)
         | Some n => mret n
         end;
  Container__init__ image (Some name) detach.

End Methods.

(** the callbacks of [self] registered for a phase and an event, in
    registration order, as they show in a trace *)
Definition matching (part ev : string) (callspec : Callspec) : bool :=
  String.eqb (event_part callspec) part && String.eqb (event callspec) ev.

Definition callback_effects (self : Container) (part ev : string) : list effect :=
  (fun callspec => Callback (event_part callspec) (event callspec)
                     (callback_func callspec) (name self))
    <$> List.filter (matching part ev) (callbacks self).

End dockerext.

(** ** Reading traces *)

(** the names the engine was asked to create, and to remove *)
Definition created (t : list effect) : list string :=
  omap (fun ev => match ev with
                  | Engine (CreateContainer n _ _ _ _ _ _ _) => Some n
                  | _ => None
                  end) t.

Definition removed (t : list effect) : list string :=
  omap (fun ev => match ev with
                  | Engine (RemoveContainer n _) => Some n
                  | _ => None
                  end) t.

(** the commits and the image builds the engine was asked for *)
Definition commits (t : list effect) : list (string * option string) :=
  omap (fun ev => match ev with
                  | Engine (Commit n repo) => Some (n, repo)
                  | _ => None
                  end) t.

Definition builds (t : list effect)
  : list (option string * string * list (string * string)) :=
  omap (fun ev => match ev with
                  | Engine (Build tag base includes) => Some (tag, base, includes)
                  | _ => None
                  end) t.

(** the calls to the engine, in order *)
Definition engine_calls (t : list effect) : list call :=
  omap (fun ev => match ev with Engine c => Some c | _ => None end) t.

(** the container a call is about *)
Definition subject_of (c : call) : option string :=
  match c with
  | CreateContainer n _ _ _ _ _ _ _ | Start n _ _ _ _ _ | Kill n _ | Wait n _
  | RemoveContainer n _ | InspectContainer n | Logs n | Commit n _ => Some n
  | Ping | Build _ _ _ => None
  end.

(** the calls about the container [n], in order *)
Definition calls_on (n : string) (t : list effect) : list call :=
  List.filter (fun c => match subject_of c with
                        | Some m => String.eqb m n
                        | None => false
                        end) (engine_calls t).

(** an effect that removes no container but those of [names] *)
Definition removes_among (names : list string) (ev : effect) : bool :=
  match ev with
  | Engine (RemoveContainer n _) => bool_decide (n ∈ names)
  | _ => true
  end.

(** the callbacks fired for an event, whatever the phase *)
Definition fired (ev : string) (t : list effect) : list (string * string) :=
  omap (fun e => match e with
                 | Callback part ev' f _ =>
                     if String.eqb ev' ev then Some (part, f) else None
                 | _ => None
                 end) t.

(** [m] adds to the trace only effects that satisfy [P] *)
Definition emits (P : effect -> bool) {A} (m : M A) : Prop :=
  forall st st' r, m st = (st', r) ->
    exists evs, trace st' = (trace st ++ evs)%list /\ forallb P evs = true.

(** an effect that neither removes a container nor commits or builds an
    image *)
Definition disposes_nothing (ev : effect) : bool :=
  match ev with
  | Engine (RemoveContainer _ _) | Engine (Commit _ _) | Engine (Build _ _ _) => false
  | _ => true
  end.

(** [m] raises only exceptions that satisfy [Q] *)
Definition raises_only (Q : exn -> Prop) {A} (m : M A) : Prop :=
  forall st st' e, m st = (st', Raise e) -> Q e.

Definition not_found (e : exn) : Prop := e = APIError 404.
Definition not_found_or_timeout (e : exn) : Prop := e = APIError 404 \/ e = Timeout.

(** an engine that answers, or reports that the container is not there *)
Definition answers_or_not_found {A} (r : result A) : Prop :=
  match r with
  | Ok _ => True
  | Raise (APIError status_code) => status_code = 404
  | Raise _ => False
  end.

(** the same, or runs into the time limit *)
Definition answers_in_time_or_not {A} (r : result A) : Prop :=
  match r with
  | Ok _ => True
  | Raise (APIError status_code) => status_code = 404
  | Raise Timeout => True
  | Raise _ => False
  end.

(** stand-ins for the two build paths *)
Definition routed_to_system : M unit := log INFO "container-system build".
Definition routed_to_layers : M unit := log INFO "layered build".

(** [rest] does not begin with a character of the class: a run of the
    class ends where [rest] begins. *)
Definition stops (cls : ascii -> bool) (rest : string) : bool :=
  match rest with
  | EmptyString => true
  | String c _ => negb (cls c)
  end.

(** a character of a directory name that cannot be taken for a
    separator of the mini-language: neither a space nor a newline *)
Definition plain (a : ascii) : bool := dot a && not_space a.

(** ** Image configuration *)

(** A value of a configuration section: text, or a boolean for the
    options listed in [boolean_config_options]. *)
Inductive cfgval :=
| CfgStr (s : string)
| CfgBool (b : bool).

Definition truthy (v : cfgval) : bool :=
  match v with
  | CfgStr s => negb (String.eqb s "")
  | CfgBool b => b
  end.

Definition as_str (v : cfgval) : result string :=
  match v with
  | CfgStr s => Ok s
  | CfgBool _ => Raise (PyAttributeError "'bool' object has no attribute 'split'")
  end.

Definition line_split (s : string) : list string := Str.strip <$> Str.split "010" s.

Definition optional_plural (cfg : gmap string cfgval) (key : string) : M (list string) :=
  match cfg !! key with
  | Some v =>
      log DEBUG ("Optional config key " +:+ key +:+ " exists");;
      text ← lift (as_str v);
      mret (line_split text)
  | None =>
      log DEBUG ("Optional config key " +:+ key +:+ " does not exist");;
      mret []
  end.

Definition container_system_option_names : gset string :=
  {[ "volumes_from"; "links"; "commit" ]}.

(** ** [build_images]

    The two copies differ in the arguments they hand on to the build
    paths ([quiet], and [env] in [moromi.py]); the paths are functions
    of the image and its configuration here. *)

Section BuildImages.
Context (w : World).
(** the two build paths, [build_container_system] and [build_image] *)
Context (build_container_system build_image
           : string -> gmap string cfgval -> M unit).

(** the body of the loop over [images] *)
Definition build_images_body (config : gmap string (gmap string cfgval))
           (image : string) : M unit :=
  log DEBUG ("Processing image " +:+ image);;
  image_config ← lift (getitem config image);
  if negb (bool_decide (container_system_option_names ## dom image_config))
  then build_container_system image image_config
  else build_image image image_config.

Definition build_images (config : gmap string (gmap string cfgval))
           (images : list string) : M unit :=
  let num_img := length images in
  log INFO ("Building " +:+ pretty num_img +:+ " image" +:+
            (if (1 <? num_img)%nat then "s" else ""));;
  client w Ping;;
  for_each images (build_images_body config);;
  log INFO "Done".

End BuildImages.

(** ** [nagoya/build/build.py]: the spec parsers

    The file is a snapshot taken in the middle of a refactoring: an
    older copy of what [moromi.py] holds. *)

Module build.

(** [r'^(?P<image>[^ ]+) then (discard$|persist to (?P<persistimage>[^: ]+)$)'] *)
Definition volume_spec_pattern : regex :=
  (Bos · Named "image" (Plus not_space) · Lit " then " ·
   ((Lit "discard" · Eos) ⊕
    (Lit "persist to " · Named "persistimage" (Plus not_colon_space) · Eos)))%re.

(** [r'^(?P<image>[^ ]+) alias (?P<alias>[^ ]+) then (discard$|commit to (?P<commitimage>[^: ]+)$)'] *)
Definition link_spec_pattern : regex :=
  (Bos · Named "image" (Plus not_space) · Lit " alias " ·
   Named "alias" (Plus not_space) · Lit " then " ·
   ((Lit "discard" · Eos) ⊕
    (Lit "commit to " · Named "commitimage" (Plus not_colon_space) · Eos)))%re.

Definition parse_volume_spec (spec opt_name image_name : string) : result VolImg :=
  match re_match volume_spec_pattern spec with
  | Some caps =>
      let gd := groupdict volume_spec_pattern caps in
      image ← getitem gd "image";
      persist_image ←
        (if decide (is_Some (gd !! "persistimage"))
         then getitem gd "persistimage"
         else Ok None);
      Ok (mkVolImg image persist_image)
  | None => invalid_format opt_name spec image_name
  end.

(** [str] of a value that may be [None] *)
Definition str_opt (o : option string) : string := default "None" o.

End build.

(** ** Sample containers, engines and configurations *)

Module sample.

(** a stand-in for [str(uuid.uuid4())]: different for every call *)
Definition uuid (n : nat) : string := pretty n +:+ "c9a1f3e-5d2b-4f6a-9c1e-7b8d2a4e6f01".
Definition tmpdir (n : nat) : string := "/tmp/nagoya" +:+ pretty n.

Definition never_started : inspect_info :=
  InspectInfo 0 dockerext.started_never ["/data"; "/var/lib/db"].
Definition running : inspect_info :=
  InspectInfo 4242 "2014-06-01T10:00:00Z" ["/data"].

(** an engine without memory that answers every call *)
Definition fine (info : inspect_info) (status : option Z) (c : call)
  : result (answer c) :=
  match c with
  | Wait _ _ => Ok status
  | InspectContainer _ => Ok info
  | Logs _ => Ok "boom"
  | _ => Ok tt
  end.

Definition world_of (eng : forall c : call, result (answer c)) : World :=
  {| engine := fun _ c => eng c;
     callback_outcome := fun _ _ _ => Ok tt;
     uuids := uuid;
     tmpdirs := tmpdir |}.

(** the name is taken: [create_container] answers 409 *)
Definition already_exists : World :=
  world_of (fun c => match c with
                     | CreateContainer _ _ _ _ _ _ _ _ => Raise (APIError 409)
                     | other => fine never_started (Some 0) other
                     end).

(** a running container that ignores every signal *)
Definition stuck : World :=
  world_of (fun c => match c with
                     | Wait _ _ => Raise Timeout
                     | other => fine running None other
                     end).

(** a container that has run before *)
Definition started_before : World := world_of (fine running (Some 0)).

(** every container exits with [status] *)
Definition exits (status : Z) : World := world_of (fine never_started (Some status)).

Definition begins_with (prefix s : string) : bool :=
  match Str.strip_prefix prefix s with Some _ => true | None => false end.

(** containers of the image [base] exit with [status], all others
    with 0 *)
Definition root_exits (status : Z) : World :=
  world_of (fun c => match c with
                     | Wait n _ =>
                         Ok (Some (if begins_with "base." n then status else 0))
                     | other => fine never_started (Some 0) other
                     end).

(** the root and the volume container exit with 0, any other
    container (the extraction helper) with [status] *)
Definition helper_exits (status : Z) : World :=
  world_of (fun c => match c with
                     | Wait n _ =>
                         Ok (Some (if begins_with "base." n || begins_with "data." n
                                   then 0 else status))
                     | other => fine never_started (Some 0) other
                     end).

Definition hooks : list dockerext.Callspec :=
  [ dockerext.mkCallspec "pre" "create" "hooks.before_create";
    dockerext.mkCallspec "post" "create" "hooks.after_create";
    dockerext.mkCallspec "pre" "stop" "hooks.before_stop";
    dockerext.mkCallspec "post" "stop" "hooks.after_stop" ].

Definition web : dockerext.Container :=
  dockerext.mkContainer "base:latest" "web" true None false None
    [] [] hooks [] [] [] [] [].

Definition job : dockerext.Container :=
  dockerext.mkContainer "base:latest" "job" true None true None
    [] [] [] [] [] [] [] [].

(** [from = base:latest], one volume container persisted to [out] *)
Definition persist_config : gmap string cfgval :=
  {[ "from" := CfgStr "base:latest";
     "volumes_from" := CfgStr "data:1 then persist to out" ]}.

End sample.

(** ** Python's sequence unpacking, [split] with a limit and [join] *)

Module Py.

(** [a, b = l] *)
Definition unpack2 {A} (l : list A) : result (A * A) :=
  match l with
  | [a; b] => Ok (a, b)
  | _ :: _ :: _ :: _ =>
      Raise (PyValueError "too many values to unpack (expected 2)")
  | _ =>
      Raise (PyValueError ("not enough values to unpack (expected 2, got "
                           +:+ pretty (length l) +:+ ")"))
  end.

(** [s.split(c, 1)]: cut at the first [c] only *)
Fixpoint split1 (c : ascii) (s : string) : list string :=
  match s with
  | EmptyString => [EmptyString]
  | String a s' =>
      if Ascii.eqb a c then [EmptyString; s']
      else match split1 c s' with
           | h :: t => String a h :: t
           | [] => [String a EmptyString]
           end
  end.

(** [s.rsplit(c, 1)]: cut at the last [c] only *)
Definition rsplit1 (c : ascii) (s : string) : list string :=
  match Str.rfind_succ c s with
  | O => [s]
  | S i => [Str.take i s; Str.drop (S i) s]
  end.

(** [sep.join(l)] on strings *)
Fixpoint join (sep : string) (l : list string) : string :=
  match l with
  | [] => EmptyString
  | x :: l' =>
      match l' with
      | [] => x
      | _ :: _ => x +:+ sep +:+ join sep l'
      end
  end.

(** [s.startswith(prefix)] *)
Definition startswith (prefix s : string) : bool :=
  match Str.strip_prefix prefix s with
  | Some _ => true
  | None => false
  end.

(** [c not in s] *)
Definition lacks (c : ascii) (s : string) : bool :=
  Str.all (fun a => negb (Str.is_char c a)) s.

(** [s.count(c)] *)
Fixpoint count (c : ascii) (s : string) : nat :=
  match s with
  | EmptyString => O
  | String a s' => (if Ascii.eqb a c then 1 else 0) + count c s'
  end.

(** The values that the attributes of a [VolumeLink] hold. *)
Inductive value :=
| VStr (s : string)
| VNone
| VBool (b : bool).

Definition type_name (v : value) : string :=
  match v with
  | VStr _ => "str"
  | VNone => "NoneType"
  | VBool _ => "bool"
  end.

(** the items of a sequence handed to [join], which have to be
    strings: the first one that is not raises [TypeError] *)
Fixpoint strs (i : nat) (items : list value) : result (list string) :=
  match items with
  | [] => Ok []
  | VStr s :: items' => rest ← strs (S i) items'; Ok (s :: rest)
  | v :: _ =>
      Raise (PyTypeError ("sequence item " +:+ pretty i
                          +:+ ": expected str instance, " +:+ type_name v
                          +:+ " found"))
  end.

(** [sep.join(items)] *)
Definition join_values (sep : string) (items : list value) : result string :=
  l ← strs 0 items; Ok (join sep l).

End Py.

(** the text of a line end *)
Definition newline : string := String "010" EmptyString.

(** ** [dockerext/container.py]: the text forms of the value classes *)

Module Env.

(** [k,v = text.split("=", 1); return cls(k, v)] *)
Definition from_text (text : string) : result dockerext.Env :=
  '(k, v) ← Py.unpack2 (Py.split1 "=" text);
  Ok (dockerext.mkEnv k v).

End Env.

Module VolumeLink.

Definition from_text (text : string) : result dockerext.VolumeLink :=
  let s := Str.split ":" text in
  '(h, c) ← match s with
            | [c] => Ok (None, c)
            | _ => '(h, c) ← Py.unpack2 s; Ok (Some h, c)
            end;
  Ok (dockerext.mkVolumeLink h c false).

(** [{self.host_path: {"bind": self.container_path, "ro": self.read_only}}] *)
Definition bind_formatted (self : dockerext.VolumeLink)
  : gmap (option string) (string * bool) :=
  {[ dockerext.host_path self
     := (dockerext.container_path self, dockerext.read_only self) ]}.

(** [":".join([self.container_path, self.host_path, self.read_only])] *)
Definition __str__ (self : dockerext.VolumeLink) : result string :=
  Py.join_values ":"
    [ Py.VStr (dockerext.container_path self);
      from_option Py.VStr Py.VNone (dockerext.host_path self);
      Py.VBool (dockerext.read_only self) ].

End VolumeLink.

Module VolumeFromLink.

Definition from_text (text : string) : result dockerext.VolumeFromLink :=
  '(c, m) ← Py.unpack2 (Str.split ":" text);
  Ok (dockerext.mkVolumeFromLink c m).

End VolumeFromLink.

Module NetworkLink.

Definition from_text (text : string) : result dockerext.NetworkLink :=
  '(c, a) ← Py.unpack2 (Str.split ":" text);
  Ok (dockerext.mkNetworkLink c a).

(** [":".join(self.api_formatted())] *)
Definition __str__ (self : dockerext.NetworkLink) : string :=
  let '(c, a) := dockerext.nl_api_formatted self in Py.join ":" [c; a].

End NetworkLink.

Module Callspec.

Section FromText.
(** [getattr(importlib.import_module(module), cb_name)]: the function
    behind a coordinate, or the exception of the import or of the
    lookup *)
Context (import_attr : string -> string -> result string).

Definition from_text (text : string) : result dockerext.Callspec :=
  '(event_spec, cb_coord) ← Py.unpack2 (Str.split ":" text);
  '(event_part, event) ← Py.unpack2 (Str.split "_" event_spec);
  callback_func ←
    (if Py.startswith "." cb_coord then
       Raise (PyValueError ("Callback coordinate '" +:+ cb_coord
                            +:+ "' cannot be relative"))
     else
       '(module, cb_name) ← Py.unpack2 (Py.rsplit1 "." cb_coord);
       import_attr module cb_name);
  dockerext.Callspec__init__ event_part event callback_func.

End FromText.

End Callspec.

(** ** [dockerext/container.py]: the [add_] methods, the engine call
    of [create] and the context manager of [TempContainer] *)

Definition add_env (self : dockerext.Container) (key value : string)
  : dockerext.Container :=
  dockerext.mkContainer (dockerext.image self) (dockerext.name self)
    (dockerext.detach self) (dockerext.entrypoint self) (dockerext.run_once self)
    (dockerext.working_dir self) (dockerext.add_capabilities self)
    (dockerext.drop_capabilities self) (dockerext.callbacks self)
    (dockerext.commands self)
    (dockerext.envs self ++ [dockerext.mkEnv key value])
    (dockerext.links self) (dockerext.volumes self) (dockerext.volumes_from self).

Definition add_volume_from (self : dockerext.Container)
           (container_name mode : string) : dockerext.Container :=
  dockerext.append_volume_from self
    (dockerext.mkVolumeFromLink container_name mode).

Definition add_link (self : dockerext.Container)
           (container_name alias : string) : dockerext.Container :=
  dockerext.append_link self (dockerext.mkNetworkLink container_name alias).

Definition add_volume (self : dockerext.Container) (host_path : option string)
           (container_path : string) (read_only : bool) : dockerext.Container :=
  dockerext.append_volume self
    (dockerext.mkVolumeLink host_path container_path read_only).

(** the engine call of [create] *)
Definition create_call (self : dockerext.Container) : call :=
  CreateContainer (dockerext.name self) (dockerext.image self)
    (dockerext.detach self) (dockerext.volumes_api_container_paths self)
    (dockerext.entrypoint self) (dockerext.working_dir self)
    (dockerext.envs_api_formatted self)
    (match dockerext.commands self with [] => [""] | cs => cs end).

(** the container that [TempContainer(image, detach=detach)] makes
    when [random_name()] gives [u] *)
Definition temp_container (image : string) (detach : bool) (u : string)
  : dockerext.Container :=
  dockerext.mkContainer image
    (dockerext.before_colon image +:+ "." +:+ Str.take 8 u)
    detach None false None [] [] [] [] [] [] [] [].

(** [with TempContainer(image, name, detach=detach) as self: body]:
    [__enter__] hands out the container, [__exit__] is [self.remove()]
    and returns nothing, so an exception of the body goes on after it *)
Definition with_TempContainer {A} (w : World) (image : string)
           (name : option string) (detach : bool)
           (body : dockerext.Container -> M A) : M A :=
  with_ (dockerext.TempContainer w image name detach)
        (fun self => dockerext.remove w self true)
        body.

(** ** [nagoya/moromi.py]: link specs and the layered build *)

Module moromi.

(** [r'^(?P<image>[^ ]+) alias (?P<alias>[^ ]+) then (discard$|commit to (?P<commit_image>[^: ]+)$)'] *)
Definition link_spec_pattern : regex :=
  (Bos · Named "image" (Plus not_space) · Lit " alias " ·
   Named "alias" (Plus not_space) · Lit " then " ·
   ((Lit "discard" · Eos) ⊕
    (Lit "commit to " · Named "commit_image" (Plus not_colon_space) · Eos)))%re.

Record LinkImg := mkLinkImg {
  image : option string;
  alias : option string;
  commit_image : option string;
}.

(** [return LinkImg( **match.groupdict() )] *)
Definition parse_link_spec (spec opt_name image_name : string) : result LinkImg :=
  match re_match link_spec_pattern spec with
  | Some caps =>
      let gd := groupdict link_spec_pattern caps in
      match gd !! "image", gd !! "alias", gd !! "commit_image" with
      | Some i, Some a, Some c => Ok (mkLinkImg i a c)
      | _, _, _ => Raise (PyTypeError "__new__() missing required argument")
      end
  | None => invalid_format opt_name spec image_name
  end.

(** [class Previous]: the object holds the last value it was called
    with; the call says whether the new value is the one it held *)
Record Previous := mkPrevious { value : option string }.

Definition Previous__call__ (self : Previous) (new : option string)
  : Previous * bool :=
  if decide (value self = new) then (self, true)
  else (mkPrevious new, false).

(** [dir_spec_pattern.match(spec)] wants a string *)
Definition as_subject (v : cfgval) : result string :=
  match v with
  | CfgStr s => Ok s
  | CfgBool _ => Raise (PyTypeError "expected string or bytes-like object")
  end.

(** The method calls that [build_image] makes on its build context,
    [nagoya.dockerext.build.BuildContext]; the class is not part of
    these sources, and what it does with the calls is not modelled. *)
Inductive context_call :=
| Maintainer (who : cfgval)
| Expose (port : string)
| Volume (path : string)
| Include (src_path dest_path : option string) (executable : bool)
| SetEnv (k v : string)
| Workdir (image_dir : option string)
| Run (path : option string)
| Entrypoint (path : option string).

(** the local function [add_workdir] of [build_image] *)
Definition add_workdir (context : list context_call) (previous_workdir : Previous)
           (image_dir : option string) : list context_call * Previous :=
  let '(previous_workdir, same) := Previous__call__ previous_workdir image_dir in
  if negb same then ((context ++ [Workdir image_dir])%list, previous_workdir)
  else (context, previous_workdir).

Definition lib_step (image_name : string) (context : list context_call)
           (lib_spec : string) : M (list context_call) :=
  res_paths ← lift (parse_dir_spec lib_spec "lib" image_name);
  mret (context ++ [Include (src_path res_paths) (dest_path res_paths) false])%list.

Definition env_step (context : list context_call) (env_spec : string)
  : M (list context_call) :=
  '(k, v) ← lift (Py.unpack2 (Py.split1 "=" env_spec));
  mret (context ++ [SetEnv k v])%list.

Definition run_step (image_name : string)
           (acc : list context_call * Previous) (run_spec : string)
  : M (list context_call * Previous) :=
  res_paths ← lift (parse_dir_spec run_spec "run" image_name);
  let context :=
    (acc.1 ++ [Include (src_path res_paths) (dest_path res_paths) true])%list in
  let '(context, previous_workdir) :=
    add_workdir context acc.2 (dest_dir res_paths) in
  mret ((context ++ [Run (dest_path res_paths)])%list, previous_workdir).

Definition entrypoint_step (image_name : string)
           (acc : list context_call * Previous) (entrypoint_spec : string)
  : M (list context_call) :=
  res_paths ← lift (parse_dir_spec entrypoint_spec "entrypoint" image_name);
  let context :=
    (acc.1 ++ [Include (src_path res_paths) (dest_path res_paths) true])%list in
  let '(context, _) := add_workdir context acc.2 (dest_dir res_paths) in
  mret (context ++ [Entrypoint (dest_path res_paths)])%list.

(** [build_image]: the base image the context is opened on, and the
    calls made on the context, in order *)
Definition build_image (image_name : string) (image_config : gmap string cfgval)
           (extra_env : list string) : M (cfgval * list context_call) :=
  log INFO ("Generating files for " +:+ image_name);;
  from ← lift (getitem image_config "from");
  maintainer ← lift (getitem image_config "maintainer");
  let context := [Maintainer maintainer] in
  ports ← optional_plural image_config "exposes";
  let context := (context ++ (Expose <$> ports))%list in
  volumes ← optional_plural image_config "volumes";
  let context := (context ++ (Volume <$> volumes))%list in
  lib_specs ← optional_plural image_config "libs";
  context ← fold_each lib_specs context (lib_step image_name);
  env_specs ← optional_plural image_config "envs";
  context ← fold_each (env_specs ++ extra_env)%list context env_step;
  run_specs ← optional_plural image_config "runs";
  acc ← fold_each run_specs (context, mkPrevious (Some "")) (run_step image_name);
  context ←
    (match image_config !! "entrypoint" with
     | Some v =>
         entrypoint_spec ← lift (as_subject v);
         entrypoint_step image_name acc entrypoint_spec
     | None => mret acc.1
     end);
  mret (from, context).

(** the directories of the [workdir] calls, in order *)
Definition workdirs (context : list context_call) : list (option string) :=
  omap (fun c => match c with Workdir d => Some d | _ => None end) context.

End moromi.

(** [parse_link_spec] of [build/build.py], which names the group
    [commitimage] and reads the groups one by one *)
Definition build_parse_link_spec (spec opt_name image_name : string)
  : result moromi.LinkImg :=
  match re_match build.link_spec_pattern spec with
  | Some caps =>
      let gd := groupdict build.link_spec_pattern caps in
      image ← getitem gd "image";
      alias ← getitem gd "alias";
      commit_image ←
        (if decide (is_Some (gd !! "commitimage"))
         then getitem gd "commitimage"
         else Ok None);
      Ok (moromi.mkLinkImg image alias commit_image)
  | None => invalid_format opt_name spec image_name
  end.

(** no two neighbours of the list are equal *)
Fixpoint no_repeat {A} `{EqDecision A} (l : list A) : bool :=
  match l with
  | x :: l' =>
      match l' with
      | y :: _ => negb (bool_decide (x = y)) && no_repeat l'
      | [] => true
      end
  | [] => true
  end.

(** what holds of the calls and of [previous_workdir] all along the
    runs: no [workdir] repeats the one before it, and the object
    holds the directory of the last one *)
Definition workdir_inv (acc : list moromi.context_call * moromi.Previous) : Prop :=
  no_repeat (Some "" :: moromi.workdirs acc.1) = true
  /\ last (Some "" :: moromi.workdirs acc.1) = Some (moromi.value acc.2).

(** the part of [build_image] that makes a call: the maintainer, the
    exposed ports, the volumes, the libraries, the environment, the
    files to run (their inclusion, working directory and run), the
    entry point *)
Definition stage (c : moromi.context_call) : nat :=
  match c with
  | moromi.Maintainer _ => 0
  | moromi.Expose _ => 1
  | moromi.Volume _ => 2
  | moromi.Include _ _ false => 3
  | moromi.SetEnv _ _ => 4
  | moromi.Include _ _ true | moromi.Workdir _ | moromi.Run _ => 5
  | moromi.Entrypoint _ => 6
  end.

(** no call comes before a call of an earlier part *)
Definition in_stage_order (context : list moromi.context_call) : Prop :=
  forall i j c d, (i < j)%nat -> context !! i = Some c -> context !! j = Some d ->
                  (stage c <= stage d)%nat.

(** what holds of the calls all along [build_image]: the first is the
    maintainer's, they are in the order of the parts, and none is of
    a part after [k] *)
Definition staged (maintainer : cfgval) (k : nat)
           (context : list moromi.context_call) : Prop :=
  head context = Some (moromi.Maintainer maintainer)
  /\ in_stage_order context
  /\ Forall (fun c => (stage c <= k)%nat) context.

(** the record that [build_images] opens with *)
Definition building (images : list string) : effect :=
  Log INFO ("Building " +:+ pretty (length images) +:+ " image" +:+
            (if (1 <? length images)%nat then "s" else "")).

(** ** [nagoya/moromi.py]: the body of the block of
    [build_container_system] *)

Module consys.

(** The method calls that the block makes on [bcs], the
    [nagoya.buildcsys.BuildContainerSystem] it runs under; the class
    is not part of these sources, and what it does with the calls is
    not modelled.  [bcs.root] is a [Container]: the block sets its
    working directory and calls its [add_] methods. *)
Inductive bcs_call :=
| BcsCommit (container : string)
| BcsVolumeInclude (container : string) (src_path dest_path : option string)
                   (executable : bool)
| BcsPersist (container : string) (dest : option string).

Record system := mkSystem {
  root : dockerext.Container;
  calls : list bcs_call;
}.

Definition called (bcs : system) (c : bcs_call) : system :=
  mkSystem (root bcs) (calls bcs ++ [c]).

Definition with_root (bcs : system) (root : dockerext.Container) : system :=
  mkSystem root (calls bcs).

Section Block.
(** [bcs.container(image=..., detach=...)], which hands out the
    container it has made *)
Context (bcs_container : option string -> bool -> M dockerext.Container).

(** The names in scope at the format are [image_name], [image_config],
    [client], [quiet], [extra_env] and [bcs]: [format( **locals() )]
    finds no [root] for the field of the message. *)
Definition commit_part (image_config : gmap string cfgval) (bcs : system) : M system :=
  if match image_config !! "commit" with Some v => truthy v | None => false end
  then
    (raise (PyKeyError "root") : M unit);;
    mret (called bcs (BcsCommit (dockerext.name (root bcs))))
  else mret bcs.

Definition entrypoint_part (image_name : string) (image_config : gmap string cfgval)
           (bcs : system) : M system :=
  match image_config !! "entrypoint" with
  | Some v =>
      entrypoint_spec ← lift (moromi.as_subject v);
      res_paths ← lift (parse_dir_spec entrypoint_spec "entrypoint" image_name);
      let bcs := with_root bcs (dockerext.set_working_dir (root bcs)
                                  (dest_dir res_paths)) in
      mret (called bcs (BcsVolumeInclude (dockerext.name (root bcs))
                          (src_path res_paths) (dest_path res_paths) true))
  | None => mret bcs
  end.

Definition env_step (bcs : system) (env_spec : string) : M system :=
  '(k, v) ← lift (Py.unpack2 (Py.split1 "=" env_spec));
  mret (with_root bcs (add_env (root bcs) k v)).

Definition lib_step (image_name : string) (bcs : system) (lib_spec : string)
  : M system :=
  res_paths ← lift (parse_dir_spec lib_spec "lib" image_name);
  mret (called bcs (BcsVolumeInclude (dockerext.name (root bcs))
                      (src_path res_paths) (dest_path res_paths) false)).

Definition volume_step (image_name : string) (bcs : system) (volume_spec : string)
  : M system :=
  vol ← lift (parse_volume_spec volume_spec "volume_from" image_name);
  vol_container ← bcs_container (image vol) false;
  log DEBUG ("Root container will have volumes from container "
             +:+ dockerext.name vol_container);;
  let bcs := with_root bcs (add_volume_from (root bcs)
                              (dockerext.name vol_container) "rw") in
  match persist_image vol with
  | Some target =>
      log DEBUG ("Container " +:+ dockerext.name vol_container
                 +:+ " will be persisted to " +:+ target);;
      mret (called bcs (BcsPersist (dockerext.name vol_container) (Some target)))
  | None => mret bcs
  end.

(** [link.alias] is the group [alias], which is part of every match *)
Definition link_step (image_name : string) (bcs : system) (link_spec : string)
  : M system :=
  link ← lift (moromi.parse_link_spec link_spec "link" image_name);
  link_container ← bcs_container (moromi.image link) true;
  log DEBUG ("Root container will be linked to container "
             +:+ dockerext.name link_container);;
  let bcs := with_root bcs (add_link (root bcs) (dockerext.name link_container)
                              (build.str_opt (moromi.alias link))) in
  match moromi.commit_image link with
  | Some target =>
      log DEBUG ("Container " +:+ dockerext.name link_container
                 +:+ " will be committed to " +:+ target);;
      mret (called bcs (BcsPersist (dockerext.name link_container) (Some target)))
  | None => mret bcs
  end.

(** the body of [with nagoya.buildcsys.BuildContainerSystem(...) as bcs] *)
Definition block (image_name : string) (image_config : gmap string cfgval)
           (extra_env : list string) (bcs : system) : M system :=
  bcs ← commit_part image_config bcs;
  bcs ← entrypoint_part image_name image_config bcs;
  env_specs ← optional_plural image_config "envs";
  bcs ← fold_each (env_specs ++ extra_env)%list bcs env_step;
  lib_specs ← optional_plural image_config "libs";
  bcs ← fold_each lib_specs bcs (lib_step image_name);
  volume_specs ← optional_plural image_config "volumes_from";
  bcs ← fold_each volume_specs bcs (volume_step image_name);
  link_specs ← optional_plural image_config "links";
  fold_each link_specs bcs (link_step image_name).

End Block.

(** a call that is not a commit *)
Definition no_commit (c : bcs_call) : bool :=
  match c with
  | BcsCommit _ => false
  | _ => true
  end.

End consys.

(** ** The container system behind [build_container_system]

    [BuildContainerSystem], the class that the block of
    [build_container_system] runs under, is not part of these sources
    (neither [nagoya.build.consys] nor [nagoya.buildcsys] is).  It is
    the "Container-System Orchestrator" of the spec, with its
    "Persistence Extractor". *)

(** [try: body finally: cleanup] *)
Definition finally_ {A} (body : M A) (cleanup : M unit) : M A :=
  with_ (mret tt) (fun _ => cleanup) (fun _ => body).

(** a container without callbacks that may be started again *)
Definition bare (c : dockerext.Container) : Prop :=
  dockerext.callbacks c = [] /\ dockerext.run_once c = false.

Module BuildContainerSystem.

(** Modelled from the spec: "Disposition: one of [discard], [commit],
    [persist(target_image)].  Attached to any container in a system
    (root or auxiliary)." *)
Inductive Disposition :=
| Discard
| CommitImage
| PersistTo (target_image : string).

(** Modelled from the spec: a system is "one root ContainerSpec plus a
    set of auxiliary ContainerSpecs [...], each with a Disposition".
    The auxiliaries are kept in the order in which the block asked for
    them; a container without an entry in [dispositions] is
    discarded. *)
Record system := mkSystem {
  root : dockerext.Container;
  auxiliaries : list dockerext.Container;
  dispositions : gmap string Disposition;
}.

(** an assignment to an attribute of [bcs.root], or a call of one of
    its [add_] methods *)
Definition with_root (bcs : system) (root : dockerext.Container) : system :=
  mkSystem root (auxiliaries bcs) (dispositions bcs).

(** Modelled from the spec: [bcs.commit(container)] attaches the
    disposition [commit] to a container of the system. *)
Definition commit (bcs : system) (container : dockerext.Container) : system :=
  mkSystem (root bcs) (auxiliaries bcs)
           (<[dockerext.name container := CommitImage]> (dispositions bcs)).

(** Modelled from the spec: [bcs.persist(container, image)] attaches
    the disposition [persist(target_image)] to a container of the
    system. *)
Definition persist (bcs : system) (container : dockerext.Container)
           (image : string) : system :=
  mkSystem (root bcs) (auxiliaries bcs)
           (<[dockerext.name container := PersistTo image]> (dispositions bcs)).

(** Modelled from the spec: the containers of a system, "one root
    ContainerSpec plus a set of auxiliary ContainerSpecs", the root
    first. *)
Definition containers (bcs : system) : list dockerext.Container :=
  root bcs :: auxiliaries bcs.

(** Modelled from the spec: the "single archive file" of an
    extraction; the name is that of the inline code at the end of
    [build_container_system] in [build/build.py]. *)
Definition archive_name : string := "extract.tar".

(** Modelled from the spec: the helper of an extraction is the
    container [self] "with a host-side extraction directory
    bind-mounted" ([host_dir] at [image_root]), "a command that
    archives the enumerated paths into a single archive file inside
    that mount", and "a read-only volumes-from reference" to
    [source]. *)

Definition helper (self source : dockerext.Container)
           (host_dir image_root : string) (paths : list string)
  : dockerext.Container :=
  dockerext.mkContainer (dockerext.image self) (dockerext.name self)
    (dockerext.detach self) (dockerext.entrypoint self)
    (dockerext.run_once self) (dockerext.working_dir self)
    (dockerext.add_capabilities self) (dockerext.drop_capabilities self)
    (dockerext.callbacks self)
    (["tar"; "-cf"; os_path.join_str image_root archive_name] ++ paths)
    (dockerext.envs self) (dockerext.links self)
    [dockerext.mkVolumeLink (Some host_dir) image_root false]
    [dockerext.mkVolumeFromLink (dockerext.name source) "ro"].

Section Run.
Context (w : World).

(** Modelled from the spec: [BuildContainerSystem(root_image=...,
    client=..., cleanup="remove")] describes the root container; like
    every container of a system its name "defaults to a random
    identifier derived from the image", which is what [TempContainer]
    of [dockerext/container.py] gives, and it is run attached, as the
    orchestrator is "blocking until root exits".  Nothing is asked of
    the engine yet: a ContainerSpec "is materialized into a live
    container at orchestrator start time". *)
Definition __init__ (root_image : cfgval) : M system :=
  image ← lift (as_str root_image);
  root ← dockerext.TempContainer w image None false;
  mret (mkSystem root [] ∅).

(** Modelled from the spec: [bcs.container(image=..., detach=...)]
    resolves a reference of the root "into an auxiliary
    ContainerSpec", and hands it out. *)
Definition container (bcs : system) (image : option string) (detach : bool)
  : M (system * dockerext.Container) :=
  image ← lift (match image with
                | Some i => Ok i
                | None => Raise (PyAttributeError
                                   "'NoneType' object has no attribute 'split'")
                end);
  c ← dockerext.TempContainer w image None detach;
  mret (mkSystem (root bcs) (auxiliaries bcs ++ [c]) (dispositions bcs), c).

(** [tempfile.mkdtemp()] *)
Definition mkdtemp : M string := fun st =>
  (mkState (trace st) (uuid_next st) (S (tmp_next st)), Ok (tmpdirs w (tmp_next st))).

(** Modelled from the spec: the "host-side extraction directory", made
    for one extraction and given up after it; [image_root] is where it
    is "bind-mounted" in the helper. *)
Definition extraction_directory : M (string * string) :=
  u ← uuid4 w;
  host_dir ← mkdtemp;
  let image_root := os_path.join_str "/" u in
  emit (TempDirEnter host_dir image_root);;
  mret (host_dir, image_root).

(** Modelled from the spec: the extraction directory is given up when
    the extraction is over. *)
Definition give_up_directory (dir : string * string) : M unit :=
  emit (TempDirExit dir.1).

(** Modelled from the spec: the Persistence Extractor.  "Enumerate the
    source container's declared volume mount paths (as reported by the
    engine's inspect call [...]).  Create a disposable helper container
    from a minimal utility image, with a host-side extraction directory
    bind-mounted, and a command that archives the enumerated paths into
    a single archive file inside that mount; attach the helper to the
    source container's volumes via a read-only volumes-from reference.
    Start the helper (blocking) and wait for exit; non-zero exit is
    fatal ([ContainerExitError], mirroring §4.2 semantics).  On
    success, build a new image whose base is the source container's
    original image and whose only additional layer is the extracted
    archive applied at the filesystem root, tagging it with the target
    image name.  The helper container is then subject to the same
    guaranteed-removal discipline as all other containers in the run."
    The helper is a [TempContainer] used as the context manager it is:
    leaving its block removes it.  The utility image and the archiver
    are those of the inline code at the end of [build_container_system]
    in [build/build.py]. *)
Definition extract (source : dockerext.Container) (target : string) : M unit :=
  source_data ← client w (InspectContainer (dockerext.name source));
  let paths := volumes_keys source_data in
  with_ extraction_directory give_up_directory
    (fun dir =>
       with_TempContainer w "busybox:latest" None false
         (fun self =>
            dockerext.init w (helper self source dir.1 dir.2 paths);;
            client w (Build (Some target) (dockerext.image source)
                        [(os_path.join_str dir.1 archive_name, "/")]))).

(** Modelled from the spec: "Auxiliary containers referenced via
    volumes-from are created and started in blocking mode [...]; those
    referenced via links are created and started detached", which is
    the [detach] they were described with, and "all dependencies ready
    before root starts".  Then step 1: "Creates and starts the root
    container (an [init] = create+start sequence), blocking until root
    exits"; the start of an attached container "treats a non-zero exit
    as fatal ([ContainerExitError], carrying exit code, captured logs,
    and an inspect snapshot)", which is step 2: "If root exits
    non-zero, the whole build fails ([ContainerExitError]); proceeds
    directly to step 4." *)
Definition bring_up (bcs : system) : M unit :=
  for_each (auxiliaries bcs) (dockerext.init w);;
  dockerext.init w (root bcs).

(** Modelled from the spec: "[discard] does nothing further, [commit]
    snapshots that container's filesystem, [persist(target)] invokes
    the Persistence Extractor".  The call [bcs.commit(container)] of
    the block names no image, so the snapshot is given none. *)
Definition apply_disposition (bcs : system) (c : dockerext.Container) : M unit :=
  match dispositions bcs !! dockerext.name c with
  | Some CommitImage => client w (Commit (dockerext.name c) None)
  | Some (PersistTo target) => extract c target
  | Some Discard | None => mret tt
  end.

(** Modelled from the spec: step 3, "If root exits zero, applies the
    root's own disposition [...] and then, for every auxiliary
    container in the graph, applies its declared disposition" *)
Definition dispose (bcs : system) : M unit :=
  for_each (containers bcs) (apply_disposition bcs).

(** Modelled from the spec: step 4, "Regardless of success or failure
    at any prior step, every container created by this orchestrator
    run is removed"; removal is "idempotent — not-found is tolerated
    as success", so a container that was never created is no
    obstacle. *)
Definition teardown (bcs : system) : M unit :=
  for_each (containers bcs) (fun c => dockerext.remove w c true).

(** Modelled from the spec: the run of the orchestrator, "equivalent to
    a [finally] block around the whole run" *)
Definition run (bcs : system) : M unit :=
  finally_ (bring_up bcs;; dispose bcs) (teardown bcs).

(** Modelled from the spec: [with BuildContainerSystem(...) as bcs:
    body].  The body describes the system; leaving it runs the
    orchestrator.  An exception of the body leaves the statement at
    once: "spec/parse errors surface before any container exists,
    requiring no cleanup". *)
Definition with_system (root_image : cfgval) (body : system -> M system) : M unit :=
  bcs ← __init__ root_image;
  bcs ← body bcs;
  run bcs.

End Run.

(** a system as the block describes it: bare containers, the root
    attached *)
Definition described (bcs : system) : Prop :=
  bare (root bcs) /\ dockerext.detach (root bcs) = false
  /\ Forall bare (auxiliaries bcs).

(** an effect of a run that has created no container but those of
    [names] and has removed none, committed none and built no image *)
Definition on_containers (names : list string) (ev : effect) : bool :=
  match ev with
  | Engine (CreateContainer n _ _ _ _ _ _ _) => bool_decide (n ∈ names)
  | Engine (RemoveContainer _ _) | Engine (Commit _ _) | Engine (Build _ _ _) => false
  | _ => true
  end.

End BuildContainerSystem.

(** ** [nagoya/build/build.py]: [build_container_system]

    The function is caught in the middle of a refactoring.  Its block
    under [BuildContainerSystem] is the one of [moromi.py] with slips
    of its own; below it, "old below this line", stands the inline
    build that the block is to replace.  The inline build begins with
    [with TempResourceDirectory(...)], a name that the module neither
    defines nor imports: evaluating it raises [NameError], and nothing
    below that line is ever run. *)

Module build_system.

(** [parse_dir_spec] of [build/build.py]: once the pattern has
    matched, the test [inpath in gd] evaluates the name [inpath], which
    is bound nowhere *)
Definition parse_dir_spec (spec opt_name image_name : string) : result ResPaths :=
  match re_match dir_spec_pattern spec with
  | Some caps =>
      let gd := groupdict dir_spec_pattern caps in
      src_path ← getitem gd "sourcepath";
      src_basename ← os_path_basename src_path;
      Raise (PyNameError "inpath")
  | None => invalid_format opt_name spec image_name
  end.

Section Block.
Context (w : World).
(** [bcs.volume_include(container, src_path, dest_path, executable)],
    of which neither the sources nor the spec say anything *)
Context (volume_include : BuildContainerSystem.system -> dockerext.Container ->
                          option string -> option string -> bool ->
                          M BuildContainerSystem.system).

(** The names in scope at the format are [image_name], [image_config],
    [client], [quiet] and [bcs]: [format( **locals() )] finds no [root]
    for the field of the message. *)
Definition commit_part (image_config : gmap string cfgval)
           (bcs : BuildContainerSystem.system) : M BuildContainerSystem.system :=
  if match image_config !! "commit" with Some v => truthy v | None => false end
  then
    (raise (PyKeyError "root") : M unit);;
    mret (BuildContainerSystem.commit bcs (BuildContainerSystem.root bcs))
  else mret bcs.

Definition entrypoint_part (image_name : string) (image_config : gmap string cfgval)
           (bcs : BuildContainerSystem.system) : M BuildContainerSystem.system :=
  match image_config !! "entrypoint" with
  | Some v =>
      entrypoint_spec ← lift (moromi.as_subject v);
      res_paths ← lift (parse_dir_spec entrypoint_spec "entrypoint" image_name);
      let bcs := BuildContainerSystem.with_root bcs
                   (dockerext.set_working_dir (BuildContainerSystem.root bcs)
                      (dest_dir res_paths)) in
      volume_include bcs (BuildContainerSystem.root bcs)
        (src_path res_paths) (dest_path res_paths) true
  | None => mret bcs
  end.

(** [dest_dir.dest_path]: the name [dest_dir] is bound nowhere *)
Definition lib_step (image_name : string) (bcs : BuildContainerSystem.system)
           (lib_spec : string) : M BuildContainerSystem.system :=
  res_paths ← lift (parse_dir_spec lib_spec "lib" image_name);
  raise (PyNameError "dest_dir").

Definition volume_step (image_name : string) (bcs : BuildContainerSystem.system)
           (volume_spec : string) : M BuildContainerSystem.system :=
  vol ← lift (build.parse_volume_spec volume_spec "volume_from" image_name);
  '(bcs, vol_container) ← BuildContainerSystem.container w bcs (image vol) false;
  log DEBUG ("Root container will have volumes from container "
             +:+ dockerext.name vol_container);;
  let bcs := BuildContainerSystem.with_root bcs
               (add_volume_from (BuildContainerSystem.root bcs)
                  (dockerext.name vol_container) "rw") in
  match persist_image vol with
  | Some target =>
      log DEBUG ("Container " +:+ dockerext.name vol_container
                 +:+ " will be persisted to " +:+ target);;
      mret (BuildContainerSystem.persist bcs vol_container target)
  | None => mret bcs
  end.

(** [parse_link_spec(image_spec, "link", image_name)]: the name
    [image_spec] is bound nowhere *)
Definition link_step (image_name : string) (bcs : BuildContainerSystem.system)
           (link_spec : string) : M BuildContainerSystem.system :=
  raise (PyNameError "image_spec").

(** the body of [with nagoya.build.consys.BuildContainerSystem(...) as bcs] *)
Definition block (image_name : string) (image_config : gmap string cfgval)
           (bcs : BuildContainerSystem.system) : M BuildContainerSystem.system :=
  bcs ← commit_part image_config bcs;
  bcs ← entrypoint_part image_name image_config bcs;
  lib_specs ← optional_plural image_config "libs";
  bcs ← fold_each lib_specs bcs (lib_step image_name);
  volume_specs ← optional_plural image_config "volumes_from";
  bcs ← fold_each volume_specs bcs (volume_step image_name);
  link_specs ← optional_plural image_config "links";
  fold_each link_specs bcs (link_step image_name).

(** the [with] statement *)
Definition container_system (image_name : string)
           (image_config : gmap string cfgval) : M unit :=
  root_image ← lift (getitem image_config "from");
  BuildContainerSystem.with_system w root_image (block image_name image_config).

Definition build_container_system (image_name : string)
           (image_config : gmap string cfgval) (quiet : bool) : M unit :=
  log INFO ("Creating container system for " +:+ image_name);;
  container_system image_name image_config;;
  raise (PyNameError "TempResourceDirectory").

End Block.

End build_system.

(** ** More containers, engines and configurations *)

Module scenario.

(** the container exits with [status] and is gone right after: every
    other call about it answers 404 *)
Definition vanished (status : Z) : World :=
  sample.world_of (fun c => match c with
                            | Wait _ _ => Ok (Some status)
                            | _ => Raise (APIError 404)
                            end).

(** the engine refuses to create anything *)
Definition create_fails : World :=
  sample.world_of (fun c => match c with
                            | CreateContainer _ _ _ _ _ _ _ _ => Raise (APIError 500)
                            | other => sample.fine sample.never_started (Some 0) other
                            end).

(** removal fails with a server error *)
Definition remove_fails : World :=
  sample.world_of (fun c => match c with
                            | RemoveContainer _ _ => Raise (APIError 500)
                            | other => sample.fine sample.never_started (Some 0) other
                            end).

(** the engine is not there *)
Definition unreachable : World :=
  sample.world_of (fun c => Raise (APIError 503)).

(** a container with callbacks for [init] and [remove] *)
Definition db : dockerext.Container :=
  dockerext.mkContainer "postgres:9" "db" true None false None [] []
    [ dockerext.mkCallspec "pre" "init" "hooks.before_init";
      dockerext.mkCallspec "post" "init" "hooks.after_init";
      dockerext.mkCallspec "pre" "remove" "hooks.before_remove";
      dockerext.mkCallspec "post" "remove" "hooks.after_remove" ]
    [] [] [] [] [].

(** the engine has been asked to kill a container with signal 9 *)
Definition killed_before (hist : list effect) : bool :=
  existsb (fun ev => match ev with
                     | Engine (Kill _ 9) => true
                     | _ => false
                     end) hist.

(** a running container that dies only of signal 9: a wait times out
    until the engine has been asked to kill it with that signal *)
Definition dies_hard : World :=
  {| engine := fun hist c =>
       match c with
       | Wait _ _ => if killed_before hist then Ok (Some 137) else Raise Timeout
       | other => sample.fine sample.running None other
       end;
     callback_outcome := fun _ _ _ => Ok tt;
     uuids := sample.uuid;
     tmpdirs := sample.tmpdir |}.

(** a running container that exits with 143 on the first signal *)
Definition dies_at_once : World :=
  sample.world_of (sample.fine sample.running (Some 143)).

(** a container that is run attached *)
Definition task : dockerext.Container :=
  dockerext.mkContainer "base:latest" "task" false None false None [] []
    [ dockerext.mkCallspec "post" "start" "hooks.after_start" ]
    [] [] [] [] [].

(** what [bcs.container] hands out, named after the image as a
    [TempContainer] is *)
Definition bcs_container (w : World) (image : option string) (detach : bool)
  : M dockerext.Container :=
  dockerext.TempContainer w (build.str_opt image) None detach.

(** an image with a variable, a volume container to persist and a
    linked container to commit *)
Definition system_config : gmap string cfgval :=
  {[ "from" := CfgStr "base:latest";
     "envs" := CfgStr "HOME=/root";
     "volumes_from" := CfgStr "data:1 then persist to snapshot";
     "links" := CfgStr "postgres:9 alias db then commit to seeded" ]}.

(** a container system that has its root and no call yet *)
Definition fresh : consys.system :=
  consys.mkSystem (temp_container "base:latest" false "u") [].

End scenario.

Module layered.

(** an image with three files to run, two of them in the same
    directory, and an entry point in the directory of the third *)
Definition config : gmap string cfgval :=
  {[ "from" := CfgStr "base:latest";
     "maintainer" := CfgStr "me@example.org";
     "exposes" := CfgStr "80";
     "runs" := CfgStr ("a.sh in /opt" +:+ newline +:+ "b.sh in /opt"
                       +:+ newline +:+ "c.sh in /srv");
     "entrypoint" := CfgStr "start.sh in /srv" ]}.

Definition calls : list moromi.context_call :=
  [ moromi.Maintainer (CfgStr "me@example.org");
    moromi.Expose "80";
    moromi.SetEnv "HOME" "/root";
    moromi.Include (Some "a.sh") (Some "/opt/a.sh") true;
    moromi.Workdir (Some "/opt");
    moromi.Run (Some "/opt/a.sh");
    moromi.Include (Some "b.sh") (Some "/opt/b.sh") true;
    moromi.Run (Some "/opt/b.sh");
    moromi.Include (Some "c.sh") (Some "/srv/c.sh") true;
    moromi.Workdir (Some "/srv");
    moromi.Run (Some "/srv/c.sh");
    moromi.Include (Some "start.sh") (Some "/srv/start.sh") true;
    moromi.Entrypoint (Some "/srv/start.sh") ].

End layered.

(** ** Configurations and systems for [build/build.py] *)

Module legacy.

(** [from = base:latest], one volume container that is to be
    discarded *)
Definition discard_config : gmap string cfgval :=
  {[ "from" := CfgStr "base:latest";
     "volumes_from" := CfgStr "data:1 then discard" ]}.

(** [from = base:latest], the root is to be committed *)
Definition commit_config : gmap string cfgval :=
  {[ "from" := CfgStr "base:latest"; "commit" := CfgBool true ]}.

(** a [volume_include] that leaves the system as it is *)
Definition no_include (bcs : BuildContainerSystem.system)
           (container : dockerext.Container) (src_path dest_path : option string)
           (executable : bool) : M BuildContainerSystem.system :=
  mret bcs.

(** the volume container and the system that the block describes from
    [sample.persist_config] when it starts with no uuid taken *)
Definition data : dockerext.Container :=
  temp_container "data:1" false (sample.uuid 2).

Definition persist_system : BuildContainerSystem.system :=
  BuildContainerSystem.persist
    (BuildContainerSystem.mkSystem
       (add_volume_from (temp_container "base:latest" false (sample.uuid 0))
          (dockerext.name data) "rw")
       [data] ∅)
    data "out".

End legacy.

(** * Properties *)

Local Arguments String.append !s1 s2 : simpl nomatch.

(** ** The matcher *)

Lemma plus_class_all {R} cls (t : string) (k : string -> string -> option R) r :
  t ≠ "" -> Str.all cls t = true -> k t "" = Some r ->
  plus_class cls t k = Some r.
Proof.
  revert k. induction t as [|a t IH]; intros k Hne Hall Hk; [congruence|].
  cbn in Hall. apply andb_prop in Hall as [Ha Ht].
  cbn. rewrite Ha.
  destruct t as [|b t'].
  - cbn. exact Hk.
  - rewrite (IH (fun got rest => k (String a got) rest)); [done|done|done|exact Hk].
Qed.

Lemma plus_class_app {R} cls (t rest : string) (k : string -> string -> option R) :
  stops cls rest = true ->
  plus_class cls (t +:+ rest) k
  = plus_class cls t (fun got r' => k got (r' +:+ rest)).
Proof.
  intros Hstop. revert k. induction t as [|a t IH]; intros k.
  - change (EmptyString +:+ rest) with rest.
    destruct rest as [|c rest']; [done|]. cbn in *.
    destruct (cls c); cbn in *; congruence.
  - change (String a t +:+ rest) with (String a (t +:+ rest)).
    cbn. destruct (cls a); [|done]. rewrite IH. done.
Qed.

Lemma occurs_in_middle (before sub after : string) :
  Str.occurs_in sub (before +:+ sub +:+ after).
Proof. exists before, after. reflexivity. Qed.

Lemma append_assoc (a b c : string) : (a +:+ b) +:+ c = a +:+ (b +:+ c).
Proof. induction a as [|x a IH]; cbn; [done|]. by rewrite IH. Qed.

Lemma invalid_format_names {A} (opt_name spec image_name : string) :
  exists message,
    @invalid_format A opt_name spec image_name = Raise (InvalidFormat message)
    /\ Str.occurs_in opt_name message
    /\ Str.occurs_in spec message
    /\ Str.occurs_in image_name message.
Proof.
  eexists. split; [reflexivity|]. repeat split.
  - apply occurs_in_middle.
  - exists ("Invalid " +:+ opt_name +:+ " specification '"),
           ("' for image " +:+ image_name).
    by rewrite !append_assoc.
  - exists ("Invalid " +:+ opt_name +:+ " specification '" +:+ spec
            +:+ "' for image "), "".
    rewrite !append_assoc. cbn.
    repeat f_equal.
    clear. induction image_name as [|x s IH]; cbn; [done|]. by rewrite <- IH.
Qed.

(** ** The spec parsers *)

Example volume_discard :
  parse_volume_spec "base:latest then discard" "volume_from" "img"
  = Ok (mkVolImg (Some "base:latest") None).
Proof. vm_compute. reflexivity. Qed.

Example volume_persist :
  parse_volume_spec "base:latest then persist to out" "volume_from" "img"
  = Ok (mkVolImg (Some "base:latest") (Some "out")).
Proof. vm_compute. reflexivity. Qed.

Example volume_missing_then :
  parse_volume_spec "base:latest discard" "volume_from" "img"
  = Raise (InvalidFormat
             "Invalid volume_from specification 'base:latest discard' for image img").
Proof. vm_compute. reflexivity. Qed.

Lemma parse_volume_spec_discard opt_name image_name :
  parse_volume_spec "base:latest then discard" opt_name image_name
  = Ok (mkVolImg (Some "base:latest") None).
Proof. vm_compute. reflexivity. Qed.

Lemma parse_volume_spec_persist target opt_name image_name :
  target ≠ "" -> Str.all not_colon_space target = true ->
  parse_volume_spec ("base:latest then persist to " +:+ target) opt_name image_name
  = Ok (mkVolImg (Some "base:latest") (Some target)).
Proof.
  intros Hne Hall.
  unfold parse_volume_spec, re_match, volume_spec_pattern.
  cbn [exec]. rewrite String.eqb_refl.
  change ("base:latest then persist to " +:+ target)
    with ("base:latest" +:+ " then persist to " +:+ target).
  rewrite plus_class_app by reflexivity.
  cbn -[insert].
  erewrite plus_class_all; [|done|done|].
  2:{ cbn -[insert]. reflexivity. }
  vm_compute. reflexivity.
Qed.

Lemma parse_volume_spec_no_match spec opt_name image_name :
  re_match volume_spec_pattern spec = None ->
  parse_volume_spec spec opt_name image_name
  = invalid_format opt_name spec image_name.
Proof. intros H. unfold parse_volume_spec. by rewrite H. Qed.

(** [build/build.py]'s copy of the parser gives the same answers. *)
Lemma build_parse_volume_spec_discard opt_name image_name :
  build.parse_volume_spec "base:latest then discard" opt_name image_name
  = Ok (mkVolImg (Some "base:latest") None).
Proof. vm_compute. reflexivity. Qed.

Lemma build_parse_volume_spec_persist target opt_name image_name :
  target ≠ "" -> Str.all not_colon_space target = true ->
  build.parse_volume_spec ("base:latest then persist to " +:+ target)
    opt_name image_name
  = Ok (mkVolImg (Some "base:latest") (Some target)).
Proof.
  intros Hne Hall.
  unfold build.parse_volume_spec, re_match, build.volume_spec_pattern.
  cbn [exec]. rewrite String.eqb_refl.
  change ("base:latest then persist to " +:+ target)
    with ("base:latest" +:+ " then persist to " +:+ target).
  rewrite plus_class_app by reflexivity.
  cbn -[insert].
  erewrite plus_class_all; [|done|done|].
  2:{ cbn -[insert]. reflexivity. }
  vm_compute. reflexivity.
Qed.

Lemma build_parse_volume_spec_colon_target :
  build.parse_volume_spec "base:latest then persist to out:img" "volume_from" "img"
  = Raise (InvalidFormat
             "Invalid volume_from specification 'base:latest then persist to out:img' for image img").
Proof. vm_compute. reflexivity. Qed.

(** C3, as the code has it.  ["base:latest then discard"] resolves to
    image [base:latest] with no persist target.  ["base:latest then
    persist to T"] resolves to image [base:latest] with persist target
    [T] whenever [T] is not empty and has neither a colon nor a space:
    the class of the target group is [[^: ]].  A string that the
    pattern does not match raises [InvalidFormat], and the message
    holds the option name, the spec text and the owning image. *)
Theorem parse_volume_spec_cases (target spec opt_name image_name : string) :
  parse_volume_spec "base:latest then discard" opt_name image_name
  = Ok (mkVolImg (Some "base:latest") None)
  /\ (target ≠ "" -> Str.all not_colon_space target = true ->
      parse_volume_spec ("base:latest then persist to " +:+ target)
        opt_name image_name
      = Ok (mkVolImg (Some "base:latest") (Some target)))
  /\ (re_match volume_spec_pattern spec = None ->
      exists message,
        parse_volume_spec spec opt_name image_name = Raise (InvalidFormat message)
        /\ Str.occurs_in opt_name message
        /\ Str.occurs_in spec message
        /\ Str.occurs_in image_name message).
Proof.
  split; [apply parse_volume_spec_discard|].
  split; [apply parse_volume_spec_persist|].
  intros H. rewrite (parse_volume_spec_no_match _ _ _ H).
  apply invalid_format_names.
Qed.

Lemma parse_volume_spec_cases_witness :
  parse_volume_spec "base:latest then persist to out" "volume_from" "img"
  = Ok (mkVolImg (Some "base:latest") (Some "out"))
  /\ exists message,
       parse_volume_spec "base:latest discard" "volume_from" "img"
       = Raise (InvalidFormat message)
       /\ Str.occurs_in "base:latest discard" message
       /\ Str.occurs_in "img" message.
Proof.
  destruct (parse_volume_spec_cases "out" "base:latest discard" "volume_from" "img")
    as (_ & Hpersist & Hbad).
  split.
  - apply Hpersist; [discriminate | reflexivity].
  - destruct Hbad as (message & Hraise & _ & Hspec & Himage); [vm_compute; reflexivity|].
    exists message. auto.
Defined.

(** The second example of C3 as the spec words it: the target
    [out:img] has a colon, so the pattern does not match and the parser
    raises [InvalidFormat] instead of resolving to a persist target. *)
Lemma parse_volume_spec_colon_target_rejected :
  parse_volume_spec "base:latest then persist to out:img" "volume_from" "img"
  = Raise (InvalidFormat
             "Invalid volume_from specification 'base:latest then persist to out:img' for image img")
  /\ parse_volume_spec "base:latest then persist to out:img" "volume_from" "img"
     ≠ Ok (mkVolImg (Some "base:latest") (Some "out:img")).
Proof. split; [vm_compute; reflexivity | vm_compute; discriminate]. Qed.

(** *** Backtracking over a run *)

Lemma plus_class_none {R} cls rest (k : string -> string -> option R) :
  (forall u v, u ≠ "" -> rest = u +:+ v -> k u v = None) ->
  plus_class cls rest k = None.
Proof.
  revert k. induction rest as [|c rest IH]; intros k Hk; [done|].
  cbn. destruct (cls c); [|done].
  rewrite IH.
  - apply Hk; [discriminate|reflexivity].
  - intros u v Hu ->. apply Hk; [discriminate|reflexivity].
Qed.

Lemma plus_class_first {R} cls t rest (k : string -> string -> option R) r :
  t ≠ "" -> Str.all cls t = true -> k t rest = Some r ->
  (forall u v, u ≠ "" -> rest = u +:+ v -> k (t +:+ u) v = None) ->
  plus_class cls (t +:+ rest) k = Some r.
Proof.
  revert k. induction t as [|a t IH]; intros k Hne Hall Hk Hlonger; [congruence|].
  cbn in Hall. apply andb_prop in Hall as [Ha Ht].
  change (String a t +:+ rest) with (String a (t +:+ rest)).
  cbn. rewrite Ha.
  destruct t as [|b t'].
  - change (EmptyString +:+ rest) with rest.
    rewrite plus_class_none; [exact Hk|].
    intros u v Hu Hv. apply (Hlonger u v Hu Hv).
  - rewrite (IH (fun got rest => k (String a got) rest)); [done|done|done|exact Hk|].
    intros u v Hu Hv. apply (Hlonger u v Hu Hv).
Qed.

Lemma not_space_strip (a : ascii) (d : string) :
  not_space a = true -> Str.strip_prefix " " (String a d) = None.
Proof.
  unfold not_space. cbn [Str.strip_prefix]. rewrite (Ascii.eqb_sym a " ").
  destruct (Ascii.eqb " " a); cbn; congruence.
Qed.

Lemma strip_space_suffix (d u v : string) :
  Str.all not_space d = true -> d = u +:+ v -> Str.strip_prefix " " v = None.
Proof.
  revert d. induction u as [|c u IH]; intros d Hall Hd.
  - change (EmptyString +:+ v) with v in Hd. subst v.
    destruct d as [|a d]; [done|]. cbn [Str.all] in Hall.
    apply andb_prop in Hall as [Ha _]. by apply not_space_strip.
  - change (String c u +:+ v) with (String c (u +:+ v)) in Hd. subst d.
    cbn [Str.all] in Hall. apply andb_prop in Hall as [_ Hall]. by eapply IH.
Qed.

Lemma no_keyword (k1 k2 : ascii) (d : string) :
  Str.all not_space d = true ->
  Str.strip_prefix (String k1 (String k2 " ")) d = None.
Proof.
  intros Hall.
  destruct d as [|a [|b [|c d]]]; cbn [Str.strip_prefix];
    repeat (match goal with |- context [Ascii.eqb ?x ?y] => destruct (Ascii.eqb x y) eqn:? end); try done.
  cbn [Str.all] in Hall.
  apply andb_prop in Hall as [_ Hall]. apply andb_prop in Hall as [_ Hall].
  apply andb_prop in Hall as [Hc _]. unfold not_space in Hc.
  rewrite Ascii.eqb_sym in Hc.
  match goal with H : Ascii.eqb " " c = true |- _ => rewrite H in Hc end.
  cbn in Hc. congruence.
Qed.

Lemma all_plain (d : string) :
  Str.all plain d = true -> Str.all dot d = true /\ Str.all not_space d = true.
Proof.
  induction d as [|a d IH]; [done|]. cbn [Str.all]. unfold plain at 1.
  intros H. apply andb_prop in H as [Ha Hd]. apply andb_prop in Ha as [-> ->].
  destruct (IH Hd) as [-> ->]. done.
Qed.

(** *** Directory specs *)

Example dir_in :
  parse_dir_spec "src/app in /opt/app" "lib" "img"
  = Ok (mkResPaths (Some "src/app") (Some "/opt/app/app") (Some "/opt/app")).
Proof. vm_compute. reflexivity. Qed.

Example dir_no_match :
  parse_dir_spec "src/app" "lib" "img"
  = Raise (InvalidFormat "Invalid lib specification 'src/app' for image img").
Proof. vm_compute. reflexivity. Qed.

(** What the claim expects of the [at] form is what [posixpath] gives
    on the groups of the match: the path itself and its parent. *)
Example dir_at_groups :
  (groupdict dir_spec_pattern
     <$> re_match dir_spec_pattern "src/app at /opt/app/run.sh")
  = Some ({[ "sourcepath" := Some "src/app"; "inpath" := None;
             "atpath" := Some "/opt/app/run.sh" ]} : gmap string (option string))
  /\ os_path.dirname "/opt/app/run.sh" = "/opt/app".
Proof. split; vm_compute; reflexivity. Qed.

Lemma groupdict_lookup r caps (n : string) :
  n ∈ group_names r -> groupdict r caps !! n = Some (caps !! n).
Proof.
  unfold groupdict. generalize (group_names r) as l.
  induction l as [|x l IH]; intros Hin.
  - by apply elem_of_nil in Hin.
  - cbn. destruct (decide (x = n)) as [->|Hne].
    + by rewrite lookup_insert_eq.
    + rewrite lookup_insert_ne by done. apply IH.
      apply elem_of_cons in Hin as [->|Hin]; done.
Qed.

(** The [in] form, for every source path [S] without a newline and
    every directory [D] without a space or a newline: the destination
    is [D] joined with the base name of [S], the directory is [D]. *)
Lemma parse_dir_spec_in S D opt img :
  S ≠ "" -> Str.all dot S = true -> D ≠ "" -> Str.all plain D = true ->
  parse_dir_spec (S +:+ " in " +:+ D) opt img
  = Ok (mkResPaths (Some S) (Some (os_path.join_str D (os_path.basename S))) (Some D)).
Proof.
  intros HS HSdot HD HDplain.
  destruct (all_plain D HDplain) as [HDdot HDspace].
  unfold parse_dir_spec, re_match.
  assert (Hm : exec (S +:+ " in " +:+ D) dir_spec_pattern (S +:+ " in " +:+ D) ∅
                 (fun _ _ caps => Some caps)
               = Some (<["inpath" := D]> (<["sourcepath" := S]> ∅))).
  { unfold dir_spec_pattern. cbn [exec]. rewrite String.eqb_refl.
    apply plus_class_first; [done|done| |].
    - cbn -[insert]. erewrite plus_class_all; [reflexivity|done|done|reflexivity].
    - intros u v Hu Hv.
      destruct u as [|c1 u]; [done|]. clear Hu.
      cbn in Hv. injection Hv as _ Hv.
      destruct u as [|c2 u]; [cbn in Hv; by subst v|].
      cbn in Hv. injection Hv as _ Hv.
      destruct u as [|c3 u]; [cbn in Hv; by subst v|].
      cbn in Hv. injection Hv as _ Hv.
      destruct u as [|c4 u].
      + cbn in Hv. subst v.
        change (Str.strip_prefix " " (String " " D)) with (Some D).
        cbv beta iota. by rewrite !no_keyword.
      + cbn in Hv. injection Hv as _ Hv.
        by rewrite (strip_space_suffix _ _ _ HDspace Hv). }
  rewrite Hm. cbv zeta. unfold getitem.
  rewrite (groupdict_lookup _ _ "sourcepath") by (vm_compute; set_solver).
  rewrite !(groupdict_lookup _ _ "inpath") by (vm_compute; set_solver).

  replace (<["inpath":=D]> (<["sourcepath":=S]> ∅) !! "sourcepath") with (Some S)
    by (by simplify_map_eq).
  replace (<["inpath":=D]> (<["sourcepath":=S]> ∅) !! "inpath") with (Some D)
    by (by simplify_map_eq).
  cbn. destruct (decide _) as [_|Hno]; [done|]. destruct Hno. eauto.
Qed.

(** Whenever the pattern matched through its [at] branch, so that the
    group [inpath] took no part, the key ["inpath"] is in the
    dictionary all the same and [parse_dir_spec] joins [None] with the
    base name: no [at] spec resolves. *)
Lemma parse_dir_spec_at_branch spec opt_name image_name caps :
  re_match dir_spec_pattern spec = Some caps ->
  caps !! "inpath" = None ->
  exists message,
    parse_dir_spec spec opt_name image_name = Raise (PyTypeError message).
Proof.
  intros Hmatch Hin. unfold parse_dir_spec. rewrite Hmatch. cbv zeta.
  unfold getitem.
  rewrite (groupdict_lookup _ _ "sourcepath") by (vm_compute; set_solver).
  rewrite !(groupdict_lookup _ _ "inpath") by (vm_compute; set_solver).
  rewrite Hin. cbn.
  destruct (caps !! "sourcepath") as [src|]; cbn; [|eauto].
  destruct (decide _) as [_|Hno]; cbn; [eauto|].
  destruct Hno. eauto.
Qed.

(** C4 at the second example of the claim: the pattern matches
    ["src/app at /opt/app/run.sh"] through its [at] branch, and
    [parse_dir_spec] raises a [TypeError] where the claim has the
    destination path [/opt/app/run.sh] with directory [/opt/app]. *)
Theorem parse_dir_spec_at_raises :
  parse_dir_spec "src/app at /opt/app/run.sh" "entrypoint" "img"
  = Raise (PyTypeError "expected str, bytes or os.PathLike object, not NoneType")
  /\ parse_dir_spec "src/app at /opt/app/run.sh" "entrypoint" "img"
     ≠ Ok (mkResPaths (Some "src/app") (Some "/opt/app/run.sh") (Some "/opt/app")).
Proof. split; [vm_compute; reflexivity | vm_compute; discriminate]. Qed.

(** ** [Callspec] *)

(** The constructor never fails: the two [ValueError]s are built and
    dropped, and the values are stored whatever they are. *)
Lemma Callspec__init__always (event_part event callback_func : string) :
  dockerext.Callspec__init__ event_part event callback_func
  = Ok (dockerext.mkCallspec event_part event callback_func).
Proof.
  unfold dockerext.Callspec__init__, dockerext.expression_statement.
  by do 2 case_match.
Qed.

(** For valid values the record holds the phase, the event and the
    handler. *)
Lemma Callspec__init__valid (event_part event callback_func : string) :
  event_part ∈ dockerext.valid_event_parts ->
  event ∈ dockerext.valid_events ->
  exists spec,
    dockerext.Callspec__init__ event_part event callback_func = Ok spec
    /\ dockerext.event_part spec = event_part
    /\ dockerext.event spec = event
    /\ dockerext.callback_func spec = callback_func.
Proof.
  intros _ _. eexists. split; [apply Callspec__init__always|done].
Qed.

(** C9 at a phase outside [{pre, post}] and at an event outside
    [{init, create, start, stop, remove}]: the claim has the
    construction fail, the constructor returns the record. *)
Theorem Callspec__init__accepts_invalid :
  ("during" ∉ dockerext.valid_event_parts)
  /\ ("explode" ∉ dockerext.valid_events)
  /\ dockerext.Callspec__init__ "during" "create" "hooks.notify"
     = Ok (dockerext.mkCallspec "during" "create" "hooks.notify")
  /\ dockerext.Callspec__init__ "pre" "explode" "hooks.notify"
     = Ok (dockerext.mkCallspec "pre" "explode" "hooks.notify").
Proof.
  split; [|split; [|split]].
  - unfold dockerext.valid_event_parts.
    rewrite elem_of_union, !elem_of_singleton. intros [?|?]; discriminate.
  - unfold dockerext.valid_events.
    rewrite !elem_of_union, !elem_of_singleton. intros [[[[?|?]|?]|?]|?]; discriminate.
  - apply Callspec__init__always.
  - apply Callspec__init__always.
Qed.

(** ** [build_images] *)

Lemma option_name_cases (key : string) :
  key ∈ container_system_option_names
  <-> key = "volumes_from" \/ key = "links" \/ key = "commit".
Proof.
  unfold container_system_option_names.
  rewrite !elem_of_union, !elem_of_singleton. tauto.
Qed.

(** What the body of the loop does with one image: an image whose
    configuration has at least one of the keys [volumes_from],
    [links], [commit] is handed to [build_container_system]; an image
    that has none of them is handed to [build_image]; nothing else
    happens to it but the debug record before. *)
Lemma build_images_body_routes (build_container_system build_image
                                  : string -> gmap string cfgval -> M unit)
      (config : gmap string (gmap string cfgval)) (image : string)
      (image_config : gmap string cfgval) (st : state) :
  config !! image = Some image_config ->
  let st1 := extend st [Log DEBUG ("Processing image " +:+ image)] in
  ((is_Some (image_config !! "volumes_from") \/ is_Some (image_config !! "links")
    \/ is_Some (image_config !! "commit")) ->
   build_images_body build_container_system build_image config image st
   = build_container_system image image_config st1)
  /\ ((image_config !! "volumes_from" = None /\ image_config !! "links" = None
       /\ image_config !! "commit" = None) ->
      build_images_body build_container_system build_image config image st
      = build_image image image_config st1).
Proof.
  intros Hcfg st1.
  assert (Hrun : build_images_body build_container_system build_image config image st
                 = (if negb (bool_decide (container_system_option_names
                                          ## dom image_config))
                    then build_container_system image image_config
                    else build_image image image_config) st1).
  { unfold build_images_body, getitem. rewrite Hcfg. reflexivity. }
  rewrite Hrun. split.
  - intros Hsome. rewrite bool_decide_eq_false_2; [done|].
    intros Hdisj.
    destruct Hsome as [H | [H | H]]; apply elem_of_dom in H;
      eapply Hdisj; [|exact H| |exact H| |exact H];
      apply option_name_cases; auto.
  - intros (Hv & Hl & Hc). rewrite bool_decide_eq_true_2; [done|].
    intros key Hkey Hdom. apply option_name_cases in Hkey.
    apply elem_of_dom in Hdom as [v Hdom].
    destruct Hkey as [-> | [-> | ->]]; congruence.
Qed.

(** ** The state-and-error monad *)

Lemma extend_extend st a b : extend (extend st a) b = extend st (a ++ b).
Proof. unfold extend. cbn. by rewrite <- app_assoc. Qed.

Lemma extend_nil st : extend st [] = st.
Proof. destruct st. unfold extend. cbn. by rewrite app_nil_r. Qed.

Lemma bind_ok {A B} (m : M A) (f : A -> M B) st st' a :
  m st = (st', Ok a) -> (m ≫= f) st = f a st'.
Proof. intros H. unfold mbind, M_bind. by rewrite H. Qed.

Lemma bind_raise {A B} (m : M A) (f : A -> M B) st st' e :
  m st = (st', Raise e) -> (m ≫= f) st = (st', Raise e).
Proof. intros H. unfold mbind, M_bind. by rewrite H. Qed.

Lemma try_ok {A} (body : M A) handler st st' a :
  body st = (st', Ok a) -> try_except body handler st = (st', Ok a).
Proof. intros H. unfold try_except. by rewrite H. Qed.

Lemma try_raise {A} (body : M A) handler st st' e :
  body st = (st', Raise e) -> try_except body handler st = handler e st'.
Proof. intros H. unfold try_except. by rewrite H. Qed.

Lemma log_run lvl message st : log lvl message st = (extend st [Log lvl message], Ok tt).
Proof. reflexivity. Qed.

Lemma client_run w c st : client w c st = (extend st [Engine c], engine w (trace st) c).
Proof. reflexivity. Qed.

(** *** What a computation may do to the world *)

Lemma emits_same_trace (P : effect -> bool) {A} (m : M A) :
  (forall st, trace (m st).1 = trace st) -> emits P m.
Proof.
  intros H st st' r Hm. specialize (H st). rewrite Hm in H. cbn in H.
  exists []. by rewrite app_nil_r.
Qed.

Lemma emits_ret P {A} (a : A) : emits P (mret a : M A).
Proof. apply emits_same_trace. done. Qed.

Lemma emits_raise P {A} e : emits P (raise e : M A).
Proof. apply emits_same_trace. done. Qed.

Lemma emits_lift P {A} (r : result A) : emits P (lift r).
Proof. apply emits_same_trace. done. Qed.

Lemma emits_emit (P : effect -> bool) ev : P ev = true -> emits P (emit ev).
Proof.
  intros HP st st' r [= <- _]. exists [ev]. cbn. by rewrite HP.
Qed.

Lemma emits_log (P : effect -> bool) lvl message :
  P (Log lvl message) = true -> emits P (log lvl message).
Proof. apply emits_emit. Qed.

Lemma emits_client (P : effect -> bool) w c :
  P (Engine c) = true -> emits P (client w c).
Proof.
  intros HP st st' r [= <- _]. exists [Engine c]. cbn. by rewrite HP.
Qed.

Lemma emits_fire (P : effect -> bool) w part ev f n :
  P (Callback part ev f n) = true -> emits P (fire w part ev f n).
Proof.
  intros HP st st' r [= <- _]. exists [Callback part ev f n]. cbn. by rewrite HP.
Qed.

Lemma emits_uuid4 P w : emits P (uuid4 w).
Proof. apply emits_same_trace. done. Qed.

Lemma emits_bind P {A B} (m : M A) (f : A -> M B) :
  emits P m -> (forall a, emits P (f a)) -> emits P (m ≫= f).
Proof.
  intros Hm Hf st st' r. unfold mbind, M_bind.
  destruct (m st) as [st1 [a|e]] eqn:Hrun.
  - intros Hfa. destruct (Hm _ _ _ Hrun) as (evs1 & E1 & H1).
    destruct (Hf a _ _ _ Hfa) as (evs2 & -> & H2). rewrite E1.
    exists (evs1 ++ evs2)%list. rewrite app_assoc, forallb_app, H1, H2. done.
  - intros [= <- <-]. by apply (Hm _ _ _ Hrun).
Qed.

Lemma emits_try P {A} (body : M A) handler :
  emits P body -> (forall e, emits P (handler e)) -> emits P (try_except body handler).
Proof.
  intros Hb Hh st st' r. unfold try_except.
  destruct (body st) as [st1 [a|e]] eqn:Hrun.
  - intros [= <- <-]. by apply (Hb _ _ _ Hrun).
  - intros Hhe. destruct (Hb _ _ _ Hrun) as (evs1 & E1 & H1).
    destruct (Hh e _ _ _ Hhe) as (evs2 & -> & H2). rewrite E1.
    exists (evs1 ++ evs2)%list. rewrite app_assoc, forallb_app, H1, H2. done.
Qed.

Lemma emits_for_each P {A} (l : list A) (body : A -> M unit) :
  (forall x, emits P (body x)) -> emits P (for_each l body).
Proof.
  intros Hb. induction l as [|x l IH]; cbn [for_each].
  - apply emits_ret.
  - apply emits_bind; [apply Hb|]. intros _. apply IH.
Qed.

Lemma emits_fold_each P {A S} (l : list A) (acc : S) (body : S -> A -> M S) :
  (forall acc x, emits P (body acc x)) -> emits P (fold_each l acc body).
Proof.
  intros Hb. revert acc. induction l as [|x l IH]; intros acc; cbn [fold_each].
  - apply emits_ret.
  - apply emits_bind; [apply Hb|]. intros acc'. apply IH.
Qed.

Lemma emits_with P {R A} (enter : M R) (leave : R -> M unit) (body : R -> M A) :
  emits P enter -> (forall r, emits P (leave r)) -> (forall r, emits P (body r)) ->
  emits P (with_ enter leave body).
Proof.
  intros He Hl Hb. unfold with_. apply emits_bind; [exact He|].
  intros r st st' res.
  destruct (body r st) as [st1 [a|e]] eqn:Hrun.
  - intros Hleave.
    destruct (Hb r _ _ _ Hrun) as (evs1 & E1 & H1).
    assert (Hl' : emits P (leave r;; mret a : M A))
      by (apply emits_bind; [apply Hl|intros; apply emits_ret]).
    destruct (Hl' _ _ _ Hleave) as (evs2 & -> & H2). rewrite E1.
    exists (evs1 ++ evs2)%list. rewrite app_assoc, forallb_app, H1, H2. done.
  - intros Hleave.
    destruct (Hb r _ _ _ Hrun) as (evs1 & E1 & H1).
    assert (Hl' : emits P (leave r;; raise e : M A))
      by (apply emits_bind; [apply Hl|intros; apply emits_raise]).
    destruct (Hl' _ _ _ Hleave) as (evs2 & -> & H2). rewrite E1.
    exists (evs1 ++ evs2)%list. rewrite app_assoc, forallb_app, H1, H2. done.
Qed.

Lemma emits_weaken (P Q : effect -> bool) {A} (m : M A) :
  (forall ev, P ev = true -> Q ev = true) -> emits P m -> emits Q m.
Proof.
  intros HPQ Hm st st' r Hrun. destruct (Hm _ _ _ Hrun) as (evs & E & H).
  exists evs. split; [done|]. rewrite forallb_forall in H |- *. auto.
Qed.

Create HintDb emits discriminated.

Ltac emits_step :=
  first
    [ solve [auto with emits nocore]
    | apply emits_ret | apply emits_raise | apply emits_lift
    | apply emits_log; reflexivity
    | match goal with
      | |- emits ?P (client ?w ?c) => exact (emits_client P w c eq_refl)
      end
    | apply emits_fire; reflexivity
    | apply emits_uuid4
    | apply emits_bind; [|intros]
    | apply emits_try; [|intros]
    | apply emits_for_each; intros
    | apply emits_fold_each; intros
    | match goal with
      | |- emits _ (if ?b then _ else _) => destruct b
      | |- emits _ (match ?x with _ => _ end) => destruct x
      end ].

Ltac emits_auto := repeat emits_step.

(** *** What a computation may raise *)

Lemma raises_only_ret Q {A} (a : A) : raises_only Q (mret a : M A).
Proof. intros st st' e. discriminate. Qed.

Lemma raises_only_raise (Q : exn -> Prop) {A} e : Q e -> raises_only Q (raise e : M A).
Proof. intros HQ st st' e' [= _ <-]. exact HQ. Qed.

Lemma raises_only_emit Q ev : raises_only Q (emit ev).
Proof. intros st st' e. discriminate. Qed.

Lemma raises_only_client (Q : exn -> Prop) w c :
  (forall hist e, engine w hist c = Raise e -> Q e) -> raises_only Q (client w c).
Proof. intros H st st' e [= _ He]. eauto. Qed.

Lemma raises_only_bind Q {A B} (m : M A) (f : A -> M B) :
  raises_only Q m -> (forall a, raises_only Q (f a)) -> raises_only Q (m ≫= f).
Proof.
  intros Hm Hf st st' e. unfold mbind, M_bind.
  destruct (m st) as [st1 [a|e1]] eqn:Hrun.
  - apply Hf.
  - intros [= _ <-]. eauto.
Qed.

Lemma raises_only_try (Q' Q : exn -> Prop) {A} (body : M A) handler :
  raises_only Q' body -> (forall e, Q' e -> raises_only Q (handler e)) ->
  raises_only Q (try_except body handler).
Proof.
  intros Hb Hh st st' e. unfold try_except.
  destruct (body st) as [st1 [a|e1]] eqn:Hrun; [discriminate|].
  apply Hh. eauto.
Qed.

Lemma with_raise {R A} (enter : M R) leave (body : R -> M A) st st0 st1 st2 r e :
  enter st = (st0, Ok r) -> body r st0 = (st1, Raise e) ->
  leave r st1 = (st2, Ok tt) ->
  with_ enter leave body st = (st2, Raise e).
Proof.
  intros He Hb Hl. unfold with_. rewrite (bind_ok _ _ _ _ _ He).
  rewrite Hb. by rewrite (bind_ok _ _ _ _ _ Hl).
Qed.

Lemma with_ok {R A} (enter : M R) leave (body : R -> M A) st st0 st1 st2 r a :
  enter st = (st0, Ok r) -> body r st0 = (st1, Ok a) ->
  leave r st1 = (st2, Ok tt) ->
  with_ enter leave body st = (st2, Ok a).
Proof.
  intros He Hb Hl. unfold with_. rewrite (bind_ok _ _ _ _ _ He).
  rewrite Hb. by rewrite (bind_ok _ _ _ _ _ Hl).
Qed.

Section ContainerProperties.
Import dockerext.
Context (w : World).

Lemma process_callbacks_ok self part ev st :
  (forall hist f, callback_outcome w hist f (name self) = Ok tt) ->
  _process_callbacks w self part ev st
  = (extend st (callback_effects self part ev), Ok tt).
Proof.
  intros Hok. unfold _process_callbacks, callback_effects.
  revert st. induction (callbacks self) as [|c l IH]; intros st.
  - cbn. by rewrite extend_nil.
  - cbn [for_each List.filter]. fold (matching part ev c).
    destruct (matching part ev c) eqn:Hm.
    + erewrite bind_ok; [|unfold fire; by rewrite Hok].
      rewrite IH. by rewrite extend_extend.
    + erewrite bind_ok; [|reflexivity]. apply IH.
Qed.

(** callbacks that returned have all fired, in registration order *)
Lemma process_callbacks_returned self part ev st st' :
  _process_callbacks w self part ev st = (st', Ok tt) ->
  st' = extend st (callback_effects self part ev).
Proof.
  unfold _process_callbacks, callback_effects.
  revert st. induction (callbacks self) as [|c l IH]; intros st.
  - cbn. intros [= <-]. by rewrite extend_nil.
  - cbn [for_each List.filter]. fold (matching part ev c).
    destruct (matching part ev c) eqn:Hm.
    + unfold mbind at 1, M_bind at 1. unfold fire at 1.
      destruct (callback_outcome w (trace st) (callback_func c) (name self))
        as [[]|e]; [|discriminate].
      intros H. apply IH in H. by rewrite H, extend_extend.
    + unfold mbind at 1, M_bind at 1. cbn. apply IH.
Qed.


Lemma tolerate_other flag status message e st :
  e <> APIError status -> tolerate_status flag status message e st = (st, Raise e).
Proof.
  intros Hne. unfold tolerate_status. destruct e; try reflexivity.
  destruct (Z.eqb_spec status_code status) as [->|Hs]; [congruence|].
  by rewrite andb_false_r.
Qed.

(** C6, as the code has it.  Once the [pre create] callbacks have
    returned, [create] asks the engine.  When the engine answers that
    the name already exists (409), [create] returns normally: the
    [pre create] callbacks have fired before the engine was asked, the
    [post create] callbacks do not fire.  Any other failure of the
    engine is raised to the caller.  When the engine creates the
    container, the [post create] callbacks fire after it. *)
Theorem create_already_exists self st :
  let st1 := extend st (callback_effects self "pre" "create") in
  let attempt := Log DEBUG ("Attempting to create container " +:+ name self) in
  let c := CreateContainer (name self) (image self) (detach self)
             (volumes_api_container_paths self) (entrypoint self)
             (working_dir self) (envs_api_formatted self)
             (match commands self with [] => [""] | cs => cs end) in
  let st2 := extend st1 [attempt; Engine c] in
  _process_callbacks w self "pre" "create" st = (st1, Ok tt) ->
  (engine w (trace st1 ++ [attempt]) c = Raise (APIError 409) ->
   create w self true st
   = (extend st2 [Log DEBUG ("Container " +:+ name self +:+ " already exists")],
      Ok tt))
  /\ (forall e, engine w (trace st1 ++ [attempt]) c = Raise e ->
                e <> APIError 409 ->
                create w self true st = (st2, Raise e))
  /\ (engine w (trace st1 ++ [attempt]) c = Ok tt ->
      forall st3,
        _process_callbacks w self "post" "create"
          (extend st2 [Log INFO ("Created container " +:+ name self)])
        = (st3, Ok tt) ->
        create w self true st = (st3, Ok tt)).
Proof.
  intros st1 attempt c st2 Hpre.
  assert (Hbody : forall (k : M unit),
             (_process_callbacks w self "pre" "create";;
              log DEBUG ("Attempting to create container " +:+ name self);;
              client w c;; k) st
             = match engine w (trace st1 ++ [attempt]) c with
               | Ok _ => k st2
               | Raise e => (st2, Raise e)
               end).
  { intros k. rewrite (bind_ok _ _ _ _ _ Hpre).
    erewrite bind_ok by apply log_run.
    unfold mbind at 1, M_bind at 1. rewrite client_run.
    rewrite extend_extend. cbn [trace extend app].
    fold attempt.
    change (trace st ++ callback_effects self "pre" "create")%list
      with (trace st1).
    by destruct (engine w (trace st1 ++ [attempt]) c). }
  unfold create. fold c. repeat split.
  - intros Heng. erewrite try_raise; [|rewrite Hbody, Heng; reflexivity].
    reflexivity.
  - intros e Heng Hne. erewrite try_raise; [|rewrite Hbody, Heng; reflexivity].
    by apply tolerate_other.
  - intros Heng st3 Hpost. apply try_ok. rewrite Hbody, Heng.
    erewrite bind_ok by apply log_run. exact Hpost.
Qed.


(** *** The lifecycle methods leave containers and images alone *)

Lemma process_callbacks_keeps self part ev :
  emits disposes_nothing (_process_callbacks w self part ev).
Proof. unfold _process_callbacks. emits_auto. Qed.
#[local] Hint Resolve process_callbacks_keeps : emits.

Lemma tolerate_status_keeps flag status message e :
  emits disposes_nothing (tolerate_status flag status message e).
Proof. unfold tolerate_status. emits_auto. Qed.
#[local] Hint Resolve tolerate_status_keeps : emits.

Lemma create_keeps self exists_ok : emits disposes_nothing (create w self exists_ok).
Proof. unfold create. emits_auto. Qed.

Lemma logs_keeps self flag : emits disposes_nothing (logs w self flag).
Proof. unfold logs. emits_auto. Qed.

Lemma inspect_keeps self flag : emits disposes_nothing (inspect w self flag).
Proof. unfold inspect. emits_auto. Qed.
#[local] Hint Resolve create_keeps logs_keeps inspect_keeps : emits.

Lemma wait_keeps self timeout error_ok :
  emits disposes_nothing (wait w self timeout error_ok).
Proof. unfold wait. emits_auto. Qed.
#[local] Hint Resolve wait_keeps : emits.

Lemma start_body_keeps self : emits disposes_nothing (start_body w self).
Proof. unfold start_body. emits_auto. Qed.
#[local] Hint Resolve start_body_keeps : emits.

Lemma start_keeps self : emits disposes_nothing (start w self).
Proof. unfold start. emits_auto. Qed.
#[local] Hint Resolve start_keeps : emits.

Lemma init_keeps self : emits disposes_nothing (init w self).
Proof. unfold init. emits_auto. Qed.

Lemma stop_keeps self flag : emits disposes_nothing (stop w self flag).
Proof. unfold stop, on_timeout. emits_auto. Qed.

(** *** [wait] *)

Lemma logs_found self st out :
  engine w (trace st) (Logs (name self)) = Ok out ->
  logs w self true st = (extend st [Engine (Logs (name self))], Ok (Some out)).
Proof.
  intros H. unfold logs. apply try_ok.
  unfold mbind, M_bind. rewrite client_run. cbn in H |- *. by rewrite H.
Qed.

Lemma inspect_found self st info :
  engine w (trace st) (InspectContainer (name self)) = Ok info ->
  inspect w self true st
  = (extend st [Engine (InspectContainer (name self))], Ok (Some info)).
Proof.
  intros H. unfold inspect. apply try_ok.
  unfold mbind, M_bind. rewrite client_run. cbn in H |- *. by rewrite H.
Qed.

(** C8.  [wait] asks the engine once.  When the engine answers, the
    status is the [StatusCode] of the answer ([-1] without one): it is
    returned when the caller tolerates any exit code or when it is 0;
    otherwise [wait] collects the logs and an inspect snapshot and
    raises [ContainerExitError] with the status, the logs and the
    snapshot.  When the engine call times out, [wait] raises [Timeout],
    which is not a [ContainerExitError]. *)
Theorem wait_outcomes self timeout error_ok st :
  let c := Wait (name self) timeout in
  let st1 := extend st [Engine c] in
  (forall d : option Z,
      engine w (trace st) c = Ok d ->
      let status := default (-1) d in
      (error_ok = true \/ status = 0 ->
       wait w self timeout error_ok st = (st1, Ok status))
      /\ (error_ok = false -> status <> 0 ->
          forall out info,
            engine w (trace st1) (Logs (name self)) = Ok out ->
            engine w (trace st1 ++ [Engine (Logs (name self))])
                   (InspectContainer (name self)) = Ok info ->
            wait w self timeout error_ok st
            = (extend st1 [Engine (Logs (name self));
                           Engine (InspectContainer (name self))],
               Raise (ContainerExitError status (Some out) (Some info)))))
  /\ (engine w (trace st) c = Raise Timeout ->
      wait w self timeout error_ok st = (st1, Raise Timeout)).
Proof.
  intros c st1. split.
  - intros d Hd status. unfold wait. fold c.
    assert (Hc : client w c st = (st1, Ok d)) by (rewrite client_run; by rewrite Hd).
    rewrite (bind_ok _ _ _ _ _ Hc).
    replace (match d with Some status_code => status_code | None => -1 end)
      with status by (by destruct d).
    split.
    + intros [-> | Hz]; [reflexivity|].
      rewrite Hz. by rewrite orb_true_r.
    + intros -> Hnz out info Hlogs Hinsp.
      apply Z.eqb_neq in Hnz. rewrite Hnz. cbn [orb].
      rewrite (bind_ok _ _ _ _ _ (logs_found _ _ _ Hlogs)).
      rewrite (bind_ok _ _ _ _ _
                 (inspect_found self (extend st1 [Engine (Logs (name self))])
                    info Hinsp)).
      by rewrite extend_extend.
  - intros Ht. unfold wait. fold c.
    apply bind_raise. rewrite client_run. by rewrite Ht.
Qed.


(** Whatever the engine does when asked for the logs and the snapshot,
    a status other than 0 that is not tolerated never comes back as a
    return value. *)
Lemma wait_nonzero_raises self timeout st (d : option Z) :
  engine w (trace st) (Wait (name self) timeout) = Ok d ->
  default (-1) d <> 0 ->
  exists st' e, wait w self timeout false st = (st', Raise e).
Proof.
  intros Hd Hnz. unfold wait.
  assert (Hc : client w (Wait (name self) timeout) st
               = (extend st [Engine (Wait (name self) timeout)], Ok d))
    by (rewrite client_run; by rewrite Hd).
  rewrite (bind_ok _ _ _ _ _ Hc).
  replace (match d with Some status_code => status_code | None => -1 end)
    with (default (-1) d) by (by destruct d).
  apply Z.eqb_neq in Hnz. rewrite Hnz. cbn [orb].
  unfold mbind, M_bind.
  destruct (logs w self true _) as [st1 [captured|e1]]; [|eauto].
  destruct (inspect w self true st1) as [st2 [snapshot|e2]]; [|eauto].
  unfold raise. eauto.
Qed.

(** *** [start] *)

Lemma start_body_run self st :
  _process_callbacks w self "pre" "start" st
  = (extend st (callback_effects self "pre" "start"), Ok tt) ->
  let attempt := Log DEBUG ("Attempting to start container " +:+ name self) in
  let asked := extend st (callback_effects self "pre" "start"
                          ++ [attempt; Engine (start_call self)]) in
  start_body w self st
  = match engine w (trace st ++ callback_effects self "pre" "start" ++ [attempt])
                 (start_call self) with
    | Ok _ => after_start w self asked
    | Raise e => (asked, Raise e)
    end.
Proof.
  intros Hpre attempt asked. unfold start_body.
  rewrite (bind_ok _ _ _ _ _ Hpre).
  erewrite bind_ok by apply log_run.
  unfold mbind at 1, M_bind at 1. rewrite client_run.
  rewrite !extend_extend. cbn [trace extend]. rewrite <- !app_assoc.
  fold (start_call self). fold attempt.
  change (extend st (callback_effects self "pre" "start" ++ [attempt] ++
                     [Engine (start_call self)])) with asked.
  destruct (engine w _ (start_call self)); reflexivity.
Qed.

(** C7.  With [run_once], [start] first inspects the container: when
    the start time is the zero sentinel it goes on as a container
    without [run_once] does, otherwise it only logs and returns, with
    no engine start call; when the inspect call fails, so does
    [start], with no engine start call either.  Without [run_once],
    [start] goes on at once.
    Going on means: once the [pre start] callbacks have returned, the
    engine start call is made. *)
Theorem start_run_once self st :
  let ask := InspectContainer (name self) in
  (run_once self = true ->
   forall info,
     engine w (trace st) ask = Ok info ->
     (state_started_at info = started_never ->
      start w self st = start_body w self (extend st [Engine ask]))
     /\ (state_started_at info <> started_never ->
         start w self st
         = (extend st [Engine ask;
                       Log DEBUG ("Container " +:+ name self +:+
                         " is configured to run only once and has been started before")],
            Ok tt)))
  /\ (run_once self = true ->
      forall e,
        engine w (trace st) ask = Raise e ->
        start w self st = (extend st [Engine ask], Raise e))
  /\ (run_once self = false -> start w self st = start_body w self st)
  /\ (forall st0,
        _process_callbacks w self "pre" "start" st0
        = (extend st0 (callback_effects self "pre" "start"), Ok tt) ->
        exists st' r,
          start_body w self st0 = (st', r)
          /\ In (Engine (start_call self)) (trace st')).
Proof.
  intros ask. split; [|split; [|split]].
  - intros Hro info Hinfo.
    assert (Hc : client w ask st = (extend st [Engine ask], Ok info))
      by (rewrite client_run; by rewrite Hinfo).
    unfold start. rewrite Hro. rewrite (bind_ok _ _ _ _ _ Hc). split.
    + intros Hst. apply String.eqb_eq in Hst. by rewrite Hst.
    + intros Hst. apply String.eqb_neq in Hst. rewrite Hst.
      rewrite log_run. by rewrite extend_extend.
  - intros Hro e He. unfold start. rewrite Hro. unfold ask in He |- *.
    apply bind_raise. rewrite client_run. by rewrite He.
  - intros Hro. unfold start. by rewrite Hro.
  - intros st0 Hpre.
    destruct (start_body w self st0) as [st' r] eqn:Hrun. exists st', r.
    split; [done|].
    rewrite (start_body_run _ _ Hpre) in Hrun.
    destruct (engine w _ (start_call self)).
    + assert (Hk : emits disposes_nothing (after_start w self))
        by (unfold after_start; emits_auto).
      destruct (Hk _ _ _ Hrun) as (evs & -> & _).
      cbn [trace extend]. rewrite !in_app_iff. left. right. right. cbn. auto.
    + injection Hrun as <- _.
      cbn [trace extend]. rewrite !in_app_iff. right. right. cbn. auto.
Qed.

(** *** [stop] *)

Lemma stop_not_running self st info :
  engine w (trace st ++ [Log DEBUG ("Attempting to stop container " +:+ name self)])
         (InspectContainer (name self)) = Ok info ->
  state_pid info = 0 ->
  stop w self true st
  = (extend st [Log DEBUG ("Attempting to stop container " +:+ name self);
                Engine (InspectContainer (name self));
                Log DEBUG ("Container " +:+ name self +:+ " is not running")],
     Ok tt).
Proof.
  intros Heng Hpid. unfold stop.
  erewrite bind_ok by apply log_run.
  apply try_ok.
  unfold mbind at 1, M_bind at 1. rewrite client_run. cbn [trace extend].
  rewrite Heng. rewrite Hpid. cbn [Z.eqb]. rewrite log_run.
  by rewrite !extend_extend.
Qed.

Lemma stop_not_found self st :
  engine w (trace st ++ [Log DEBUG ("Attempting to stop container " +:+ name self)])
         (InspectContainer (name self)) = Raise (APIError 404) ->
  stop w self true st
  = (extend st [Log DEBUG ("Attempting to stop container " +:+ name self);
                Engine (InspectContainer (name self));
                Log DEBUG ("Container " +:+ name self +:+ " does not exist")],
     Ok tt).
Proof.
  intros Heng. unfold stop.
  erewrite bind_ok by apply log_run.
  erewrite try_raise.
  2:{ apply bind_raise. rewrite client_run. cbn [trace extend]. by rewrite Heng. }
  unfold tolerate_status. change (true && (404 =? 404)) with true. cbv iota.
  rewrite log_run. by rewrite !extend_extend.
Qed.

Lemma stop_escalation self st info :
  (forall hist f, callback_outcome w hist f (name self) = Ok tt) ->
  (forall hist, engine w hist (InspectContainer (name self)) = Ok info) ->
  state_pid info <> 0 ->
  (forall hist signal, engine w hist (Kill (name self) signal) = Ok tt) ->
  (forall hist, engine w hist (Wait (name self) (Some 20)) = Raise Timeout) ->
  stop w self true st
  = (extend st ([Log DEBUG ("Attempting to stop container " +:+ name self);
                 Engine (InspectContainer (name self))]
                ++ callback_effects self "pre" "stop"
                ++ [Engine (Kill (name self) 15);
                    Engine (Wait (name self) (Some 20));
                    Engine (Kill (name self) 9);
                    Engine (Wait (name self) (Some 20));
                    Log ERROR ("Unable to kill container " +:+ name self
                               +:+ ": timed out")]),
     Ok tt).
Proof.
  intros Hcb Hinsp Hpid Hkill Hwait. unfold stop.
  erewrite bind_ok by apply log_run.
  apply try_ok.
  unfold mbind at 1, M_bind at 1. rewrite client_run, Hinsp.
  apply Z.eqb_neq in Hpid. rewrite Hpid.
  rewrite (bind_ok _ _ _ _ _ (process_callbacks_ok _ _ _ _ Hcb)).
  unfold mbind at 1, M_bind at 1. rewrite client_run, Hkill.
  assert (Hw : forall st0 (k : M unit),
             (wait w self (Some 20) true;; k) st0
             = (extend st0 [Engine (Wait (name self) (Some 20))], Raise Timeout)).
  { intros st0 k. apply bind_raise. unfold wait. apply bind_raise.
    rewrite client_run. by rewrite Hwait. }
  erewrite try_raise by apply Hw.
  cbn [on_timeout].
  unfold mbind at 1, M_bind at 1. rewrite client_run, Hkill.
  erewrite try_raise by apply Hw.
  cbn [on_timeout]. rewrite log_run.
  rewrite !extend_extend. reflexivity.
Qed.

Lemma process_callbacks_quiet self part ev (Q : exn -> Prop) :
  (forall hist f, callback_outcome w hist f (name self) = Ok tt) ->
  raises_only Q (_process_callbacks w self part ev).
Proof.
  intros Hcb st st' e Hrun. by rewrite process_callbacks_ok in Hrun.
Qed.

Lemma tolerate_not_found message (e : exn) :
  not_found e -> raises_only (fun _ => False) (tolerate_status true 404 message e).
Proof. intros -> st st' e'. cbn. discriminate. Qed.

Lemma stop_never_raises self st :
  (forall hist f, callback_outcome w hist f (name self) = Ok tt) ->
  (forall hist, answers_or_not_found (engine w hist (InspectContainer (name self)))) ->
  (forall hist signal,
      answers_or_not_found (engine w hist (Kill (name self) signal))) ->
  (forall hist timeout,
      answers_in_time_or_not (engine w hist (Wait (name self) timeout))) ->
  exists st', stop w self true st = (st', Ok tt).
Proof.
  intros Hcb Hinsp Hkill Hwait.
  assert (Hi : raises_only not_found (client w (InspectContainer (name self)))).
  { apply (raises_only_client _ w (InspectContainer (name self))).
    intros hist e He. specialize (Hinsp hist).
    rewrite He in Hinsp. destruct e; try done. cbn in Hinsp. by subst. }
  assert (Hk : forall signal, raises_only not_found (client w (Kill (name self) signal))).
  { intros signal. apply (raises_only_client _ w (Kill (name self) signal)).
    intros hist e He.
    specialize (Hkill hist signal).
    rewrite He in Hkill. destruct e; try done. cbn in Hkill. by subst. }
  assert (Hw : raises_only not_found_or_timeout (wait w self (Some 20) true)).
  { unfold wait. apply raises_only_bind.
    - apply (raises_only_client _ w (Wait (name self) (Some 20))).
      intros hist e He. specialize (Hwait hist (Some 20)).
      rewrite He in Hwait. destruct e; try done; cbn in Hwait.
      + left. by subst.
      + by right.
    - intros d. cbn [orb]. apply raises_only_ret. }
  assert (Hnever : raises_only (fun _ => False) (stop w self true)).
  { unfold stop. apply raises_only_bind; [apply raises_only_emit|intros _].
    apply (raises_only_try not_found); [|intros e; apply tolerate_not_found].
    apply raises_only_bind; [exact Hi|intros info].
    destruct (state_pid info =? 0); [apply raises_only_emit|].
    apply raises_only_bind; [by apply process_callbacks_quiet|intros _].
    apply raises_only_bind; [apply Hk|intros _].
    assert (Hgo : forall message,
               raises_only not_found_or_timeout
                 (wait w self (Some 20) true;;
                  log INFO message;;
                  _process_callbacks w self "post" "stop")).
    { intros message. apply raises_only_bind; [exact Hw|intros _].
      apply raises_only_bind; [apply raises_only_emit|intros _].
      by apply process_callbacks_quiet. }
    apply (raises_only_try not_found_or_timeout); [apply Hgo|].
    intros e [->| ->]; cbn [on_timeout]; [by apply raises_only_raise|].
    apply raises_only_bind; [apply Hk|intros _].
    apply (raises_only_try not_found_or_timeout); [apply Hgo|].
    intros e [->| ->]; cbn [on_timeout]; [by apply raises_only_raise|].
    apply raises_only_emit. }
  destruct (stop w self true st) as [st' [[]|e]] eqn:Hrun; [eauto|].
  destruct (Hnever _ _ _ Hrun).
Qed.


(** C5.  With callbacks that return, [stop] (with [not_exists_ok] at its
    default): does nothing but log when inspect shows pid 0; on a
    running container whose two waits of 20 seconds both time out,
    sends signal 15, waits, sends signal 9, waits again, logs an error
    and returns normally, without firing the [post stop] callbacks;
    returns normally when inspect answers 404; and never raises as
    long as inspect and kill answer or report 404 and wait answers,
    times out or reports 404. *)
Theorem stop_escalates_quietly self st :
  (forall hist f, callback_outcome w hist f (name self) = Ok tt) ->
  let attempt := Log DEBUG ("Attempting to stop container " +:+ name self) in
  let ask := Engine (InspectContainer (name self)) in
  (forall info,
      engine w (trace st ++ [attempt]) (InspectContainer (name self)) = Ok info ->
      state_pid info = 0 ->
      stop w self true st
      = (extend st [attempt; ask;
                    Log DEBUG ("Container " +:+ name self +:+ " is not running")],
         Ok tt))
  /\ (forall info,
         (forall hist, engine w hist (InspectContainer (name self)) = Ok info) ->
         state_pid info <> 0 ->
         (forall hist signal, engine w hist (Kill (name self) signal) = Ok tt) ->
         (forall hist, engine w hist (Wait (name self) (Some 20)) = Raise Timeout) ->
         stop w self true st
         = (extend st ([attempt; ask]
                       ++ callback_effects self "pre" "stop"
                       ++ [Engine (Kill (name self) 15);
                           Engine (Wait (name self) (Some 20));
                           Engine (Kill (name self) 9);
                           Engine (Wait (name self) (Some 20));
                           Log ERROR ("Unable to kill container " +:+ name self
                                      +:+ ": timed out")]),
            Ok tt))
  /\ (engine w (trace st ++ [attempt]) (InspectContainer (name self))
      = Raise (APIError 404) ->
      stop w self true st
      = (extend st [attempt; ask;
                    Log DEBUG ("Container " +:+ name self +:+ " does not exist")],
         Ok tt))
  /\ ((forall hist,
          answers_or_not_found (engine w hist (InspectContainer (name self)))) ->
      (forall hist signal,
          answers_or_not_found (engine w hist (Kill (name self) signal))) ->
      (forall hist timeout,
          answers_in_time_or_not (engine w hist (Wait (name self) timeout))) ->
      exists st', stop w self true st = (st', Ok tt)).
Proof.
  intros Hcb attempt ask. repeat split.
  - intros info. apply stop_not_running.
  - intros info. by apply stop_escalation.
  - apply stop_not_found.
  - by apply stop_never_raises.
Qed.

End ContainerProperties.


(** *** The lifecycle theorems at work *)

Lemma stop_escalates_quietly_witness :
  dockerext.stop sample.stuck sample.web true initial
  = (extend initial
       [Log DEBUG "Attempting to stop container web";
        Engine (InspectContainer "web");
        Callback "pre" "stop" "hooks.before_stop" "web";
        Engine (Kill "web" 15);
        Engine (Wait "web" (Some 20));
        Engine (Kill "web" 9);
        Engine (Wait "web" (Some 20));
        Log ERROR "Unable to kill container web: timed out"],
     Ok tt).
Proof.
  refine (proj1 (proj2 (stop_escalates_quietly sample.stuck sample.web initial _))
            sample.running _ _ _ _).
  - intros hist f. reflexivity.
  - intros hist. reflexivity.
  - discriminate.
  - intros hist signal. reflexivity.
  - intros hist. reflexivity.
Defined.

Lemma create_already_exists_witness :
  dockerext.create sample.already_exists sample.web true initial
  = (extend initial
       [Callback "pre" "create" "hooks.before_create" "web";
        Log DEBUG "Attempting to create container web";
        Engine (CreateContainer "web" "base:latest" true [] None None [] [""]);
        Log DEBUG "Container web already exists"],
     Ok tt).
Proof.
  refine (proj1 (create_already_exists sample.already_exists sample.web initial _) _).
  - reflexivity.
  - reflexivity.
Defined.

(** C6 as the spec words it has neither callback fire when the name
    is taken.  On a container with a [pre create] and a [post create]
    callback and an engine that answers 409, [create] returns normally
    and the [pre create] callback has fired. *)
Lemma create_exists_fires_pre_callback :
  (dockerext.create sample.already_exists sample.web true initial).2 = Ok tt
  /\ fired "create"
       (trace (dockerext.create sample.already_exists sample.web true initial).1)
     = [("pre", "hooks.before_create")]
  /\ fired "create"
       (trace (dockerext.create sample.already_exists sample.web true initial).1)
     <> [].
Proof. vm_compute. repeat split; discriminate. Qed.

Lemma start_run_once_witness :
  dockerext.start sample.started_before sample.job initial
  = (extend initial
       [Engine (InspectContainer "job");
        Log DEBUG
          "Container job is configured to run only once and has been started before"],
     Ok tt).
Proof.
  refine (proj2 (proj1 (start_run_once sample.started_before sample.job initial)
                   eq_refl sample.running eq_refl) _).
  discriminate.
Defined.

Example start_run_once_first_time :
  engine_calls (trace (dockerext.start (sample.exits 0) sample.job initial).1)
  = [InspectContainer "job"; Start "job" [] [] ∅ [] []].
Proof. vm_compute. reflexivity. Qed.

Lemma wait_outcomes_witness :
  dockerext.wait (sample.exits 3) sample.web None false initial
  = (extend initial
       [Engine (Wait "web" None); Engine (Logs "web");
        Engine (InspectContainer "web")],
     Raise (ContainerExitError 3 (Some "boom") (Some sample.never_started))).
Proof.
  refine (proj2 (proj1 (wait_outcomes (sample.exits 3) sample.web None false initial)
                   (Some 3) eq_refl) eq_refl _ "boom" sample.never_started
            eq_refl eq_refl).
  discriminate.
Defined.

(** ** Cutting and joining text *)

Lemma lacks_cons c a s :
  Py.lacks c (String a s) = negb (Ascii.eqb a c) && Py.lacks c s.
Proof. reflexivity. Qed.

Lemma lacks_app c a b : Py.lacks c (a +:+ b) = Py.lacks c a && Py.lacks c b.
Proof.
  induction a as [|x a IH]; [done|].
  change (String x a +:+ b) with (String x (a +:+ b)).
  rewrite !lacks_cons, IH. by rewrite andb_assoc.
Qed.

Lemma lacks_count c s : Py.lacks c s = true <-> Py.count c s = 0%nat.
Proof.
  induction s as [|x s IH]; [done|].
  rewrite lacks_cons. cbn [Py.count].
  destruct (Ascii.eqb x c); cbn; [split; [done|lia]|exact IH].
Qed.

Lemma split1_cut c a b :
  Py.lacks c a = true -> Py.split1 c (a +:+ String c b) = [a; b].
Proof.
  induction a as [|x a IH]; intros Ha.
  - cbn. by rewrite Ascii.eqb_refl.
  - change (String x a +:+ String c b) with (String x (a +:+ String c b)).
    rewrite lacks_cons in Ha. apply andb_prop in Ha as [Hx Ha].
    cbn [Py.split1]. apply negb_true_iff in Hx. rewrite Hx.
    by rewrite (IH Ha).
Qed.

Lemma split1_lacks c s : Py.lacks c s = true -> Py.split1 c s = [s].
Proof.
  induction s as [|x s IH]; intros Hs; [done|].
  rewrite lacks_cons in Hs. apply andb_prop in Hs as [Hx Hs].
  cbn [Py.split1]. apply negb_true_iff in Hx. rewrite Hx.
  by rewrite (IH Hs).
Qed.

(** where the first [c] is, if there is one *)
Lemma first_cut c s :
  Py.lacks c s = true
  \/ exists a b, Py.lacks c a = true /\ s = a +:+ String c b.
Proof.
  induction s as [|x s IH]; [by left|].
  destruct (Ascii.eqb x c) eqn:Hx.
  - right. exists "", s. apply Ascii.eqb_eq in Hx as ->. done.
  - destruct IH as [Hs | (a & b & Ha & ->)].
    + left. rewrite lacks_cons, Hx, Hs. done.
    + right. exists (String x a), b. rewrite lacks_cons, Hx, Ha. done.
Qed.

Lemma split_nonempty c s : exists h t, Str.split c s = h :: t.
Proof.
  induction s as [|x s (h & t & IH)]; cbn [Str.split]; [eauto|].
  rewrite IH. destruct (Ascii.eqb x c); eauto.
Qed.

Lemma split_lacks c s : Py.lacks c s = true -> Str.split c s = [s].
Proof.
  induction s as [|x s IH]; intros Hs; [done|].
  rewrite lacks_cons in Hs. apply andb_prop in Hs as [Hx Hs].
  cbn [Str.split]. apply negb_true_iff in Hx. rewrite Hx.
  by rewrite (IH Hs).
Qed.

(** cutting a text that was put together around a separator gives the
    pieces of the two sides *)
Lemma split_app c a b :
  Str.split c (a +:+ String c b) = (Str.split c a ++ Str.split c b)%list.
Proof.
  induction a as [|x a IH].
  - cbn. by rewrite Ascii.eqb_refl.
  - change (String x a +:+ String c b) with (String x (a +:+ String c b)).
    cbn [Str.split]. rewrite IH.
    destruct (split_nonempty c a) as (h & t & ->).
    by destruct (Ascii.eqb x c).
Qed.

Lemma split_all_lack c s : Forall (fun x => Py.lacks c x = true) (Str.split c s).
Proof.
  induction s as [|x s IH]; cbn [Str.split].
  - by repeat constructor.
  - destruct (Ascii.eqb x c) eqn:Hx.
    + by constructor.
    + destruct (Str.split c s) as [|h t]; [by repeat constructor; rewrite lacks_cons, Hx|].
      inversion IH as [|? ? Hh Ht]; subst. constructor; [|done].
      by rewrite lacks_cons, Hx, Hh.
Qed.

Lemma join_cons sep x y l :
  Py.join sep (x :: y :: l) = x +:+ sep +:+ Py.join sep (y :: l).
Proof. reflexivity. Qed.

Lemma join_split c s : Py.join (String c "") (Str.split c s) = s.
Proof.
  induction s as [|x s IH]; [done|].
  cbn [Str.split].
  destruct (split_nonempty c s) as (h & t & Hs). rewrite Hs in IH |- *.
  destruct (Ascii.eqb x c) eqn:Hx.
  - apply Ascii.eqb_eq in Hx as ->. rewrite join_cons, IH. reflexivity.
  - destruct t as [|y t].
    + cbn in IH |- *. by rewrite IH.
    + rewrite join_cons in IH |- *. rewrite <- IH. reflexivity.
Qed.

Lemma length_split c s : length (Str.split c s) = S (Py.count c s).
Proof.
  induction s as [|x s IH]; [done|].
  cbn [Str.split Py.count].
  destruct (split_nonempty c s) as (h & t & Hs). rewrite Hs in IH |- *.
  destruct (Ascii.eqb x c); cbn in *; lia.
Qed.

Lemma split_two c s a b :
  Str.split c s = [a; b]
  <-> s = a +:+ String c b /\ Py.lacks c a = true /\ Py.lacks c b = true.
Proof.
  split.
  - intros Hs. pose proof (join_split c s) as Hj.
    pose proof (split_all_lack c s) as Hl. rewrite Hs in Hj. rewrite Hs in Hl.
    apply Forall_cons in Hl as [Ha Hl]. apply Forall_cons in Hl as [Hb _].
    rewrite join_cons in Hj. cbn [Py.join] in Hj. by rewrite <- Hj.
  - intros (-> & Ha & Hb). by rewrite split_app, !split_lacks.
Qed.

Lemma unpack2_ok {A} (l : list A) a b : Py.unpack2 l = Ok (a, b) <-> l = [a; b].
Proof.
  split; [|by intros ->].
  destruct l as [|x [|y [|z l]]]; cbn; congruence.
Qed.

Lemma unpack2_raises {A} (l : list A) :
  length l ≠ 2%nat -> exists message, Py.unpack2 l = Raise (PyValueError message).
Proof.
  destruct l as [|x [|y [|z l]]]; cbn; intros H; try done; eauto.
Qed.

(** ** The text forms of [dockerext/container.py] *)

(** X1.  [Env.from_text] undoes [Env.api_formatted] and nothing
    else: it returns the variable [e] exactly on the text
    [key=value] of a variable whose key has no [=], so that the
    text is cut at its first [=] and a value may hold further
    ones.  A text without [=] raises [ValueError]. *)
Theorem Env_from_text_inverts (text : string) (e : dockerext.Env) :
  (Env.from_text text = Ok e
   <-> text = dockerext.env_api_formatted e
       /\ Py.lacks "=" (dockerext.key e) = true)
  /\ (Py.lacks "=" text = true <->
      Env.from_text text
      = Raise (PyValueError "not enough values to unpack (expected 2, got 1)")).
Proof.
  unfold Env.from_text, dockerext.env_api_formatted. split; split.
  - destruct (first_cut "=" text) as [Hs | (a & b & Ha & ->)].
    + rewrite split1_lacks by done. discriminate.
    + rewrite split1_cut by done. cbn. intros [= <-]. done.
  - intros [-> Hk]. destruct e as [k v]. cbn in *.
    change ("=" +:+ v) with (String "=" v). by rewrite split1_cut.
  - intros Hs. by rewrite split1_lacks.
  - destruct (first_cut "=" text) as [Hs | (a & b & Ha & ->)]; [done|].
    rewrite split1_cut by done. discriminate.
Qed.

Lemma split_two_or_raise c text :
  (exists a b, Str.split c text = [a; b])
  \/ (Py.count c text ≠ 1%nat
      /\ exists message,
           Py.unpack2 (Str.split c text) = Raise (PyValueError message)).
Proof.
  pose proof (length_split c text) as Hlen.
  destruct (Str.split c text) as [|a [|b [|d l]]] eqn:Hs; cbn in Hlen.
  - lia.
  - right. split; [lia|]. cbn. eauto.
  - left. eauto.
  - right. split; [lia|]. cbn. eauto.
Qed.

(** X2.  [VolumeFromLink.from_text] undoes
    [VolumeFromLink.api_formatted]: it returns [v] exactly on the text
    [name:mode] of a link whose name and mode have no colon.  It
    raises [ValueError] exactly on the texts that do not have one
    colon: there is no default mode, and no third field. *)
Theorem VolumeFromLink_from_text_inverts (text : string)
        (v : dockerext.VolumeFromLink) :
  (VolumeFromLink.from_text text = Ok v
   <-> text = dockerext.vf_api_formatted v
       /\ Py.lacks ":" (dockerext.vf_container_name v) = true
       /\ Py.lacks ":" (dockerext.mode v) = true)
  /\ (Py.count ":" text ≠ 1%nat
      <-> exists message,
            VolumeFromLink.from_text text = Raise (PyValueError message)).
Proof.
  unfold VolumeFromLink.from_text, dockerext.vf_api_formatted. split; split.
  - destruct (split_two_or_raise ":" text) as [(a & b & Hs) | (_ & m & Hr)].
    + rewrite Hs. cbn. intros [= <-]. cbn. by apply split_two in Hs.
    + rewrite Hr. discriminate.
  - intros (-> & Hn & Hm). destruct v as [n m]. cbn in *.
    change (":" +:+ m) with (String ":" m).
    by rewrite split_app, !split_lacks.
  - intros Hc. destruct (split_two_or_raise ":" text) as [(a & b & Hs) | (_ & m & Hr)].
    + pose proof (length_split ":" text) as Hlen. rewrite Hs in Hlen.
      cbn in Hlen. lia.
    + rewrite Hr. cbn. eauto.
  - intros (m & Hr) Hc.
    pose proof (length_split ":" text) as Hlen. rewrite Hc in Hlen.
    destruct (Str.split ":" text) as [|a [|b [|d l]]]; cbn in Hlen; try lia.
    discriminate.
Qed.

(** X3.  [NetworkLink.from_text] undoes [str] of a link: it returns
    [l] exactly on the text [name:alias] of a link whose name and
    alias have no colon, and the text of a link it returned is the
    text it was given. *)
Theorem NetworkLink_from_text_inverts (text : string) (l : dockerext.NetworkLink) :
  NetworkLink.from_text text = Ok l
  <-> text = NetworkLink.__str__ l
      /\ Py.lacks ":" (dockerext.nl_container_name l) = true
      /\ Py.lacks ":" (dockerext.alias l) = true.
Proof.
  unfold NetworkLink.from_text, NetworkLink.__str__, dockerext.nl_api_formatted.
  rewrite join_cons. cbn [Py.join]. split.
  - destruct (split_two_or_raise ":" text) as [(a & b & Hs) | (_ & m & Hr)].
    + rewrite Hs. cbn. intros [= <-]. cbn. by apply split_two in Hs.
    + rewrite Hr. discriminate.
  - intros (-> & Hn & Hm). destruct l as [n a]. cbn in *.
    change (":" +:+ a) with (String ":" a).
    by rewrite split_app, !split_lacks.
Qed.

(** X4.  [VolumeLink.from_text] reads a text without a colon as a
    volume that has no host path, and [host:container] as a bind of
    the two; a text with two colons or more, such as [host:container:ro],
    raises [ValueError]; whatever the text, a volume that comes back is
    not read-only. *)
Theorem VolumeLink_from_text_cases (text : string) :
  (Py.lacks ":" text = true ->
   VolumeLink.from_text text = Ok (dockerext.mkVolumeLink None text false))
  /\ (forall h c, Py.lacks ":" h = true -> Py.lacks ":" c = true ->
        VolumeLink.from_text (h +:+ ":" +:+ c)
        = Ok (dockerext.mkVolumeLink (Some h) c false))
  /\ ((2 <= Py.count ":" text)%nat ->
      VolumeLink.from_text text
      = Raise (PyValueError "too many values to unpack (expected 2)"))
  /\ (forall v, VolumeLink.from_text text = Ok v -> dockerext.read_only v = false).
Proof.
  unfold VolumeLink.from_text. repeat split.
  - intros Hs. by rewrite split_lacks.
  - intros h c Hh Hc. change (":" +:+ c) with (String ":" c).
    by rewrite split_app, !split_lacks.
  - intros Hc. pose proof (length_split ":" text) as Hlen.
    destruct (Str.split ":" text) as [|a [|b [|d l]]]; cbn in Hlen; try lia.
    reflexivity.
  - intros v. cbv zeta.
    destruct (Str.split ":" text) as [|a [|b [|d l]]]; cbn; try discriminate;
      by intros [= <-].
Qed.

(** X5.  [str] of a [VolumeLink] never gives a text: the third item
    it joins is the read-only flag, a boolean, and the second is
    [None] for a volume without a host path, so [join] raises
    [TypeError] for every volume. *)
Theorem VolumeLink_str_raises (self : dockerext.VolumeLink) :
  exists message, VolumeLink.__str__ self = Raise (PyTypeError message)
    /\ (Str.occurs_in "NoneType" message \/ Str.occurs_in "bool" message).
Proof.
  destruct self as [[h|] c ro]; cbn; eexists; (split; [reflexivity|]).
  - right. exists "sequence item 2: expected str instance, ", " found". reflexivity.
  - left. exists "sequence item 1: expected str instance, ", " found". reflexivity.
Qed.

Lemma Env_from_text_inverts_witness :
  Env.from_text "PATH=/bin:/usr/bin" = Ok (dockerext.mkEnv "PATH" "/bin:/usr/bin")
  /\ Env.from_text "OPTS=a=b" = Ok (dockerext.mkEnv "OPTS" "a=b")
  /\ Env.from_text "PATH"
     = Raise (PyValueError "not enough values to unpack (expected 2, got 1)").
Proof.
  split; [|split].
  - apply (proj1 (Env_from_text_inverts _ _)). split; reflexivity.
  - apply (proj1 (Env_from_text_inverts _ _)). split; reflexivity.
  - apply (proj2 (Env_from_text_inverts "PATH" (dockerext.mkEnv "" ""))).
    reflexivity.
Defined.

Lemma VolumeFromLink_from_text_inverts_witness :
  VolumeFromLink.from_text "data:rw" = Ok (dockerext.mkVolumeFromLink "data" "rw")
  /\ (exists message,
        VolumeFromLink.from_text "data" = Raise (PyValueError message))
  /\ (exists message,
        VolumeFromLink.from_text "data:rw:z" = Raise (PyValueError message)).
Proof.
  split; [|split].
  - apply (proj1 (VolumeFromLink_from_text_inverts _ _)). repeat split.
  - apply (proj2 (VolumeFromLink_from_text_inverts
                    "data" (dockerext.mkVolumeFromLink "" ""))).
    cbn. lia.
  - apply (proj2 (VolumeFromLink_from_text_inverts
                    "data:rw:z" (dockerext.mkVolumeFromLink "" ""))).
    cbn. lia.
Defined.

Lemma NetworkLink_from_text_inverts_witness :
  NetworkLink.from_text "db.1f3a:database"
  = Ok (dockerext.mkNetworkLink "db.1f3a" "database").
Proof. apply NetworkLink_from_text_inverts. repeat split. Defined.

Lemma VolumeLink_from_text_cases_witness :
  VolumeLink.from_text "/data" = Ok (dockerext.mkVolumeLink None "/data" false)
  /\ VolumeLink.from_text "/srv/www:/var/www"
     = Ok (dockerext.mkVolumeLink (Some "/srv/www") "/var/www" false)
  /\ VolumeLink.from_text "/srv/www:/var/www:ro"
     = Raise (PyValueError "too many values to unpack (expected 2)").
Proof.
  split; [|split].
  - apply (proj1 (VolumeLink_from_text_cases "/data")). reflexivity.
  - apply (proj1 (proj2 (VolumeLink_from_text_cases "")) "/srv/www" "/var/www");
      reflexivity.
  - apply (proj1 (proj2 (proj2 (VolumeLink_from_text_cases "/srv/www:/var/www:ro")))).
    cbn. lia.
Defined.

(** ** The engine-facing views of a container *)

Lemma binds_snoc (self : dockerext.Container) v :
  dockerext.volumes_api_binds (dockerext.append_volume self v)
  = <[dockerext.host_path v
      := (dockerext.container_path v, dockerext.read_only v)]>
      (dockerext.volumes_api_binds self).
Proof. unfold dockerext.volumes_api_binds. cbn. by rewrite foldl_app. Qed.

(** X6.  The binds handed to the engine's [start] have one entry for
    each host path: the container path and the read-only flag of the
    last volume of the container with that host path.  Earlier
    volumes with the same host path, and all but the last of the
    volumes without a host path, are not bound (though
    [volumes_api_container_paths] declares every one of them to
    [create]). *)
Theorem volumes_api_binds_last (self : dockerext.Container) (h : option string) :
  dockerext.volumes_api_binds self !! h
  = (fun v => (dockerext.container_path v, dockerext.read_only v))
      <$> last (filter (fun v => dockerext.host_path v = h) (dockerext.volumes self))
  /\ length (dockerext.volumes_api_container_paths self)
     = length (dockerext.volumes self).
Proof.
  split; [|unfold dockerext.volumes_api_container_paths; by rewrite length_fmap].
  unfold dockerext.volumes_api_binds.
  induction (dockerext.volumes self) as [|v l IH] using rev_ind; [done|].
  rewrite foldl_app, filter_app. cbn [foldl].
  destruct (decide (dockerext.host_path v = h)) as [<-|Hne].
  - rewrite lookup_insert_eq.
    rewrite filter_cons_True by done. rewrite filter_nil.
    by rewrite last_snoc.
  - rewrite lookup_insert_ne by done.
    rewrite filter_cons_False by done. rewrite filter_nil, app_nil_r. exact IH.
Qed.

(** X7.  The dependencies of a container are the names of the
    containers it links to and of those it takes volumes from, and
    nothing else: [add_link] and [add_volume_from] each add the name
    they are given and keep the rest, [add_volume] adds none. *)
Theorem dependency_names_add (self : dockerext.Container)
        (n a m c : string) (h : option string) (ro : bool) :
  (forall x, x ∈ dockerext.dependency_names self
             <-> (exists l, l ∈ dockerext.links self
                            /\ dockerext.nl_container_name l = x)
                 \/ (exists v, v ∈ dockerext.volumes_from self
                               /\ dockerext.vf_container_name v = x))
  /\ dockerext.dependency_names (add_link self n a)
     = {[ n ]} ∪ dockerext.dependency_names self
  /\ dockerext.dependency_names (add_volume_from self n m)
     = {[ n ]} ∪ dockerext.dependency_names self
  /\ dockerext.dependency_names (add_volume self h c ro)
     = dockerext.dependency_names self.
Proof.
  unfold dockerext.dependency_names, add_link, add_volume_from, add_volume.
  cbn. repeat split.
  - rewrite elem_of_union, !elem_of_list_to_set, !list_elem_of_fmap.
    intros [(l & -> & Hl) | (v & -> & Hv)]; eauto.
  - rewrite elem_of_union, !elem_of_list_to_set, !list_elem_of_fmap.
    intros [(l & Hl & <-) | (v & Hv & <-)]; eauto.
  - rewrite fmap_app, list_to_set_app_L. cbn. set_solver.
  - rewrite fmap_app, list_to_set_app_L. cbn. set_solver.
Qed.

(** ** [Callspec.from_text] *)

Lemma rfind_succ_lacks c s : Py.lacks c s = true -> Str.rfind_succ c s = O.
Proof.
  induction s as [|x s IH]; [done|].
  rewrite lacks_cons. intros H. apply andb_prop in H as [Hx Hs].
  cbn [Str.rfind_succ]. rewrite (IH Hs). apply negb_true_iff in Hx. by rewrite Hx.
Qed.

Lemma rfind_succ_cut c m n :
  Py.lacks c n = true -> Str.rfind_succ c (m +:+ String c n) = S (String.length m).
Proof.
  intros Hn. induction m as [|x m IH].
  - cbn. rewrite (rfind_succ_lacks _ _ Hn). by rewrite Ascii.eqb_refl.
  - change (String x m +:+ String c n) with (String x (m +:+ String c n)).
    cbn [Str.rfind_succ String.length]. by rewrite IH.
Qed.

Lemma take_length_app m r : Str.take (String.length m) (m +:+ r) = m.
Proof. induction m as [|x m IH]; cbn; [by destruct r|by rewrite IH]. Qed.

Lemma drop_length_app m r : Str.drop (String.length m) (m +:+ r) = r.
Proof. induction m as [|x m IH]; cbn; [done|exact IH]. Qed.

Lemma drop_past_cut c m n :
  Str.drop (S (String.length m)) (m +:+ String c n) = n.
Proof. induction m as [|x m IH]; cbn; [done|exact IH]. Qed.

Lemma rsplit1_cut c m n :
  Py.lacks c n = true -> Py.rsplit1 c (m +:+ String c n) = [m; n].
Proof.
  intros Hn. unfold Py.rsplit1. rewrite (rfind_succ_cut _ _ _ Hn).
  by rewrite take_length_app, drop_past_cut.
Qed.

Lemma startswith_lacks c s :
  Py.lacks c s = true -> Py.startswith (String c "") s = false.
Proof.
  destruct s as [|a s]; [done|]. rewrite lacks_cons.
  unfold Py.startswith. cbn [Str.strip_prefix]. rewrite (Ascii.eqb_sym c a).
  by destruct (Ascii.eqb a c).
Qed.

(** X8.  [Callspec.from_text] reads [PART_EVENT:MODULE.NAME]: the
    text is cut at its colon, the left side at its underscore and the
    right side at its last dot, and the function is looked up as
    [NAME] in [MODULE].  The phase and the event are stored as they
    are read, whatever they are.  A coordinate that begins with a dot
    raises [ValueError] without any import; a coordinate without a dot
    raises [ValueError] as well. *)
Theorem Callspec_from_text_reads
        (import_attr : string -> string -> result string)
        (part ev coord : string) :
  Py.lacks ":" part = true -> Py.lacks "_" part = true ->
  Py.lacks ":" ev = true -> Py.lacks "_" ev = true ->
  Py.lacks ":" coord = true ->
  let text := part +:+ "_" +:+ ev +:+ ":" +:+ coord in
  (forall m n,
      coord = m +:+ "." +:+ n -> Py.lacks "." n = true ->
      Py.startswith "." coord = false ->
      Callspec.from_text import_attr text
      = (f ← import_attr m n; Ok (dockerext.mkCallspec part ev f)))
  /\ (Py.startswith "." coord = true ->
      Callspec.from_text import_attr text
      = Raise (PyValueError ("Callback coordinate '" +:+ coord
                             +:+ "' cannot be relative")))
  /\ (Py.lacks "." coord = true ->
      Callspec.from_text import_attr text
      = Raise (PyValueError "not enough values to unpack (expected 2, got 1)")).
Proof.
  intros Hp1 Hp2 He1 He2 Hc text.
  assert (Hcut :
             Callspec.from_text import_attr text
             = (callback_func ←
                  (if Py.startswith "." coord then
                     Raise (PyValueError ("Callback coordinate '" +:+ coord
                                          +:+ "' cannot be relative"))
                   else
                     '(module, cb_name) ← Py.unpack2 (Py.rsplit1 "." coord);
                     import_attr module cb_name);
                dockerext.Callspec__init__ part ev callback_func)).
  { unfold Callspec.from_text, text.
    replace (part +:+ "_" +:+ ev +:+ ":" +:+ coord)
      with ((part +:+ "_" +:+ ev) +:+ String ":" coord)
      by (by rewrite !append_assoc).
    rewrite split_app.
    rewrite (split_lacks ":" (part +:+ "_" +:+ ev))
      by (by rewrite !lacks_app, Hp1, He1).
    rewrite (split_lacks ":" coord) by done.
    cbn [app Py.unpack2 mbind result_bind].
    change ("_" +:+ ev) with (String "_" ev).
    by rewrite split_app, !split_lacks. }
  rewrite Hcut. repeat split.
  - intros m n -> Hn ->. change ("." +:+ n) with (String "." n).
    rewrite (rsplit1_cut _ _ _ Hn). cbn [Py.unpack2 mbind result_bind].
    destruct (import_attr m n) as [f|e]; [|done].
    cbn. apply Callspec__init__always.
  - by intros ->.
  - intros Hdot. rewrite (startswith_lacks _ _ Hdot).
    unfold Py.rsplit1. by rewrite (rfind_succ_lacks _ _ Hdot).
Qed.

Lemma Callspec_from_text_reads_witness :
  Callspec.from_text (fun m n => Ok (m +:+ "." +:+ n)) "pre_create:hooks.volumes.prepare"
  = Ok (dockerext.mkCallspec "pre" "create" "hooks.volumes.prepare")
  /\ Callspec.from_text (fun m n => Ok (m +:+ "." +:+ n)) "during_explode:hooks.f"
     = Ok (dockerext.mkCallspec "during" "explode" "hooks.f")
  /\ Callspec.from_text (fun m n => Ok (m +:+ "." +:+ n)) "pre_create:.hooks.f"
     = Raise (PyValueError "Callback coordinate '.hooks.f' cannot be relative")
  /\ Callspec.from_text (fun m n => Ok (m +:+ "." +:+ n)) "pre_create:prepare"
     = Raise (PyValueError "not enough values to unpack (expected 2, got 1)").
Proof.
  pose (imp := fun m n : string => Ok (m +:+ "." +:+ n) : result string).
  split; [|split; [|split]].
  - exact (proj1 (Callspec_from_text_reads imp "pre" "create" "hooks.volumes.prepare"
                    eq_refl eq_refl eq_refl eq_refl eq_refl)
                 "hooks.volumes" "prepare" eq_refl eq_refl eq_refl).
  - exact (proj1 (Callspec_from_text_reads imp "during" "explode" "hooks.f"
                    eq_refl eq_refl eq_refl eq_refl eq_refl)
                 "hooks" "f" eq_refl eq_refl eq_refl).
  - exact (proj1 (proj2 (Callspec_from_text_reads imp "pre" "create" ".hooks.f"
                           eq_refl eq_refl eq_refl eq_refl eq_refl)) eq_refl).
  - exact (proj2 (proj2 (Callspec_from_text_reads imp "pre" "create" "prepare"
                           eq_refl eq_refl eq_refl eq_refl eq_refl)) eq_refl).
Defined.

(** ** More of the lifecycle *)

Section LifecycleMore.
Import dockerext.
Context (w : World).

Lemma bind_run {A B} (m : M A) (f : A -> M B) st :
  (m ≫= f) st
  = match m st with
    | (st', Ok a) => f a st'
    | (st', Raise e) => (st', Raise e)
    end.
Proof. reflexivity. Qed.

Lemma bind_assoc {A B C} (m : M A) (f : A -> M B) (g : B -> M C) st :
  ((m ≫= f) ≫= g) st = (m ≫= (fun a => f a ≫= g)) st.
Proof. rewrite !bind_run. by destruct (m st) as [st' [a|e]]. Qed.

Lemma tolerate_hit status message st :
  tolerate_status true status message (APIError status) st
  = (extend st [Log DEBUG message], Ok tt).
Proof. unfold tolerate_status. by rewrite Z.eqb_refl. Qed.

Lemma tolerate_strict status message e st :
  tolerate_status false status message e st = (st, Raise e).
Proof. unfold tolerate_status. by destruct e. Qed.

(** the body of [remove], up to the answer of the engine *)
Lemma remove_body_run self (k : M unit) st st1 :
  _process_callbacks w self "pre" "remove" st = (st1, Ok tt) ->
  let attempt := Log DEBUG ("Attempting to remove container " +:+ name self) in
  let c := RemoveContainer (name self) true in
  (_process_callbacks w self "pre" "remove";;
   log DEBUG ("Attempting to remove container " +:+ name self);;
   client w c;; k) st
  = match engine w (trace st1 ++ [attempt]) c with
    | Ok _ => k (extend st1 [attempt; Engine c])
    | Raise e => (extend st1 [attempt; Engine c], Raise e)
    end.
Proof.
  intros Hpre attempt c. rewrite (bind_ok _ _ _ _ _ Hpre).
  erewrite bind_ok by apply log_run.
  unfold mbind at 1, M_bind at 1. rewrite client_run.
  rewrite extend_extend. cbn [trace extend app]. fold attempt.
  by destruct (engine w (trace st1 ++ [attempt]) c).
Qed.

(** X9.  Once the [pre remove] callbacks have returned, [remove] asks
    the engine to remove the container by force.  When the engine
    answers that there is no such container (404), [remove] returns
    normally without firing the [post remove] callbacks, unless the
    caller passed [not_exists_ok=False], in which case the 404 is
    raised.  Any other failure of the engine is raised whatever the
    flag.  When the engine removed the container, the [post remove]
    callbacks fire after it. *)
Theorem remove_outcomes self st st1 :
  _process_callbacks w self "pre" "remove" st = (st1, Ok tt) ->
  let attempt := Log DEBUG ("Attempting to remove container " +:+ name self) in
  let c := RemoveContainer (name self) true in
  let st2 := extend st1 [attempt; Engine c] in
  (engine w (trace st1 ++ [attempt]) c = Raise (APIError 404) ->
   remove w self true st
   = (extend st2 [Log DEBUG ("Container " +:+ name self +:+ " doesn't exist")],
      Ok tt)
   /\ remove w self false st = (st2, Raise (APIError 404)))
  /\ (forall e flag, engine w (trace st1 ++ [attempt]) c = Raise e ->
                     e <> APIError 404 ->
                     remove w self flag st = (st2, Raise e))
  /\ (engine w (trace st1 ++ [attempt]) c = Ok tt ->
      forall flag st3,
        _process_callbacks w self "post" "remove"
          (extend st2 [Log INFO ("Removed container " +:+ name self)])
        = (st3, Ok tt) ->
        remove w self flag st = (st3, Ok tt)).
Proof.
  intros Hpre attempt c st2.
  pose proof (remove_body_run self) as Hbody. cbv zeta in Hbody.
  unfold remove. fold c. split; [|split].
  - intros Heng. split.
    + erewrite try_raise; [|rewrite (Hbody _ _ _ Hpre); fold c attempt;
                            rewrite Heng; reflexivity].
      apply tolerate_hit.
    + erewrite try_raise; [|rewrite (Hbody _ _ _ Hpre); fold c attempt;
                            rewrite Heng; reflexivity].
      apply tolerate_strict.
  - intros e flag Heng Hne.
    erewrite try_raise; [|rewrite (Hbody _ _ _ Hpre); fold c attempt;
                          rewrite Heng; reflexivity].
    by apply tolerate_other.
  - intros Heng flag st3 Hpost. apply try_ok.
    rewrite (Hbody _ _ _ Hpre). fold c attempt. rewrite Heng.
    erewrite bind_ok by apply log_run. exact Hpost.
Qed.

Lemma logs_run self flag st :
  logs w self flag st
  = match engine w (trace st) (Logs (name self)) with
    | Ok out => (extend st [Engine (Logs (name self))], Ok (Some out))
    | Raise e =>
        (tolerate_status flag 404
           ("Container " +:+ name self +:+ " does not exist") e;;
         mret None) (extend st [Engine (Logs (name self))])
    end.
Proof.
  unfold logs, try_except. unfold mbind at 1, M_bind at 1. rewrite client_run.
  by destruct (engine w (trace st) (Logs (name self))).
Qed.

Lemma inspect_run self flag st :
  inspect w self flag st
  = match engine w (trace st) (InspectContainer (name self)) with
    | Ok info => (extend st [Engine (InspectContainer (name self))], Ok (Some info))
    | Raise e =>
        (tolerate_status flag 404
           ("Container " +:+ name self +:+ " does not exist") e;;
         mret None) (extend st [Engine (InspectContainer (name self))])
    end.
Proof.
  unfold inspect, try_except. unfold mbind at 1, M_bind at 1. rewrite client_run.
  by destruct (engine w (trace st) (InspectContainer (name self))).
Qed.

(** X10.  [logs] and [inspect] ask the engine once.  For a container
    that is not there (404) they return [None] after a debug record,
    unless the caller passed [not_exists_ok=False], in which case the
    404 is raised; any other failure is raised whatever the flag. *)
Theorem logs_inspect_not_found self st :
  let gone := Log DEBUG ("Container " +:+ name self +:+ " does not exist") in
  (engine w (trace st) (Logs (name self)) = Raise (APIError 404) ->
   logs w self true st = (extend st [Engine (Logs (name self)); gone], Ok None)
   /\ logs w self false st
      = (extend st [Engine (Logs (name self))], Raise (APIError 404)))
  /\ (engine w (trace st) (InspectContainer (name self)) = Raise (APIError 404) ->
      inspect w self true st
      = (extend st [Engine (InspectContainer (name self)); gone], Ok None)
      /\ inspect w self false st
         = (extend st [Engine (InspectContainer (name self))], Raise (APIError 404)))
  /\ (forall e flag, e <> APIError 404 ->
        (engine w (trace st) (Logs (name self)) = Raise e ->
         logs w self flag st = (extend st [Engine (Logs (name self))], Raise e))
        /\ (engine w (trace st) (InspectContainer (name self)) = Raise e ->
            inspect w self flag st
            = (extend st [Engine (InspectContainer (name self))], Raise e))).
Proof.
  intros gone. split; [|split].
  - intros Heng. rewrite !logs_run, Heng. split.
    + erewrite bind_ok by apply tolerate_hit. by rewrite extend_extend.
    + erewrite bind_raise by apply tolerate_strict. done.
  - intros Heng. rewrite !inspect_run, Heng. split.
    + erewrite bind_ok by apply tolerate_hit. by rewrite extend_extend.
    + erewrite bind_raise by apply tolerate_strict. done.
  - intros e flag Hne. split; intros Heng.
    + rewrite logs_run, Heng.
      erewrite bind_raise by (by apply tolerate_other). done.
    + rewrite inspect_run, Heng.
      erewrite bind_raise by (by apply tolerate_other). done.
Qed.

(** X11.  A container that exited with a status other than 0 and was
    removed before [wait] could collect its output: [wait] still
    raises [ContainerExitError] with the status ([-1] when the answer
    has no [StatusCode]), and the logs and the snapshot it carries are
    both [None]. *)
Theorem wait_container_gone self timeout st (d : option Z) :
  let c := Wait (name self) timeout in
  let st1 := extend st [Engine c] in
  let gone := Log DEBUG ("Container " +:+ name self +:+ " does not exist") in
  engine w (trace st) c = Ok d ->
  default (-1) d <> 0 ->
  engine w (trace st1) (Logs (name self)) = Raise (APIError 404) ->
  engine w (trace st1 ++ [Engine (Logs (name self)); gone])
         (InspectContainer (name self)) = Raise (APIError 404) ->
  wait w self timeout false st
  = (extend st1 [Engine (Logs (name self)); gone;
                 Engine (InspectContainer (name self)); gone],
     Raise (ContainerExitError (default (-1) d) None None)).
Proof.
  intros c st1 gone Hd Hnz Hlogs Hinsp. unfold wait. fold c.
  assert (Hc : client w c st = (st1, Ok d)) by (rewrite client_run; by rewrite Hd).
  rewrite (bind_ok _ _ _ _ _ Hc).
  replace (match d with Some status_code => status_code | None => -1 end)
    with (default (-1) d) by (by destruct d).
  apply Z.eqb_neq in Hnz. rewrite Hnz. cbn [orb].
  assert (Hl : logs w self true st1
               = (extend st1 [Engine (Logs (name self)); gone], Ok None)).
  { rewrite logs_run, Hlogs. erewrite bind_ok by apply tolerate_hit.
    by rewrite extend_extend. }
  rewrite (bind_ok _ _ _ _ _ Hl).
  assert (Hi : inspect w self true (extend st1 [Engine (Logs (name self)); gone])
               = (extend st1 [Engine (Logs (name self)); gone;
                              Engine (InspectContainer (name self)); gone],
                  Ok None)).
  { rewrite inspect_run. cbn [trace extend]. rewrite Hinsp.
    erewrite bind_ok by apply tolerate_hit. by rewrite !extend_extend. }
  by rewrite (bind_ok _ _ _ _ _ Hi).
Qed.

(** [create], for callbacks that return *)
Lemma create_run self flag st :
  (forall hist f, callback_outcome w hist f (name self) = Ok tt) ->
  let pre := callback_effects self "pre" "create" in
  let attempt := Log DEBUG ("Attempting to create container " +:+ name self) in
  create w self flag st
  = match engine w (trace st ++ pre ++ [attempt]) (create_call self) with
    | Ok _ =>
        (extend st (pre ++ [attempt; Engine (create_call self);
                            Log INFO ("Created container " +:+ name self)]
                    ++ callback_effects self "post" "create"), Ok tt)
    | Raise e =>
        tolerate_status flag 409
          ("Container " +:+ name self +:+ " already exists") e
          (extend st (pre ++ [attempt; Engine (create_call self)]))
    end.
Proof.
  intros Hcb pre attempt. unfold create, try_except. fold (create_call self).
  rewrite (bind_ok _ _ _ _ _ (process_callbacks_ok w self "pre" "create" st Hcb)).
  erewrite bind_ok by apply log_run.
  unfold mbind at 1, M_bind at 1. rewrite client_run.
  rewrite !extend_extend. cbn [trace extend]. rewrite <- !app_assoc.
  fold pre attempt. cbn [app].
  destruct (engine w (trace st ++ pre ++ [attempt]) (create_call self)); [|done].
  erewrite bind_ok by apply log_run.
  rewrite (process_callbacks_ok w self "post" "create" _ Hcb).
  rewrite !extend_extend. by rewrite <- !app_assoc.
Qed.

(** X12.  [init] is [create] followed by [start], between the [pre
    init] and the [post init] callbacks.  It starts the container
    whether the engine has just created it or answers that the name
    already exists (409).  When [create] fails in any other way,
    [init] raises the failure and the engine is never asked to start
    the container. *)
Theorem init_create_then_start self st :
  (forall hist f, callback_outcome w hist f (name self) = Ok tt) ->
  let attempt := Log DEBUG ("Attempting to create container " +:+ name self) in
  let before :=
    (callback_effects self "pre" "init"
     ++ [Log DEBUG ("Initializing container " +:+ name self)]
     ++ callback_effects self "pre" "create" ++ [attempt])%list in
  let c := create_call self in
  let go_on := (start w self;; _process_callbacks w self "post" "init") in
  (engine w (trace st ++ before) c = Ok tt ->
   init w self st
   = go_on (extend st (before ++ [Engine c; Log INFO ("Created container " +:+ name self)]
                       ++ callback_effects self "post" "create")))
  /\ (engine w (trace st ++ before) c = Raise (APIError 409) ->
      init w self st
      = go_on (extend st (before ++ [Engine c;
                                     Log DEBUG ("Container " +:+ name self
                                                +:+ " already exists")])))
  /\ (forall e, engine w (trace st ++ before) c = Raise e ->
                e <> APIError 409 ->
                init w self st = (extend st (before ++ [Engine c]), Raise e)
                /\ engine_calls (before ++ [Engine c]) = [c]).
Proof.
  intros Hcb attempt before c go_on.
  assert (Hinit : init w self st
                  = (create w self true;; go_on)
                      (extend st (callback_effects self "pre" "init"
                                  ++ [Log DEBUG ("Initializing container "
                                                 +:+ name self)]))).
  { unfold init.
    rewrite (bind_ok _ _ _ _ _ (process_callbacks_ok w self "pre" "init" st Hcb)).
    erewrite bind_ok by apply log_run. by rewrite extend_extend. }
  rewrite Hinit, bind_run, (create_run _ _ _ Hcb). cbn [trace extend].
  rewrite <- !app_assoc. cbn [app]. fold attempt.
  change (trace st ++ callback_effects self "pre" "init"
          ++ Log DEBUG ("Initializing container " +:+ name self)
             :: callback_effects self "pre" "create" ++ [attempt])%list
    with (trace st ++ before)%list.
  fold c. split; [|split].
  - intros ->. rewrite extend_extend. unfold before.
    by rewrite <- !app_assoc.
  - intros ->. rewrite tolerate_hit, !extend_extend. unfold before.
    by rewrite <- !app_assoc.
  - intros e -> Hne. rewrite tolerate_other by done. split.
    + rewrite extend_extend. unfold before. by rewrite <- !app_assoc.
    + unfold engine_calls, before, callback_effects.
      rewrite !omap_app. cbn.
      assert (Hnone : forall part ev,
                 omap (fun ev0 => match ev0 with Engine c0 => Some c0 | _ => None end)
                   ((fun callspec => Callback (event_part callspec) (event callspec)
                                       (callback_func callspec) (name self))
                      <$> List.filter (matching part ev) (callbacks self)) = []).
      { intros part ev. induction (List.filter _ _) as [|x l IH]; [done|exact IH]. }
      by rewrite !Hnone.
Qed.

Lemma TempContainer_run image detach st :
  TempContainer w image None detach st
  = (mkState (trace st) (S (S (uuid_next st))) (tmp_next st),
     Ok (temp_container image detach (uuids w (uuid_next st)))).
Proof. reflexivity. Qed.

Lemma before_colon_head image :
  head (Str.split ":" image) = Some (before_colon image).
Proof.
  induction image as [|x s IH]; [done|].
  cbn [Str.split before_colon].
  destruct (Ascii.eqb x ":"); [done|].
  destruct (Str.split ":" s) as [|h t]; [done|].
  cbn in IH |- *. congruence.
Qed.

(** X13.  A [TempContainer] made without a name is called after its
    image: the image text up to its first colon (what [split(":")[0]]
    gives, so the tag is left out), a dot, and the first eight
    characters of a fresh uuid.  Making it asks nothing of the engine;
    it draws two uuids, since [Container.__init__] computes the random
    default of [name] even when a name is passed. *)
Theorem TempContainer_named image detach st :
  exists self st',
    TempContainer w image None detach st = (st', Ok self)
    /\ name self = before_colon image +:+ "." +:+ Str.take 8 (uuids w (uuid_next st))
    /\ head (Str.split ":" image) = Some (before_colon image)
    /\ Py.lacks ":" (before_colon image) = true
    /\ dockerext.image self = image
    /\ trace st' = trace st
    /\ uuid_next st' = S (S (uuid_next st)).
Proof.
  eexists _, _. split; [apply TempContainer_run|].
  repeat split.
  - apply before_colon_head.
  - pose proof (split_all_lack ":" image) as Hall.
    pose proof (before_colon_head image) as Hh.
    destruct (Str.split ":" image) as [|h t]; [done|].
    injection Hh as <-. by apply Forall_cons in Hall as [? _].
Qed.

(** X14.  Leaving the [with] block of a [TempContainer] removes the
    container by force, however the block ended.  When the engine
    removed it, or answers that it is not there (404), the block's own
    outcome stands: its value, or the exception it raised.  When the
    removal fails in any other way, that failure is what the [with]
    statement raises. *)
Theorem with_TempContainer_removes {A} image detach (body : Container -> M A)
        st st1 (r : result A) :
  let self := temp_container image detach (uuids w (uuid_next st)) in
  let attempt := Log DEBUG ("Attempting to remove container " +:+ name self) in
  let c := RemoveContainer (name self) true in
  body self (mkState (trace st) (S (S (uuid_next st))) (tmp_next st)) = (st1, r) ->
  (engine w (trace st1 ++ [attempt]) c = Ok tt ->
   with_TempContainer w image None detach body st
   = (extend st1 [attempt; Engine c; Log INFO ("Removed container " +:+ name self)],
      r))
  /\ (engine w (trace st1 ++ [attempt]) c = Raise (APIError 404) ->
      with_TempContainer w image None detach body st
      = (extend st1 [attempt; Engine c;
                     Log DEBUG ("Container " +:+ name self +:+ " doesn't exist")],
         r))
  /\ (forall e, engine w (trace st1 ++ [attempt]) c = Raise e ->
                e <> APIError 404 ->
                with_TempContainer w image None detach body st
                = (extend st1 [attempt; Engine c], Raise e)).
Proof.
  intros self attempt c Hbody.
  assert (Hwith : with_TempContainer w image None detach body st
                  = match remove w self true st1 with
                    | (st2, Ok _) => (st2, r)
                    | (st2, Raise e) => (st2, Raise e)
                    end).
  { unfold with_TempContainer, with_.
    rewrite (bind_ok _ _ _ _ _ (TempContainer_run image detach st)).
    fold self. rewrite Hbody. destruct r as [a|e]; rewrite bind_run;
      by destruct (remove w self true st1) as [st2 [[]|e']]. }
  assert (Hrm : remove w self true st1
                = match engine w (trace st1 ++ [attempt]) c with
                  | Ok _ => (extend st1 [attempt; Engine c;
                                         Log INFO ("Removed container "
                                                   +:+ name self)], Ok tt)
                  | Raise e =>
                      tolerate_status true 404
                        ("Container " +:+ name self +:+ " doesn't exist") e
                        (extend st1 [attempt; Engine c])
                  end).
  { unfold remove, try_except. fold c.
    rewrite (remove_body_run self _ st1 st1) by reflexivity.
    fold c attempt.
    destruct (engine w (trace st1 ++ [attempt]) c); [|done].
    erewrite bind_ok by apply log_run. by rewrite extend_extend. }
  rewrite Hwith, Hrm. split; [|split].
  - by intros ->.
  - intros ->. by rewrite tolerate_hit, extend_extend.
  - intros e -> Hne. by rewrite tolerate_other.
Qed.

End LifecycleMore.

(** *** The lifecycle at work *)

Lemma remove_outcomes_witness :
  dockerext.remove (scenario.vanished 1) scenario.db true initial
  = (extend initial
       [Callback "pre" "remove" "hooks.before_remove" "db";
        Log DEBUG "Attempting to remove container db";
        Engine (RemoveContainer "db" true);
        Log DEBUG "Container db doesn't exist"], Ok tt)
  /\ dockerext.remove scenario.remove_fails scenario.db true initial
     = (extend initial
          [Callback "pre" "remove" "hooks.before_remove" "db";
           Log DEBUG "Attempting to remove container db";
           Engine (RemoveContainer "db" true)], Raise (APIError 500))
  /\ dockerext.remove (sample.exits 0) scenario.db true initial
     = (extend initial
          [Callback "pre" "remove" "hooks.before_remove" "db";
           Log DEBUG "Attempting to remove container db";
           Engine (RemoveContainer "db" true);
           Log INFO "Removed container db";
           Callback "post" "remove" "hooks.after_remove" "db"], Ok tt).
Proof.
  split; [|split].
  - apply (proj1 (remove_outcomes (scenario.vanished 1) scenario.db initial _
                    eq_refl)).
    reflexivity.
  - apply (proj1 (proj2 (remove_outcomes scenario.remove_fails scenario.db initial _
                           eq_refl)));
      [reflexivity|discriminate].
  - apply (proj2 (proj2 (remove_outcomes (sample.exits 0) scenario.db initial _
                           eq_refl)));
      reflexivity.
Defined.

Lemma logs_inspect_not_found_witness :
  dockerext.logs (scenario.vanished 1) sample.job true initial
  = (extend initial [Engine (Logs "job"); Log DEBUG "Container job does not exist"],
     Ok None)
  /\ dockerext.inspect (scenario.vanished 1) sample.job false initial
     = (extend initial [Engine (InspectContainer "job")], Raise (APIError 404))
  /\ dockerext.logs scenario.unreachable sample.job true initial
     = (extend initial [Engine (Logs "job")], Raise (APIError 503)).
Proof.
  split; [|split].
  - exact (proj1 (proj1 (logs_inspect_not_found (scenario.vanished 1) sample.job
                           initial) eq_refl)).
  - exact (proj2 (proj1 (proj2 (logs_inspect_not_found (scenario.vanished 1)
                                  sample.job initial)) eq_refl)).
  - exact (proj1 (proj2 (proj2 (logs_inspect_not_found scenario.unreachable
                                  sample.job initial))
                    (APIError 503) true ltac:(discriminate)) eq_refl).
Defined.

Lemma wait_container_gone_witness :
  dockerext.wait (scenario.vanished 137) sample.job None false initial
  = (extend initial
       [Engine (Wait "job" None);
        Engine (Logs "job"); Log DEBUG "Container job does not exist";
        Engine (InspectContainer "job"); Log DEBUG "Container job does not exist"],
     Raise (ContainerExitError 137 None None)).
Proof.
  apply (wait_container_gone (scenario.vanished 137) sample.job None initial (Some 137));
    [reflexivity|discriminate|reflexivity|reflexivity].
Defined.

Lemma init_create_then_start_witness :
  dockerext.init scenario.create_fails scenario.db initial
  = (extend initial
       [Callback "pre" "init" "hooks.before_init" "db";
        Log DEBUG "Initializing container db";
        Log DEBUG "Attempting to create container db";
        Engine (create_call scenario.db)], Raise (APIError 500))
  /\ engine_calls (trace (dockerext.init sample.already_exists scenario.db initial).1)
     = [create_call scenario.db; dockerext.start_call scenario.db].
Proof.
  split.
  - apply (proj2 (proj2 (init_create_then_start scenario.create_fails scenario.db
                           initial (fun _ _ => eq_refl))));
      [reflexivity|discriminate].
  - rewrite (proj1 (proj2 (init_create_then_start sample.already_exists scenario.db
                             initial (fun _ _ => eq_refl))) eq_refl).
    reflexivity.
Defined.

Lemma with_TempContainer_removes_witness :
  with_TempContainer (sample.exits 0) "busybox:latest" None false
    (fun self => raise (PyException "boom") : M unit) initial
  = (mkState
       [Log DEBUG "Attempting to remove container busybox.0c9a1f3e";
        Engine (RemoveContainer "busybox.0c9a1f3e" true);
        Log INFO "Removed container busybox.0c9a1f3e"] 2 0,
     Raise (PyException "boom")).
Proof.
  apply (proj1 (with_TempContainer_removes (sample.exits 0) "busybox:latest" false
                  (fun self => raise (PyException "boom") : M unit) initial _ _
                  eq_refl)).
  reflexivity.
Defined.

(** ** What a match says about its subject *)

Lemma plus_class_sound {R} cls s (k : string -> string -> option R) r :
  plus_class cls s k = Some r ->
  exists got rest,
    s = got +:+ rest /\ got ≠ "" /\ Str.all cls got = true /\ k got rest = Some r.
Proof.
  revert k. induction s as [|a s IH]; intros k; [done|].
  cbn [plus_class]. destruct (cls a) eqn:Ha; [|done].
  destruct (plus_class cls s (fun got rest => k (String a got) rest)) as [r'|] eqn:Hrec.
  - intros [= ->]. apply IH in Hrec as (got & rest & -> & _ & Hall & Hk).
    exists (String a got), rest. cbn [Str.all]. by rewrite Ha, Hall.
  - intros Hk. exists (String a ""), s. cbn [Str.all]. by rewrite Ha.
Qed.

Lemma strip_prefix_sound p s s' : Str.strip_prefix p s = Some s' -> s = p +:+ s'.
Proof.
  revert s. induction p as [|a p IH]; intros s; cbn [Str.strip_prefix].
  - by intros [= ->].
  - destruct s as [|b s]; [done|].
    destruct (Ascii.eqb a b) eqn:Hab; [|done].
    apply Ascii.eqb_eq in Hab as ->. intros H. by rewrite (IH _ H).
Qed.

Lemma at_end_cases s : at_end s = true -> s = "" \/ s = newline.
Proof.
  destruct s as [|a [|b s]]; cbn [at_end].
  - by left.
  - intros H. apply Ascii.eqb_eq in H as ->. by right.
  - done.
Qed.

Lemma append_nil_r (s : string) : s +:+ "" = s.
Proof. induction s as [|a s IH]; cbn; [done|by rewrite IH]. Qed.

(** *** Volume specs, for every image *)

Lemma volume_spec_discard_match img :
  img ≠ "" -> Str.all not_space img = true ->
  re_match volume_spec_pattern (img +:+ " then discard")
  = Some (<["image" := img]> ∅).
Proof.
  intros Hne Hall. unfold re_match, volume_spec_pattern.
  cbn [exec]. rewrite String.eqb_refl.
  rewrite plus_class_app by reflexivity.
  erewrite plus_class_all; [reflexivity|done|done|].
  reflexivity.
Qed.

Lemma volume_spec_persist_match img target :
  img ≠ "" -> Str.all not_space img = true ->
  target ≠ "" -> Str.all not_colon_space target = true ->
  re_match volume_spec_pattern (img +:+ " then persist to " +:+ target)
  = Some (<["persist_image" := target]> (<["image" := img]> ∅)).
Proof.
  intros Hne Hall Htne Htall. unfold re_match, volume_spec_pattern.
  cbn [exec]. rewrite String.eqb_refl.
  rewrite plus_class_app by reflexivity.
  erewrite plus_class_all; [reflexivity|done|done|].
  cbn -[insert].
  erewrite plus_class_all; [reflexivity|done|done|].
  reflexivity.
Qed.

(** X15.  [parse_volume_spec] accepts [IMAGE then discard] and
    [IMAGE then persist to TARGET] for every image text without a
    space, tag or not, and every target without a colon or a space:
    the first resolves to the image with no persist target, the second
    to the image and the target. *)
Theorem parse_volume_spec_any_image (img target opt_name image_name : string) :
  img ≠ "" -> Str.all not_space img = true ->
  parse_volume_spec (img +:+ " then discard") opt_name image_name
  = Ok (mkVolImg (Some img) None)
  /\ (target ≠ "" -> Str.all not_colon_space target = true ->
      parse_volume_spec (img +:+ " then persist to " +:+ target) opt_name image_name
      = Ok (mkVolImg (Some img) (Some target))).
Proof.
  intros Hne Hall. unfold parse_volume_spec. split.
  - rewrite volume_spec_discard_match by done. vm_compute. reflexivity.
  - intros Htne Htall. rewrite volume_spec_persist_match by done.
    vm_compute. reflexivity.
Qed.

Lemma parse_volume_spec_any_image_witness :
  parse_volume_spec "registry.local/data:1.2 then discard" "volume_from" "img"
  = Ok (mkVolImg (Some "registry.local/data:1.2") None)
  /\ parse_volume_spec "registry.local/data:1.2 then persist to snapshot"
       "volume_from" "img"
     = Ok (mkVolImg (Some "registry.local/data:1.2") (Some "snapshot")).
Proof.
  split.
  - apply (proj1 (parse_volume_spec_any_image "registry.local/data:1.2" ""
                    "volume_from" "img" ltac:(discriminate) eq_refl)).
  - apply (proj2 (parse_volume_spec_any_image "registry.local/data:1.2" "snapshot"
                    "volume_from" "img" ltac:(discriminate) eq_refl));
      [discriminate|reflexivity].
Defined.

(** the groups of a match of [volume_spec_pattern] *)
Lemma volume_spec_match_sound spec caps :
  re_match volume_spec_pattern spec = Some caps ->
  exists img, img ≠ "" /\ Str.all not_space img = true
    /\ ((caps = <["image" := img]> ∅
         /\ (spec = img +:+ " then discard"
             \/ spec = img +:+ " then discard" +:+ newline))
        \/ exists target, target ≠ "" /\ Str.all not_colon_space target = true
             /\ caps = <["persist_image" := target]> (<["image" := img]> ∅)
             /\ (spec = img +:+ " then persist to " +:+ target
                 \/ spec = img +:+ " then persist to " +:+ target +:+ newline)).
Proof.
  unfold re_match, volume_spec_pattern. cbn [exec]. rewrite String.eqb_refl.
  intros H. apply plus_class_sound in H as (img & rest & -> & Hne & Hall & Hk).
  exists img. split; [done|]. split; [done|].
  destruct (Str.strip_prefix " then " rest) as [r1|] eqn:H1; [|done].
  apply strip_prefix_sound in H1 as ->.
  destruct (Str.strip_prefix "discard" r1) as [r2|] eqn:H2.
  - apply strip_prefix_sound in H2 as ->.
    destruct (at_end r2) eqn:He; [|done].
    left. injection Hk as <-. split; [done|].
    apply at_end_cases in He as [-> | ->]; [left|right]; reflexivity.
  - destruct (Str.strip_prefix "persist to " r1) as [r3|] eqn:H3; [|done].
    apply strip_prefix_sound in H3 as ->.
    apply plus_class_sound in Hk as (target & r4 & -> & Htne & Htall & Hk).
    destruct (at_end r4) eqn:He; [|done].
    injection Hk as <-. right. exists target. repeat split; try done.
    apply at_end_cases in He as [-> | ->]; [left|right].
    + by rewrite append_nil_r.
    + reflexivity.
Qed.

(** X16.  Whatever [parse_volume_spec] returns was read off the
    text: the image is a non-empty text without a space that begins
    the spec, and either there is no persist target and the spec goes
    on with [ then discard], or the target is a non-empty text without
    a colon or a space and the spec goes on with [ then persist to ]
    and the target; a single newline may end the spec. *)
Theorem parse_volume_spec_sound (spec opt_name image_name : string) (v : VolImg) :
  parse_volume_spec spec opt_name image_name = Ok v ->
  exists img,
    image v = Some img /\ img ≠ "" /\ Str.all not_space img = true
    /\ ((persist_image v = None
         /\ (spec = img +:+ " then discard"
             \/ spec = img +:+ " then discard" +:+ newline))
        \/ exists target,
             persist_image v = Some target
             /\ target ≠ "" /\ Str.all not_colon_space target = true
             /\ (spec = img +:+ " then persist to " +:+ target
                 \/ spec = img +:+ " then persist to " +:+ target +:+ newline)).
Proof.
  unfold parse_volume_spec.
  destruct (re_match volume_spec_pattern spec) as [caps|] eqn:Hm; [|done].
  apply volume_spec_match_sound in Hm
    as (img & Hne & Hall & [(-> & Hspec) | (target & Htne & Htall & -> & Hspec)]).
  - intros Hv.
    assert (v = mkVolImg (Some img) None) as ->
      by (vm_compute in Hv; congruence).
    exists img. cbn [image persist_image].
    split; [done|]. split; [done|]. split; [done|]. left. by split.
  - intros Hv.
    assert (v = mkVolImg (Some img) (Some target)) as ->
      by (vm_compute in Hv; congruence).
    exists img. cbn [image persist_image].
    split; [done|]. split; [done|]. split; [done|].
    right. exists target. by repeat split.
Qed.

Lemma parse_volume_spec_sound_witness :
  exists img,
    image (mkVolImg (Some "base:latest") (Some "out")) = Some img
    /\ img ≠ "" /\ Str.all not_space img = true
    /\ ((persist_image (mkVolImg (Some "base:latest") (Some "out")) = None
         /\ ("base:latest then persist to out" = img +:+ " then discard"
             \/ "base:latest then persist to out"
                = img +:+ " then discard" +:+ newline))
        \/ exists target,
             persist_image (mkVolImg (Some "base:latest") (Some "out")) = Some target
             /\ target ≠ "" /\ Str.all not_colon_space target = true
             /\ ("base:latest then persist to out"
                 = img +:+ " then persist to " +:+ target
                 \/ "base:latest then persist to out"
                    = img +:+ " then persist to " +:+ target +:+ newline)).
Proof.
  apply (parse_volume_spec_sound "base:latest then persist to out" "volume_from" "img").
  vm_compute. reflexivity.
Defined.

(** *** The two copies of the parsers *)

Lemma plus_class_rel {R1 R2 T} (f1 : R1 -> T) (f2 : R2 -> T) cls s
      (k1 : string -> string -> option R1) (k2 : string -> string -> option R2) :
  (forall got rest, f1 <$> k1 got rest = f2 <$> k2 got rest) ->
  f1 <$> plus_class cls s k1 = f2 <$> plus_class cls s k2.
Proof.
  revert k1 k2. induction s as [|a s IH]; intros k1 k2 Hk; [done|].
  cbn [plus_class]. destruct (cls a); [|done].
  specialize (IH (fun got rest => k1 (String a got) rest)
                 (fun got rest => k2 (String a got) rest)
                 (fun got rest => Hk (String a got) rest)).
  destruct (plus_class cls s (fun got rest => k1 (String a got) rest)),
           (plus_class cls s (fun got rest => k2 (String a got) rest));
    cbn in IH |- *; done.
Qed.

(** X17.  The copies of [parse_volume_spec] and [parse_link_spec] in
    [build/build.py], which name the target groups [persistimage] and
    [commitimage] and test ["persistimage" in gd] and ["commitimage"
    in gd] before they read them, give on every text the answers that
    the copies in [moromi.py] give. *)
Theorem spec_parsers_copies_agree (spec opt_name image_name : string) :
  build.parse_volume_spec spec opt_name image_name
  = parse_volume_spec spec opt_name image_name
  /\ build_parse_link_spec spec opt_name image_name
     = moromi.parse_link_spec spec opt_name image_name.
Proof.
  split.
  - pose (V1 := fun caps : captures =>
                  let gd := groupdict volume_spec_pattern caps in
                  match gd !! "image", gd !! "persist_image" with
                  | Some i, Some p => Ok (mkVolImg i p)
                  | _, _ => Raise (PyTypeError "__new__() missing required argument")
                  end).
    pose (V2 := fun caps : captures =>
                  let gd := groupdict build.volume_spec_pattern caps in
                  image ← getitem gd "image";
                  persist_image ←
                    (if decide (is_Some (gd !! "persistimage"))
                     then getitem gd "persistimage"
                     else Ok None);
                  Ok (mkVolImg image persist_image)).
    assert (Hrel : V2 <$> re_match build.volume_spec_pattern spec
                   = V1 <$> re_match volume_spec_pattern spec).
    { unfold re_match, build.volume_spec_pattern, volume_spec_pattern.
      cbn [exec]. rewrite String.eqb_refl.
      apply plus_class_rel. intros img rest.
      destruct (Str.strip_prefix " then " rest) as [r1|]; [|done].
      destruct (Str.strip_prefix "discard" r1) as [r2|].
      - destruct (at_end r2).
        + vm_compute. reflexivity.
        + destruct (Str.strip_prefix "persist to " r1) as [r3|]; [|done].
          apply plus_class_rel. intros target r4.
          destruct (at_end r4); [|done]. vm_compute. reflexivity.
      - destruct (Str.strip_prefix "persist to " r1) as [r3|]; [|done].
        apply plus_class_rel. intros target r4.
        destruct (at_end r4); [|done]. vm_compute. reflexivity. }
    unfold build.parse_volume_spec, parse_volume_spec.
    destruct (re_match build.volume_spec_pattern spec) as [c2|],
             (re_match volume_spec_pattern spec) as [c1|];
      cbn [fmap option_fmap option_map] in Hrel; try done.
    apply (inj Some) in Hrel. exact Hrel.
  - pose (L1 := fun caps : captures =>
                  let gd := groupdict moromi.link_spec_pattern caps in
                  match gd !! "image", gd !! "alias", gd !! "commit_image" with
                  | Some i, Some a, Some c => Ok (moromi.mkLinkImg i a c)
                  | _, _, _ =>
                      Raise (PyTypeError "__new__() missing required argument")
                  end).
    pose (L2 := fun caps : captures =>
                  let gd := groupdict build.link_spec_pattern caps in
                  image ← getitem gd "image";
                  alias ← getitem gd "alias";
                  commit_image ←
                    (if decide (is_Some (gd !! "commitimage"))
                     then getitem gd "commitimage"
                     else Ok None);
                  Ok (moromi.mkLinkImg image alias commit_image)).
    assert (Hrel : L2 <$> re_match build.link_spec_pattern spec
                   = L1 <$> re_match moromi.link_spec_pattern spec).
    { unfold re_match, build.link_spec_pattern, moromi.link_spec_pattern.
      cbn [exec]. rewrite String.eqb_refl.
      apply plus_class_rel. intros img rest.
      destruct (Str.strip_prefix " alias " rest) as [r0|]; [|done].
      apply plus_class_rel. intros al rest1.
      destruct (Str.strip_prefix " then " rest1) as [r1|]; [|done].
      destruct (Str.strip_prefix "discard" r1) as [r2|].
      - destruct (at_end r2).
        + vm_compute. reflexivity.
        + destruct (Str.strip_prefix "commit to " r1) as [r3|]; [|done].
          apply plus_class_rel. intros target r4.
          destruct (at_end r4); [|done]. vm_compute. reflexivity.
      - destruct (Str.strip_prefix "commit to " r1) as [r3|]; [|done].
        apply plus_class_rel. intros target r4.
        destruct (at_end r4); [|done]. vm_compute. reflexivity. }
    unfold build_parse_link_spec, moromi.parse_link_spec.
    destruct (re_match build.link_spec_pattern spec) as [c2|],
             (re_match moromi.link_spec_pattern spec) as [c1|];
      cbn [fmap option_fmap option_map] in Hrel; try done.
    apply (inj Some) in Hrel. exact Hrel.
Qed.

(** *** Link specs *)

Lemma link_spec_discard_match img al :
  img ≠ "" -> Str.all not_space img = true ->
  al ≠ "" -> Str.all not_space al = true ->
  re_match moromi.link_spec_pattern (img +:+ " alias " +:+ al +:+ " then discard")
  = Some (<["alias" := al]> (<["image" := img]> ∅)).
Proof.
  intros Hne Hall Hane Haall. unfold re_match, moromi.link_spec_pattern.
  cbn [exec]. rewrite String.eqb_refl.
  rewrite plus_class_app by reflexivity.
  erewrite plus_class_all; [reflexivity|done|done|].
  cbn -[insert].
  rewrite plus_class_app by reflexivity.
  erewrite plus_class_all; [reflexivity|done|done|].
  reflexivity.
Qed.

Lemma link_spec_commit_match img al target :
  img ≠ "" -> Str.all not_space img = true ->
  al ≠ "" -> Str.all not_space al = true ->
  target ≠ "" -> Str.all not_colon_space target = true ->
  re_match moromi.link_spec_pattern
    (img +:+ " alias " +:+ al +:+ " then commit to " +:+ target)
  = Some (<["commit_image" := target]> (<["alias" := al]> (<["image" := img]> ∅))).
Proof.
  intros Hne Hall Hane Haall Htne Htall. unfold re_match, moromi.link_spec_pattern.
  cbn [exec]. rewrite String.eqb_refl.
  rewrite plus_class_app by reflexivity.
  erewrite plus_class_all; [reflexivity|done|done|].
  cbn -[insert].
  rewrite plus_class_app by reflexivity.
  erewrite plus_class_all; [reflexivity|done|done|].
  cbn -[insert].
  erewrite plus_class_all; [reflexivity|done|done|].
  reflexivity.
Qed.

Lemma link_spec_match_sound spec caps :
  re_match moromi.link_spec_pattern spec = Some caps ->
  exists img al,
    img ≠ "" /\ Str.all not_space img = true
    /\ al ≠ "" /\ Str.all not_space al = true
    /\ (caps = <["alias" := al]> (<["image" := img]> ∅)
        \/ exists target, target ≠ "" /\ Str.all not_colon_space target = true
             /\ caps = <["commit_image" := target]>
                         (<["alias" := al]> (<["image" := img]> ∅))).
Proof.
  unfold re_match, moromi.link_spec_pattern. cbn [exec]. rewrite String.eqb_refl.
  intros H. apply plus_class_sound in H as (img & rest & -> & Hne & Hall & Hk).
  destruct (Str.strip_prefix " alias " rest) as [r0|] eqn:H0; [|done].
  apply plus_class_sound in Hk as (al & rest1 & -> & Hane & Haall & Hk).
  exists img, al. do 4 (split; [done|]).
  destruct (Str.strip_prefix " then " rest1) as [r1|] eqn:H1; [|done].
  destruct (Str.strip_prefix "discard" r1) as [r2|] eqn:H2.
  - apply strip_prefix_sound in H2 as ->.
    destruct (at_end r2) eqn:He; [|done].
    left. by injection Hk as <-.
  - destruct (Str.strip_prefix "commit to " r1) as [r3|] eqn:H3; [|done].
    apply plus_class_sound in Hk as (target & r4 & -> & Htne & Htall & Hk).
    destruct (at_end r4) eqn:He; [|done].
    injection Hk as <-. right. by exists target.
Qed.

(** X18.  [parse_link_spec] accepts [IMAGE alias ALIAS then discard]
    and [IMAGE alias ALIAS then commit to TARGET] for every image and
    alias without a space and every target without a colon or a space,
    and resolves them to the image, the alias and the target, if any.
    Whatever it returns has an image and an alias without a space,
    and a commit target, if any, without a colon or a space: a target
    that names a tag, such as [repo:tag], is never accepted. *)
Theorem parse_link_spec_cases (img al target spec opt_name image_name : string) :
  img ≠ "" -> Str.all not_space img = true ->
  al ≠ "" -> Str.all not_space al = true ->
  moromi.parse_link_spec (img +:+ " alias " +:+ al +:+ " then discard")
    opt_name image_name
  = Ok (moromi.mkLinkImg (Some img) (Some al) None)
  /\ (target ≠ "" -> Str.all not_colon_space target = true ->
      moromi.parse_link_spec
        (img +:+ " alias " +:+ al +:+ " then commit to " +:+ target)
        opt_name image_name
      = Ok (moromi.mkLinkImg (Some img) (Some al) (Some target)))
  /\ (forall v,
        moromi.parse_link_spec spec opt_name image_name = Ok v ->
        exists i a,
          moromi.image v = Some i /\ Str.all not_space i = true
          /\ moromi.alias v = Some a /\ Str.all not_space a = true
          /\ (moromi.commit_image v = None
              \/ exists t, moromi.commit_image v = Some t
                           /\ t ≠ "" /\ Str.all not_colon_space t = true)).
Proof.
  intros Hne Hall Hane Haall. unfold moromi.parse_link_spec. split; [|split].
  - rewrite link_spec_discard_match by done. vm_compute. reflexivity.
  - intros Htne Htall. rewrite link_spec_commit_match by done.
    vm_compute. reflexivity.
  - intros v.
    destruct (re_match moromi.link_spec_pattern spec) as [caps|] eqn:Hm; [|done].
    apply link_spec_match_sound in Hm
      as (i & a & _ & Hi & _ & Ha & [-> | (t & Htne & Htall & ->)]).
    + intros Hv.
      assert (v = moromi.mkLinkImg (Some i) (Some a) None) as ->
        by (vm_compute in Hv; congruence).
      exists i, a. cbn. do 4 (split; [done|]). by left.
    + intros Hv.
      assert (v = moromi.mkLinkImg (Some i) (Some a) (Some t)) as ->
        by (vm_compute in Hv; congruence).
      exists i, a. cbn. do 4 (split; [done|]). right. by exists t.
Qed.

Lemma parse_link_spec_cases_witness :
  moromi.parse_link_spec "postgres:9 alias db then discard" "link" "img"
  = Ok (moromi.mkLinkImg (Some "postgres:9") (Some "db") None)
  /\ moromi.parse_link_spec "postgres:9 alias db then commit to seeded" "link" "img"
     = Ok (moromi.mkLinkImg (Some "postgres:9") (Some "db") (Some "seeded")).
Proof.
  split.
  - apply (proj1 (parse_link_spec_cases "postgres:9" "db" "" "" "link" "img"
                    ltac:(discriminate) eq_refl ltac:(discriminate) eq_refl)).
  - apply (proj1 (proj2 (parse_link_spec_cases "postgres:9" "db" "seeded" ""
                           "link" "img"
                           ltac:(discriminate) eq_refl ltac:(discriminate) eq_refl)));
      [discriminate|reflexivity].
Defined.

(** *** Directory specs *)

(** X19.  Whatever [parse_dir_spec] returns was read off a spec of
    the form [SOURCE in DIR]: the source and the directory are the two
    sides of an [ in ] of the text (a single newline may end it),
    neither has a newline, and the destination path is the directory
    joined with the base name of the source.  No other text, a spec of
    the form [SOURCE at PATH] included, makes it return. *)
Theorem parse_dir_spec_sound (spec opt_name image_name : string) (r : ResPaths) :
  parse_dir_spec spec opt_name image_name = Ok r ->
  exists S D,
    (spec = S +:+ " in " +:+ D \/ spec = S +:+ " in " +:+ D +:+ newline)
    /\ S ≠ "" /\ Str.all dot S = true /\ D ≠ "" /\ Str.all dot D = true
    /\ r = mkResPaths (Some S) (Some (os_path.join_str D (os_path.basename S)))
                      (Some D).
Proof.
  unfold parse_dir_spec.
  destruct (re_match dir_spec_pattern spec) as [caps|] eqn:Hm; [|done].
  cbv zeta. unfold getitem.
  rewrite (groupdict_lookup _ _ "sourcepath") by (vm_compute; set_solver).
  rewrite !(groupdict_lookup _ _ "inpath") by (vm_compute; set_solver).
  rewrite !(groupdict_lookup _ _ "atpath") by (vm_compute; set_solver).
  revert Hm. unfold re_match, dir_spec_pattern. cbn [exec].
  rewrite String.eqb_refl.
  intros H. apply plus_class_sound in H as (S & rest & -> & HS & HSall & Hk).
  destruct (Str.strip_prefix " " rest) as [r0|] eqn:H0; [|done].
  apply strip_prefix_sound in H0 as ->.
  destruct (Str.strip_prefix "in " r0) as [r1|] eqn:H1.
  - apply strip_prefix_sound in H1 as ->.
    destruct (plus_class dot r1 _) as [c1|] eqn:Hin in Hk.
    + injection Hk as ->.
      apply plus_class_sound in Hin as (D & r2 & -> & HD & HDall & Hk).
      destruct (at_end r2) eqn:He; [|done].
      injection Hk as <-.
      replace (<["inpath":=D]> (<["sourcepath":=S]> ∅) !! "sourcepath")
        with (Some S) by (by simplify_map_eq).
      replace (<["inpath":=D]> (<["sourcepath":=S]> ∅) !! "inpath")
        with (Some D) by (by simplify_map_eq).
      cbn. destruct (decide _) as [_|Hno]; [|destruct Hno; eauto].
      intros [= <-]. exists S, D. split; [|done].
      apply at_end_cases in He as [-> | ->]; [left|right].
      * by rewrite append_nil_r.
      * reflexivity.
    + exfalso. revert Hk.
      destruct (Str.strip_prefix "at " ("in " +:+ r1)) eqn:Hat; [|done].
      vm_compute in Hat. discriminate.
  - destruct (Str.strip_prefix "at " r0) as [r1|] eqn:H2; [|done].
    apply plus_class_sound in Hk as (P & r2 & -> & HP & HPall & Hk).
    destruct (at_end r2) eqn:He; [|done].
    injection Hk as <-.
    replace (<["atpath":=P]> (<["sourcepath":=S]> ∅) !! "sourcepath")
      with (Some S) by (by simplify_map_eq).
    replace (<["atpath":=P]> (<["sourcepath":=S]> ∅) !! "inpath")
      with (@None string) by (by simplify_map_eq).
    cbn. destruct (decide _) as [_|Hno]; [done|destruct Hno; eauto].
Qed.

Lemma parse_dir_spec_sound_witness :
  exists S D,
    ("bin/run in tools in /opt" = S +:+ " in " +:+ D
     \/ "bin/run in tools in /opt" = S +:+ " in " +:+ D +:+ newline)
    /\ S ≠ "" /\ Str.all dot S = true /\ D ≠ "" /\ Str.all dot D = true
    /\ mkResPaths (Some "bin/run in tools") (Some "/opt/run in tools") (Some "/opt")
       = mkResPaths (Some S) (Some (os_path.join_str D (os_path.basename S)))
                    (Some D).
Proof.
  apply (parse_dir_spec_sound "bin/run in tools in /opt" "lib" "img").
  vm_compute. reflexivity.
Defined.

(** ** Configuration values that hold lists *)

Lemma rstrip_space_head a s :
  Str.is_space a = false ->
  Str.rstrip_space (String a s) = String a (Str.rstrip_space s).
Proof.
  intros Ha. cbn [Str.rstrip_space]. rewrite Ha.
  by destruct (Str.rstrip_space s).
Qed.

Lemma rstrip_space_idem s : Str.rstrip_space (Str.rstrip_space s) = Str.rstrip_space s.
Proof.
  induction s as [|a s IH]; [done|].
  cbn [Str.rstrip_space].
  destruct (Str.rstrip_space s) as [|b r] eqn:Hr.
  - destruct (Str.is_space a) eqn:Ha; [done|].
    cbn [Str.rstrip_space]. by rewrite Ha.
  - cbn [Str.rstrip_space] in IH |- *.
    change (match Str.rstrip_space r with
            | "" => if Str.is_space b then "" else String b ""
            | String a0 s0 => String b (String a0 s0)
            end) with (Str.rstrip_space (String b r)) in IH |- *.
    by rewrite IH.
Qed.

Lemma lstrip_space_head s :
  Str.lstrip_space s = ""
  \/ exists a s', Str.lstrip_space s = String a s' /\ Str.is_space a = false.
Proof.
  induction s as [|a s IH]; [by left|].
  cbn [Str.lstrip_space]. destruct (Str.is_space a) eqn:Ha; [exact IH|].
  right. eauto.
Qed.

Lemma strip_idem s : Str.strip (Str.strip s) = Str.strip s.
Proof.
  unfold Str.strip.
  destruct (lstrip_space_head s) as [-> | (a & s' & -> & Ha)]; [done|].
  rewrite (rstrip_space_head _ _ Ha). cbn [Str.lstrip_space]. rewrite Ha.
  rewrite <- (rstrip_space_head _ _ Ha). apply rstrip_space_idem.
Qed.

Lemma rstrip_space_last s u a :
  Str.rstrip_space s = u +:+ String a "" -> Str.is_space a = false.
Proof.
  revert u. induction s as [|b s IH]; intros u.
  - by destruct u.
  - cbn [Str.rstrip_space]. destruct (Str.rstrip_space s) as [|c r] eqn:Hr.
    + destruct (Str.is_space b) eqn:Hb; [by destruct u|].
      destruct u as [|c u]; [by intros [= <-]|].
      intros [= _ H]. by destruct u.
    + destruct u as [|d u]; [done|].
      intros [= _ H]. by apply (IH u).
Qed.

(** what [strip] gives neither begins nor ends with white space *)
Lemma strip_ends s :
  (forall a u, Str.strip s = String a u -> Str.is_space a = false)
  /\ (forall u a, Str.strip s = u +:+ String a "" -> Str.is_space a = false).
Proof.
  unfold Str.strip. split.
  - intros a u. destruct (lstrip_space_head s) as [-> | (b & s' & -> & Hb)]; [done|].
    rewrite (rstrip_space_head _ _ Hb). by intros [= <- _].
  - intros u a. apply rstrip_space_last.
Qed.

(** all of the white space of Python 3 below 256 goes, not only that
    of ASCII *)
Example strip_white_space :
  Str.strip (String "028" (String "160" (String "009" "a b"))
             +:+ String "133" (String "031" (String "032" "")))
  = "a b".
Proof. vm_compute. reflexivity. Qed.

(** X20.  [optional_plural] gives no element, and no error, for a
    key that the configuration does not have.  For a key that holds
    a text it gives one element for each line of the text, [1 +] the
    number of newlines in all, an empty line and the empty rest after
    a final newline included; each element is its line without the
    white space around it, so that stripping it again changes nothing:
    it neither begins nor ends with a character that [str.isspace]
    holds for. *)
Theorem optional_plural_lines (cfg : gmap string cfgval) (key : string) (st : state) :
  (cfg !! key = None ->
   optional_plural cfg key st
   = (extend st [Log DEBUG ("Optional config key " +:+ key +:+ " does not exist")],
      Ok []))
  /\ (forall text,
        cfg !! key = Some (CfgStr text) ->
        optional_plural cfg key st
        = (extend st [Log DEBUG ("Optional config key " +:+ key +:+ " exists")],
           Ok (line_split text))
        /\ length (line_split text) = S (Py.count "010" text)
        /\ (forall x, x ∈ line_split text -> Str.strip x = x)
        /\ (forall a b, Py.lacks "010" a = true ->
              text = a +:+ newline +:+ b ->
              line_split text = Str.strip a :: line_split b)
        /\ (forall x, x ∈ line_split text ->
              (forall a u, x = String a u -> Str.is_space a = false)
              /\ (forall u a, x = u +:+ String a "" -> Str.is_space a = false))).
Proof.
  unfold optional_plural. split.
  - by intros ->.
  - intros text ->. split; [done|]. unfold line_split. split; [|split; [|split]].
    + by rewrite length_fmap, length_split.
    + intros x Hx. apply list_elem_of_fmap in Hx as (y & -> & _). apply strip_idem.
    + intros a b Ha ->. change (newline +:+ b) with (String "010" b).
      by rewrite split_app, split_lacks, fmap_app.
    + intros x Hx. apply list_elem_of_fmap in Hx as (y & -> & _).
      destruct (strip_ends y) as [Hfirst Hlast]. split.
      * intros a u. apply Hfirst.
      * intros u a. apply Hlast.
Qed.

Lemma optional_plural_lines_witness :
  optional_plural
    {[ "libs" := CfgStr ("a in /x" +:+ newline +:+ " b in /y " +:+ newline) ]}
    "libs" initial
  = (extend initial [Log DEBUG "Optional config key libs exists"],
     Ok ["a in /x"; "b in /y"; ""])
  /\ optional_plural {[ "libs" := CfgStr "a in /x" ]} "runs" initial
     = (extend initial [Log DEBUG "Optional config key runs does not exist"], Ok []).
Proof.
  split.
  - exact (proj1 (proj2 (optional_plural_lines
                           {[ "libs" := CfgStr ("a in /x" +:+ newline
                                                +:+ " b in /y " +:+ newline) ]}
                           "libs" initial) _ eq_refl)).
  - exact (proj1 (optional_plural_lines {[ "libs" := CfgStr "a in /x" ]}
                    "runs" initial) eq_refl).
Defined.

(** ** The layered build *)

Lemma bind_inv {A B} (m : M A) (f : A -> M B) st st' b :
  (m ≫= f) st = (st', Ok b) ->
  exists a st1, m st = (st1, Ok a) /\ f a st1 = (st', Ok b).
Proof.
  rewrite bind_run. destruct (m st) as [st1 [a|e]]; [eauto|discriminate].
Qed.

Lemma lift_inv {A} (r : result A) st st' a :
  lift r st = (st', Ok a) -> r = Ok a /\ st' = st.
Proof. unfold lift. by intros [= <- ->]. Qed.

Lemma ret_inv {A} (x : A) st st' a : (mret x : M A) st = (st', Ok a) -> a = x.
Proof. by intros [= _ <-]. Qed.

Lemma fold_each_inv {A S} (P : S -> Prop) (body : S -> A -> M S) l acc st st' acc' :
  (forall acc x st st' acc', P acc -> body acc x st = (st', Ok acc') -> P acc') ->
  P acc -> fold_each l acc body st = (st', Ok acc') -> P acc'.
Proof.
  intros Hstep. revert acc st. induction l as [|x l IH]; intros acc st Hacc.
  - cbn. by intros [= _ <-].
  - cbn [fold_each]. intros H. apply bind_inv in H as (a & st1 & Hx & H).
    eapply IH; [|exact H]. eauto.
Qed.

Lemma workdirs_app a b :
  moromi.workdirs (a ++ b) = (moromi.workdirs a ++ moromi.workdirs b)%list.
Proof. apply omap_app. Qed.

Lemma no_repeat_snoc {A} `{EqDecision A} (x : A) l d :
  no_repeat (x :: l) = true -> last (x :: l) ≠ Some d ->
  no_repeat (x :: l ++ [d]) = true.
Proof.
  revert x. induction l as [|y l IH]; intros x Hnr Hlast.
  - cbn in *. rewrite bool_decide_eq_false_2; [done|congruence].
  - change (no_repeat (x :: y :: l)) with
      (negb (bool_decide (x = y)) && no_repeat (y :: l)) in Hnr.
    apply andb_prop in Hnr as [Hxy Hnr].
    change (no_repeat (x :: (y :: l) ++ [d])) with
      (negb (bool_decide (x = y)) && no_repeat (y :: l ++ [d])).
    rewrite Hxy. cbn [andb]. apply IH; [done|].
    by rewrite last_cons_cons in Hlast.
Qed.

Lemma add_workdir_inv context previous_workdir src dest d context' previous' :
  workdir_inv (context, previous_workdir) ->
  moromi.add_workdir (context ++ [moromi.Include src dest true]) previous_workdir d
  = (context', previous') ->
  workdir_inv (context', previous').
Proof.
  unfold workdir_inv, moromi.add_workdir, moromi.Previous__call__. cbn [fst snd].
  intros [Hnr Hlast].
  destruct (decide (moromi.value previous_workdir = d)) as [<-|Hne]; cbn [negb].
  - intros [= <- <-]. rewrite workdirs_app. cbn. by rewrite app_nil_r.
  - intros [= <- <-]. rewrite !workdirs_app. cbn [moromi.workdirs omap].
    cbn. rewrite app_nil_r. split.
    + apply no_repeat_snoc; [done|]. rewrite Hlast. congruence.
    + by rewrite app_comm_cons, last_snoc.
Qed.

Lemma workdir_inv_other (acc : list moromi.context_call * moromi.Previous) tail :
  moromi.workdirs tail = [] -> workdir_inv acc ->
  workdir_inv ((acc.1 ++ tail)%list, acc.2).
Proof.
  unfold workdir_inv. cbn [fst snd]. intros Ht. rewrite workdirs_app, Ht.
  by rewrite app_nil_r.
Qed.

Lemma run_step_inv image_name acc run_spec st st' acc' :
  workdir_inv acc ->
  moromi.run_step image_name acc run_spec st = (st', Ok acc') ->
  workdir_inv acc'.
Proof.
  intros Hinv H. unfold moromi.run_step in H.
  apply bind_inv in H as (res & st1 & _ & H).
  destruct (moromi.add_workdir _ _ _) as [context' previous'] eqn:Hadd.
  apply ret_inv in H as ->.
  destruct acc as [context previous_workdir].
  apply (add_workdir_inv _ _ _ _ _ _ _ Hinv) in Hadd.
  by apply (workdir_inv_other (context', previous')).
Qed.

Lemma entrypoint_step_inv image_name acc entrypoint_spec st st' context :
  workdir_inv acc ->
  moromi.entrypoint_step image_name acc entrypoint_spec st = (st', Ok context) ->
  no_repeat (Some "" :: moromi.workdirs context) = true.
Proof.
  intros Hinv H. unfold moromi.entrypoint_step in H.
  apply bind_inv in H as (res & st1 & _ & H).
  destruct (moromi.add_workdir _ _ _) as [context' previous'] eqn:Hadd.
  apply ret_inv in H as ->.
  destruct acc as [context0 previous_workdir].
  apply (add_workdir_inv _ _ _ _ _ _ _ Hinv) in Hadd.
  by apply (workdir_inv_other (context', previous')
              [moromi.Entrypoint (dest_path res)]).
Qed.

Lemma workdirs_fmap {A} (f : A -> moromi.context_call) (l : list A) :
  (forall x, match f x with moromi.Workdir _ => False | _ => True end) ->
  moromi.workdirs (f <$> l) = [].
Proof.
  intros Hf. induction l as [|x l IH]; [done|].
  cbn. specialize (Hf x). destruct (f x); try done; exact IH.
Qed.

Lemma lib_step_workdirs image_name context lib_spec st st' context' :
  moromi.workdirs context = [] ->
  moromi.lib_step image_name context lib_spec st = (st', Ok context') ->
  moromi.workdirs context' = [].
Proof.
  intros Hw H. unfold moromi.lib_step in H.
  apply bind_inv in H as (res & st1 & _ & H). apply ret_inv in H as ->.
  by rewrite workdirs_app, Hw.
Qed.

Lemma env_step_workdirs context env_spec st st' context' :
  moromi.workdirs context = [] ->
  moromi.env_step context env_spec st = (st', Ok context') ->
  moromi.workdirs context' = [].
Proof.
  intros Hw H. unfold moromi.env_step in H.
  apply bind_inv in H as ([k v] & st1 & _ & H). apply ret_inv in H as ->.
  by rewrite workdirs_app, Hw.
Qed.

(** X21.  [build_image] never asks for the working directory it is
    already in: the first [workdir] call is not for the empty
    directory that [previous_workdir] starts from, and no [workdir]
    call is for the directory of the [workdir] call before it,
    whatever the run specs and the entry point are.  Runs in the same
    directory that follow each other share one [workdir]. *)
Theorem build_image_workdirs (image_name : string) (image_config : gmap string cfgval)
        (extra_env : list string) (st st' : state)
        (from : cfgval) (context : list moromi.context_call) :
  moromi.build_image image_name image_config extra_env st = (st', Ok (from, context)) ->
  no_repeat (Some "" :: moromi.workdirs context) = true.
Proof.
  unfold moromi.build_image. intros H.
  apply bind_inv in H as (_ & st1 & _ & H).
  apply bind_inv in H as (from' & st2 & _ & H).
  apply bind_inv in H as (maintainer & st3 & _ & H).
  apply bind_inv in H as (ports & st4 & _ & H).
  apply bind_inv in H as (volumes & st5 & _ & H).
  apply bind_inv in H as (lib_specs & st6 & _ & H).
  apply bind_inv in H as (context1 & st7 & Hlibs & H).
  apply bind_inv in H as (env_specs & st8 & _ & H).
  apply bind_inv in H as (context2 & st9 & Henvs & H).
  apply bind_inv in H as (run_specs & st10 & _ & H).
  apply bind_inv in H as (acc & st11 & Hruns & H).
  apply bind_inv in H as (context3 & st12 & Hentry & H).
  apply ret_inv in H. injection H as _ ->.
  assert (H1 : moromi.workdirs context1 = []).
  { eapply (fold_each_inv (fun c => moromi.workdirs c = [])); [|
      |exact Hlibs].
    - intros. by eapply lib_step_workdirs.
    - rewrite !workdirs_app, !workdirs_fmap by done. done. }
  assert (H2 : moromi.workdirs context2 = []).
  { eapply (fold_each_inv (fun c => moromi.workdirs c = [])); [| |exact Henvs].
    - intros. by eapply env_step_workdirs.
    - done. }
  assert (Hacc : workdir_inv acc).
  { eapply (fold_each_inv workdir_inv); [| |exact Hruns].
    - intros. by eapply run_step_inv.
    - unfold workdir_inv. cbn [fst snd]. by rewrite H2. }
  destruct (image_config !! "entrypoint") as [v|].
  - apply bind_inv in Hentry as (entrypoint_spec & st13 & _ & Hentry).
    by eapply entrypoint_step_inv.
  - apply ret_inv in Hentry as ->. apply Hacc.
Qed.

Lemma build_image_workdirs_witness :
  (moromi.build_image "img" layered.config ["HOME=/root"] initial).2
  = Ok (CfgStr "base:latest", layered.calls)
  /\ moromi.workdirs layered.calls = [Some "/opt"; Some "/srv"]
  /\ no_repeat (Some "" :: moromi.workdirs layered.calls) = true.
Proof.
  destruct (moromi.build_image "img" layered.config ["HOME=/root"] initial)
    as [st' r] eqn:Hrun.
  assert (Hr : r = Ok (CfgStr "base:latest", layered.calls)).
  { pose proof Hrun as Hv. vm_compute in Hv. injection Hv as _ <-. reflexivity. }
  subst r. split; [reflexivity|]. split; [reflexivity|].
  exact (build_image_workdirs "img" layered.config ["HOME=/root"] initial st'
           _ _ Hrun).
Defined.

(** *** The order of the calls *)

Lemma staged_app maintainer k k' context new :
  staged maintainer k context -> (k <= k')%nat ->
  Forall (fun c => stage c = k') new ->
  staged maintainer k' (context ++ new).
Proof.
  intros (Hhead & Horder & Hbound) Hk Hnew. split; [|split].
  - destruct context; [done|done].
  - intros i j c d Hij Hi Hj.
    destruct (decide (j < length context)%nat) as [Hjl|Hjl].
    + rewrite lookup_app_l in Hi by lia. rewrite lookup_app_l in Hj by lia.
      exact (Horder i j c d Hij Hi Hj).
    + rewrite lookup_app_r in Hj by lia.
      apply list_elem_of_lookup_2 in Hj.
      rewrite Forall_forall in Hnew. rewrite (Hnew _ Hj).
      destruct (decide (i < length context)%nat) as [Hil|Hil].
      * rewrite lookup_app_l in Hi by lia. apply list_elem_of_lookup_2 in Hi.
        rewrite Forall_forall in Hbound. specialize (Hbound _ Hi). lia.
      * rewrite lookup_app_r in Hi by lia. apply list_elem_of_lookup_2 in Hi.
        by rewrite (Hnew _ Hi).
  - apply Forall_app. split.
    + eapply Forall_impl; [exact Hbound|]. cbn. intros. lia.
    + eapply Forall_impl; [exact Hnew|]. cbn. intros. lia.
Qed.

Lemma staged_mono maintainer k k' context :
  staged maintainer k context -> (k <= k')%nat -> staged maintainer k' context.
Proof.
  intros H Hk. rewrite <- (app_nil_r context).
  by apply (staged_app _ k).
Qed.

Lemma add_workdir_staged maintainer context previous_workdir d context' previous' :
  staged maintainer 5 context ->
  moromi.add_workdir context previous_workdir d = (context', previous') ->
  staged maintainer 5 context'.
Proof.
  unfold moromi.add_workdir.
  destruct (moromi.Previous__call__ previous_workdir d) as [p [|]]; cbn [negb].
  - by intros H [= <- _].
  - intros H [= <- _]. apply (staged_app _ 5); [done|lia|]. by repeat constructor.
Qed.

Lemma run_step_staged maintainer image_name acc run_spec st st' acc' :
  staged maintainer 5 acc.1 ->
  moromi.run_step image_name acc run_spec st = (st', Ok acc') ->
  staged maintainer 5 acc'.1.
Proof.
  intros Hinv H. unfold moromi.run_step in H.
  apply bind_inv in H as (res & st1 & _ & H).
  destruct (moromi.add_workdir _ _ _) as [context' previous'] eqn:Hadd.
  apply ret_inv in H as ->. cbn [fst].
  apply (staged_app _ 5); [|lia|by repeat constructor].
  eapply add_workdir_staged; [|exact Hadd].
  apply (staged_app _ 5); [done|lia|by repeat constructor].
Qed.

Lemma entrypoint_step_staged maintainer image_name acc entrypoint_spec st st' context :
  staged maintainer 5 acc.1 ->
  moromi.entrypoint_step image_name acc entrypoint_spec st = (st', Ok context) ->
  staged maintainer 6 context
  /\ exists path, last context = Some (moromi.Entrypoint path).
Proof.
  intros Hinv H. unfold moromi.entrypoint_step in H.
  apply bind_inv in H as (res & st1 & _ & H).
  destruct (moromi.add_workdir _ _ _) as [context' previous'] eqn:Hadd.
  apply ret_inv in H as ->. split.
  - apply (staged_app _ 5); [|lia|by repeat constructor].
    eapply add_workdir_staged; [|exact Hadd].
    apply (staged_app _ 5); [done|lia|by repeat constructor].
  - exists (dest_path res). apply last_snoc.
Qed.

(** X22.  The calls that [build_image] makes on its build context
    come in the order of its parts, whatever the configuration: the
    maintainer first, then the exposed ports, the volumes, the
    libraries, the environment (the variables of the configuration,
    then the extra ones), the files to run and the entry point, which
    is the last call when the configuration has one.  A
    configuration without [from] or without [maintainer] makes no
    call: [build_image] raises [KeyError]. *)
Theorem build_image_calls_in_order (image_name : string)
        (image_config : gmap string cfgval) (extra_env : list string) (st : state) :
  (forall st' from context,
      moromi.build_image image_name image_config extra_env st
      = (st', Ok (from, context)) ->
      image_config !! "from" = Some from
      /\ (exists maintainer rest,
             image_config !! "maintainer" = Some maintainer
             /\ context = moromi.Maintainer maintainer :: rest)
      /\ in_stage_order context
      /\ (is_Some (image_config !! "entrypoint") ->
          exists path, last context = Some (moromi.Entrypoint path)))
  /\ (image_config !! "from" = None ->
      moromi.build_image image_name image_config extra_env st
      = (extend st [Log INFO ("Generating files for " +:+ image_name)],
         Raise (PyKeyError "from")))
  /\ (is_Some (image_config !! "from") -> image_config !! "maintainer" = None ->
      moromi.build_image image_name image_config extra_env st
      = (extend st [Log INFO ("Generating files for " +:+ image_name)],
         Raise (PyKeyError "maintainer"))).
Proof.
  split; [|split].
  - unfold moromi.build_image. intros st' from context H.
    apply bind_inv in H as (_ & st1 & _ & H).
    apply bind_inv in H as (from' & st2 & Hfrom & H).
    apply bind_inv in H as (maintainer & st3 & Hmaint & H).
    apply bind_inv in H as (ports & st4 & _ & H).
    apply bind_inv in H as (volumes & st5 & _ & H).
    apply bind_inv in H as (lib_specs & st6 & _ & H).
    apply bind_inv in H as (context1 & st7 & Hlibs & H).
    apply bind_inv in H as (env_specs & st8 & _ & H).
    apply bind_inv in H as (context2 & st9 & Henvs & H).
    apply bind_inv in H as (run_specs & st10 & _ & H).
    apply bind_inv in H as (acc & st11 & Hruns & H).
    apply bind_inv in H as (context3 & st12 & Hentry & H).
    apply ret_inv in H. injection H as <- <-.
    apply lift_inv in Hfrom as [Hfrom _]. apply lift_inv in Hmaint as [Hmaint _].
    unfold getitem in Hfrom, Hmaint.
    destruct (image_config !! "from") as [f|]; [|done]. injection Hfrom as ->.
    destruct (image_config !! "maintainer") as [m|]; [|done]. injection Hmaint as ->.
    assert (H0 : staged maintainer 0 [moromi.Maintainer maintainer]).
    { split; [done|]. split; [|by repeat constructor].
      intros [|i] [|j] c d Hij; cbn; try lia; done. }
    assert (H1 : staged maintainer 3 context1).
    { eapply (fold_each_inv (staged maintainer 3)); [| |exact Hlibs].
      - intros c x s s' c' Hc Hstep. unfold moromi.lib_step in Hstep.
        apply bind_inv in Hstep as (res & s1 & _ & Hstep).
        apply ret_inv in Hstep as ->.
        apply (staged_app _ 3); [done|lia|by repeat constructor].
      - apply (staged_mono _ 2); [|lia].
        apply (staged_app _ 1); [|lia|].
        + apply (staged_app _ 0); [done|lia|].
          apply Forall_fmap. by apply Forall_true.
        + apply Forall_fmap. by apply Forall_true. }
    assert (H2 : staged maintainer 4 context2).
    { eapply (fold_each_inv (staged maintainer 4)); [| |exact Henvs].
      - intros c x s s' c' Hc Hstep. unfold moromi.env_step in Hstep.
        apply bind_inv in Hstep as ([k v] & s1 & _ & Hstep).
        apply ret_inv in Hstep as ->.
        apply (staged_app _ 4); [done|lia|by repeat constructor].
      - by apply (staged_mono _ 3); [|lia]. }
    assert (H3 : staged maintainer 5 acc.1).
    { eapply (fold_each_inv (fun acc => staged maintainer 5 acc.1)); [| |exact Hruns].
      - intros. by eapply run_step_staged.
      - by apply (staged_mono _ 4); [|lia]. }
    assert (H4 : staged maintainer 6 context
                 /\ (is_Some (image_config !! "entrypoint") ->
                     exists path, last context = Some (moromi.Entrypoint path))).
    { destruct (image_config !! "entrypoint") as [v|].
      - apply bind_inv in Hentry as (entrypoint_spec & st13 & _ & Hentry).
        apply (entrypoint_step_staged maintainer) in Hentry as [? ?]; [|done].
        by split.
      - apply ret_inv in Hentry as ->. split.
        + by apply (staged_mono _ 5); [|lia].
        + by intros [? ?]. }
    destruct H4 as [(Hhead & Horder & _) Hlast].
    split; [done|]. split; [|by split].
    exists maintainer. destruct context as [|c rest]; [done|].
    injection Hhead as ->. by exists rest.
  - intros Hfrom. unfold moromi.build_image, getitem.
    erewrite bind_ok by apply log_run. by rewrite Hfrom.
  - intros [f Hfrom] Hmaint. unfold moromi.build_image, getitem.
    erewrite bind_ok by apply log_run. by rewrite Hfrom, Hmaint.
Qed.

Lemma build_image_calls_in_order_witness :
  in_stage_order layered.calls
  /\ moromi.build_image "img" {[ "from" := CfgStr "base:latest" ]} [] initial
     = (extend initial [Log INFO "Generating files for img"],
        Raise (PyKeyError "maintainer")).
Proof.
  destruct (moromi.build_image "img" layered.config ["HOME=/root"] initial)
    as [st' r] eqn:Hrun.
  assert (Hr : r = Ok (CfgStr "base:latest", layered.calls)).
  { pose proof Hrun as Hv. vm_compute in Hv. injection Hv as _ <-. reflexivity. }
  subst r. split.
  - exact (proj1 (proj2 (proj2
             (proj1 (build_image_calls_in_order "img" layered.config ["HOME=/root"]
                       initial) _ _ _ Hrun)))).
  - apply (proj2 (proj2 (build_image_calls_in_order
                           "img" {[ "from" := CfgStr "base:latest" ]} [] initial))).
    + vm_compute. eauto.
    + vm_compute. reflexivity.
Defined.

(** ** A batch of images *)

Lemma for_each_app_raise {A} (body : A -> M unit) done x rest st st1 st2 e :
  for_each done body st = (st1, Ok tt) ->
  body x st1 = (st2, Raise e) ->
  for_each (done ++ x :: rest) body st = (st2, Raise e).
Proof.
  revert st. induction done as [|y done IH]; intros st.
  - cbn [for_each app]. intros [= <-] Hx. by rewrite (bind_raise _ _ _ _ _ Hx).
  - cbn [for_each app]. intros H Hx. apply bind_inv in H as ([] & st0 & Hy & H).
    rewrite (bind_ok _ _ _ _ _ Hy). by apply IH.
Qed.

Lemma for_each_app_ok {A} (body : A -> M unit) done rest st st1 :
  for_each done body st = (st1, Ok tt) ->
  for_each (done ++ rest) body st = for_each rest body st1.
Proof.
  revert st. induction done as [|y done IH]; intros st.
  - cbn [for_each app]. by intros [= <-].
  - cbn [for_each app]. intros H. apply bind_inv in H as ([] & st0 & Hy & H).
    rewrite (bind_ok _ _ _ _ _ Hy). by apply IH.
Qed.

Section Batch.
Context (w : World).
Context (build_container_system build_image : string -> gmap string cfgval -> M unit).

Lemma build_images_head config images st :
  build_images w build_container_system build_image config images st
  = match engine w (trace st ++ [building images]) Ping with
    | Ok _ =>
        (for_each images
           (build_images_body build_container_system build_image config);;
         log INFO "Done") (extend st [building images; Engine Ping])
    | Raise e => (extend st [building images; Engine Ping], Raise e)
    end.
Proof.
  unfold build_images, building. erewrite bind_ok by apply log_run.
  rewrite bind_run, client_run, extend_extend. cbn [trace extend app].
  by destruct (engine w _ Ping).
Qed.

(** X23.  [build_images] builds the images in the order given and
    stops at the first one that fails: the failure is raised as it
    is, the images after it are not looked at, what was done for the
    images before it stays done, and [Done] is not logged.  An image
    that the configuration does not have is such a failure: it raises
    [KeyError] before either build path is entered. *)
Theorem build_images_stops_at_failure
        (config : gmap string (gmap string cfgval))
        (done : list string) (x : string) (rest : list string)
        (st st1 st2 : state) (e : exn) :
  let images := (done ++ x :: rest)%list in
  let body := build_images_body build_container_system build_image config in
  engine w (trace st ++ [building images]) Ping = Ok tt ->
  for_each done body (extend st [building images; Engine Ping]) = (st1, Ok tt) ->
  (body x st1 = (st2, Raise e) ->
   build_images w build_container_system build_image config images st
   = (st2, Raise e))
  /\ (config !! x = None ->
      build_images w build_container_system build_image config images st
      = (extend st1 [Log DEBUG ("Processing image " +:+ x)], Raise (PyKeyError x))).
Proof.
  intros images body Hping Hdone.
  assert (Hrun : forall st2 e, body x st1 = (st2, Raise e) ->
             build_images w build_container_system build_image config images st
             = (st2, Raise e)).
  { clear st2 e. intros st2 e Hx. rewrite build_images_head, Hping.
    apply bind_raise. by apply (for_each_app_raise _ _ _ _ _ st1). }
  split; [apply Hrun|].
  intros Hx. apply Hrun. unfold body, build_images_body, getitem.
  erewrite bind_ok by apply log_run. by rewrite Hx.
Qed.

(** X24.  [build_images] pings the engine before it looks at any
    image: when the ping fails, the failure is raised and nothing is
    built.  When the ping and every image succeed, [Done] is logged
    after the last image, and for no image (an empty list) nothing
    else happens. *)
Theorem build_images_pings_first
        (config : gmap string (gmap string cfgval)) (images : list string)
        (st : state) :
  let body := build_images_body build_container_system build_image config in
  (forall e, engine w (trace st ++ [building images]) Ping = Raise e ->
     build_images w build_container_system build_image config images st
     = (extend st [building images; Engine Ping], Raise e))
  /\ (engine w (trace st ++ [building images]) Ping = Ok tt ->
      forall st1,
        for_each images body (extend st [building images; Engine Ping]) = (st1, Ok tt) ->
        build_images w build_container_system build_image config images st
        = (extend st1 [Log INFO "Done"], Ok tt))
  /\ (engine w (trace st ++ [building []]) Ping = Ok tt ->
      build_images w build_container_system build_image config [] st
      = (extend st [Log INFO "Building 0 image"; Engine Ping; Log INFO "Done"], Ok tt)).
Proof.
  intros body. split; [|split].
  - intros e He. by rewrite build_images_head, He.
  - intros Hping st1 Hall. rewrite build_images_head, Hping.
    fold body. by rewrite (bind_ok _ _ _ _ _ Hall).
  - intros Hping. rewrite build_images_head, Hping.
    cbn [for_each]. erewrite bind_ok by reflexivity.
    rewrite log_run, !extend_extend. reflexivity.
Qed.

(** C10.  [build_images] hands every image of the list, wherever it
    stands in it, to one of the two build paths, chosen by the keys of
    its configuration.  Once the engine has answered the ping and the
    images before it are built, an image whose configuration has at
    least one of the keys [volumes_from], [links], [commit] is built by
    [build_container_system], an image that has none of them by
    [build_image]; the run goes on from there with the images after it
    and ends with [Done].  The other path is not entered for this
    image. *)
Theorem build_images_routes
        (config : gmap string (gmap string cfgval))
        (done : list string) (image : string) (rest : list string)
        (image_config : gmap string cfgval) (st st1 : state) :
  let images := (done ++ image :: rest)%list in
  let body := build_images_body build_container_system build_image config in
  let st2 := extend st1 [Log DEBUG ("Processing image " +:+ image)] in
  engine w (trace st ++ [building images]) Ping = Ok tt ->
  for_each done body (extend st [building images; Engine Ping]) = (st1, Ok tt) ->
  config !! image = Some image_config ->
  ((is_Some (image_config !! "volumes_from") \/ is_Some (image_config !! "links")
    \/ is_Some (image_config !! "commit")) ->
   build_images w build_container_system build_image config images st
   = (build_container_system image image_config;;
      for_each rest body;; log INFO "Done") st2)
  /\ ((image_config !! "volumes_from" = None /\ image_config !! "links" = None
       /\ image_config !! "commit" = None) ->
      build_images w build_container_system build_image config images st
      = (build_image image image_config;;
         for_each rest body;; log INFO "Done") st2).
Proof.
  intros images body st2 Hping Hdone Hcfg.
  assert (Hrun : build_images w build_container_system build_image config images st
                 = (body image;; for_each rest body;; log INFO "Done") st1).
  { rewrite build_images_head, Hping. fold body.
    rewrite bind_run. unfold images at 1.
    rewrite (for_each_app_ok _ _ _ _ _ Hdone). cbn [for_each].
    rewrite <- bind_run. apply bind_assoc. }
  rewrite Hrun, !(bind_run _ _ st1), !(bind_run _ _ st2).
  destruct (build_images_body_routes build_container_system build_image
              config image image_config st1 Hcfg) as [Hsys Hlay].
  fold st2 in Hsys, Hlay. fold body in Hsys, Hlay.
  split; intros Hkeys.
  - by rewrite (Hsys Hkeys).
  - by rewrite (Hlay Hkeys).
Qed.

End Batch.

Lemma build_images_stops_at_failure_witness :
  build_images (sample.exits 0) (fun _ _ => routed_to_system)
    (fun _ _ => routed_to_layers)
    {[ "web" := {[ "from" := CfgStr "base" ]};
       "db" := {[ "from" := CfgStr "base"; "commit" := CfgBool true ]} ]}
    ["web"; "cache"; "db"] initial
  = (extend initial
       [Log INFO "Building 3 images"; Engine Ping;
        Log DEBUG "Processing image web"; Log INFO "layered build";
        Log DEBUG "Processing image cache"],
     Raise (PyKeyError "cache")).
Proof.
  refine (proj2 (build_images_stops_at_failure (sample.exits 0)
                   (fun _ _ => routed_to_system) (fun _ _ => routed_to_layers)
                   {[ "web" := {[ "from" := CfgStr "base" ]};
                      "db" := {[ "from" := CfgStr "base"; "commit" := CfgBool true ]} ]}
                   ["web"] "cache" ["db"] initial
                   (extend initial [Log INFO "Building 3 images"; Engine Ping;
                                    Log DEBUG "Processing image web";
                                    Log INFO "layered build"])
                   initial (PyKeyError "cache") _ _) _);
    vm_compute; reflexivity.
Defined.

Lemma build_images_pings_first_witness :
  build_images scenario.unreachable (fun _ _ => routed_to_system)
    (fun _ _ => routed_to_layers)
    {[ "web" := {[ "from" := CfgStr "base" ]} ]} ["web"] initial
  = (extend initial [Log INFO "Building 1 image"; Engine Ping], Raise (APIError 503)).
Proof.
  apply (proj1 (build_images_pings_first scenario.unreachable
                  (fun _ _ => routed_to_system) (fun _ _ => routed_to_layers)
                  {[ "web" := {[ "from" := CfgStr "base" ]} ]} ["web"] initial)).
  reflexivity.
Defined.

Lemma build_images_routes_witness :
  build_images (sample.exits 0) (fun _ _ => routed_to_system)
    (fun _ _ => routed_to_layers)
    {[ "web" := {[ "from" := CfgStr "base"; "commit" := CfgBool false ]};
       "db" := {[ "from" := CfgStr "base"; "maintainer" := CfgStr "me" ]} ]}
    ["db"; "web"; "db"] initial
  = (extend initial
       [Log INFO "Building 3 images"; Engine Ping;
        Log DEBUG "Processing image db"; Log INFO "layered build";
        Log DEBUG "Processing image web"; Log INFO "container-system build";
        Log DEBUG "Processing image db"; Log INFO "layered build";
        Log INFO "Done"],
     Ok tt).
Proof.
  refine (eq_trans
            (proj1 (build_images_routes (sample.exits 0)
                      (fun _ _ => routed_to_system) (fun _ _ => routed_to_layers)
                      {[ "web" := {[ "from" := CfgStr "base";
                                     "commit" := CfgBool false ]};
                         "db" := {[ "from" := CfgStr "base";
                                    "maintainer" := CfgStr "me" ]} ]}
                      ["db"] "web" ["db"]
                      {[ "from" := CfgStr "base"; "commit" := CfgBool false ]}
                      initial
                      (extend initial [Log INFO "Building 3 images"; Engine Ping;
                                       Log DEBUG "Processing image db";
                                       Log INFO "layered build"])
                      _ _ _) _) _).
  - vm_compute. reflexivity.
  - vm_compute. reflexivity.
  - vm_compute. reflexivity.
  - right. right. vm_compute. eauto.
  - vm_compute. reflexivity.
Defined.

(** ** The block of [build_container_system] in [moromi.py] *)

Section SystemBlock.
Context (bcs_container : option string -> bool -> M dockerext.Container).

Lemma called_no_commit bcs c :
  consys.no_commit c = true ->
  forallb consys.no_commit (consys.calls bcs) = true ->
  forallb consys.no_commit (consys.calls (consys.called bcs c)) = true.
Proof.
  intros Hc Hb. unfold consys.called. cbn [consys.calls].
  by rewrite forallb_app, Hb; cbn; rewrite Hc.
Qed.

(** X27.  The block of [build_container_system] never asks its
    container system to commit a container.  When the [commit] option
    of the image is set, the block raises [KeyError] at once, before
    any call on the system: the debug message it formats has a field
    [root] that is no local name.  When the option is not set, every
    call the block makes is an inclusion of a file or the registration
    of a container to persist, a linked container with a commit
    target included. *)
Theorem system_block_never_commits (image_name : string)
        (image_config : gmap string cfgval) (extra_env : list string)
        (bcs : consys.system) (st : state) :
  (match image_config !! "commit" with Some v => truthy v | None => false end = true ->
   consys.block bcs_container image_name image_config extra_env bcs st
   = (st, Raise (PyKeyError "root")))
  /\ (forall st' bcs',
        consys.block bcs_container image_name image_config extra_env bcs st
        = (st', Ok bcs') ->
        match image_config !! "commit" with Some v => truthy v | None => false end
        = false
        /\ (forallb consys.no_commit (consys.calls bcs) = true ->
            forallb consys.no_commit (consys.calls bcs') = true)).
Proof.
  split.
  - intros Hcommit. unfold consys.block, consys.commit_part. by rewrite Hcommit.
  - intros st' bcs'. unfold consys.block, consys.commit_part.
    destruct (match image_config !! "commit" with
              | Some v => truthy v
              | None => false
              end); [discriminate|].
    intros H. split; [done|]. intros Hcalls.
    apply bind_inv in H as (bcs0 & st0 & H0 & H). apply ret_inv in H0 as ->.
    apply bind_inv in H as (bcs1 & st1 & Hentry & H).
    apply bind_inv in H as (env_specs & st2 & _ & H).
    apply bind_inv in H as (bcs2 & st3 & Henvs & H).
    apply bind_inv in H as (lib_specs & st4 & _ & H).
    apply bind_inv in H as (bcs3 & st5 & Hlibs & H).
    apply bind_inv in H as (volume_specs & st6 & _ & H).
    apply bind_inv in H as (bcs4 & st7 & Hvols & H).
    apply bind_inv in H as (link_specs & st8 & _ & H).
    assert (H1 : forallb consys.no_commit (consys.calls bcs1) = true).
    { unfold consys.entrypoint_part in Hentry.
      destruct (image_config !! "entrypoint") as [v|].
      - apply bind_inv in Hentry as (spec & s1 & _ & Hentry).
        apply bind_inv in Hentry as (res & s2 & _ & Hentry).
        apply ret_inv in Hentry as ->. by apply called_no_commit.
      - by apply ret_inv in Hentry as ->. }
    assert (H2 : forallb consys.no_commit (consys.calls bcs2) = true).
    { eapply (fold_each_inv (fun b => forallb consys.no_commit (consys.calls b) = true));
        [|exact H1|exact Henvs].
      intros b x s s' b' Hb Hstep. unfold consys.env_step in Hstep.
      apply bind_inv in Hstep as ([k v] & s1 & _ & Hstep).
      by apply ret_inv in Hstep as ->. }
    assert (H3 : forallb consys.no_commit (consys.calls bcs3) = true).
    { eapply (fold_each_inv (fun b => forallb consys.no_commit (consys.calls b) = true));
        [|exact H2|exact Hlibs].
      intros b x s s' b' Hb Hstep. unfold consys.lib_step in Hstep.
      apply bind_inv in Hstep as (res & s1 & _ & Hstep).
      apply ret_inv in Hstep as ->. by apply called_no_commit. }
    assert (H4 : forallb consys.no_commit (consys.calls bcs4) = true).
    { eapply (fold_each_inv (fun b => forallb consys.no_commit (consys.calls b) = true));
        [|exact H3|exact Hvols].
      intros b x s s' b' Hb Hstep. unfold consys.volume_step in Hstep.
      apply bind_inv in Hstep as (vol & s1 & _ & Hstep).
      apply bind_inv in Hstep as (c & s2 & _ & Hstep).
      apply bind_inv in Hstep as (_ & s3 & _ & Hstep).
      destruct (persist_image vol) as [target|].
      - apply bind_inv in Hstep as (_ & s4 & _ & Hstep).
        apply ret_inv in Hstep as ->. by apply called_no_commit.
      - by apply ret_inv in Hstep as ->. }
    eapply (fold_each_inv (fun b => forallb consys.no_commit (consys.calls b) = true));
      [|exact H4|exact H].
    intros b x s s' b' Hb Hstep. unfold consys.link_step in Hstep.
    apply bind_inv in Hstep as (link & s1 & _ & Hstep).
    apply bind_inv in Hstep as (c & s2 & _ & Hstep).
    apply bind_inv in Hstep as (_ & s3 & _ & Hstep).
    destruct (moromi.commit_image link) as [target|].
    + apply bind_inv in Hstep as (_ & s4 & _ & Hstep).
      apply ret_inv in Hstep as ->. by apply called_no_commit.
    + by apply ret_inv in Hstep as ->.
Qed.

End SystemBlock.

Lemma system_block_never_commits_witness :
  consys.block (scenario.bcs_container (sample.exits 0)) "img"
    legacy.commit_config [] scenario.fresh initial
  = (initial, Raise (PyKeyError "root"))
  /\ exists st' bcs',
       consys.block (scenario.bcs_container (sample.exits 0)) "img"
         scenario.system_config [] scenario.fresh initial = (st', Ok bcs')
       /\ consys.calls bcs'
          = [consys.BcsPersist "data.0c9a1f3e" (Some "snapshot");
             consys.BcsPersist "postgres.2c9a1f3e" (Some "seeded")]
       /\ forallb consys.no_commit (consys.calls bcs') = true.
Proof.
  split.
  - apply (proj1 (system_block_never_commits
                    (scenario.bcs_container (sample.exits 0)) "img"
                    legacy.commit_config [] scenario.fresh initial)).
    reflexivity.
  - destruct (consys.block (scenario.bcs_container (sample.exits 0)) "img"
                scenario.system_config [] scenario.fresh initial)
      as [st' r] eqn:Hrun.
    destruct r as [bcs'|e]; [|vm_compute in Hrun; discriminate].
    exists st', bcs'. split; [reflexivity|]. split.
    + pose proof Hrun as Hv. vm_compute in Hv. injection Hv as _ <-. reflexivity.
    + apply (proj2 (system_block_never_commits _ _ _ _ _ _) _ _ Hrun). reflexivity.
Defined.

(** ** Stopping a container that obeys, starting one attached *)

Section StopStart.
Import dockerext.
Context (w : World).

Lemma wait_tolerant self timeout st d :
  engine w (trace st) (Wait (name self) timeout) = Ok d ->
  wait w self timeout true st
  = (extend st [Engine (Wait (name self) timeout)], Ok (default (-1) d)).
Proof.
  intros Hd. unfold wait. rewrite bind_run, client_run, Hd. by destruct d.
Qed.

Lemma wait_timeout self timeout flag st :
  engine w (trace st) (Wait (name self) timeout) = Raise Timeout ->
  wait w self timeout flag st
  = (extend st [Engine (Wait (name self) timeout)], Raise Timeout).
Proof. intros Hd. unfold wait. by rewrite bind_run, client_run, Hd. Qed.

(** X28.  [stop] on a running container, with callbacks that return
    and an engine that takes the signals.  When the first wait of 20
    seconds answers, whatever the exit status, the container counts
    as stopped: the [post stop] callbacks fire and signal 9 is never
    sent.  When the first wait times out and the second answers, the
    container counts as killed, and the [post stop] callbacks fire as
    well.  Neither outcome depends on [not_exists_ok]. *)
Theorem stop_graceful_or_forced self st info :
  (forall hist f, callback_outcome w hist f (name self) = Ok tt) ->
  (forall hist, engine w hist (InspectContainer (name self)) = Ok info) ->
  state_pid info <> 0 ->
  (forall hist signal, engine w hist (Kill (name self) signal) = Ok tt) ->
  let asked :=
    ([Log DEBUG ("Attempting to stop container " +:+ name self);
      Engine (InspectContainer (name self))]
     ++ callback_effects self "pre" "stop"
     ++ [Engine (Kill (name self) 15)])%list in
  let waited := Engine (Wait (name self) (Some 20)) in
  (forall flag d,
      engine w (trace st ++ asked) (Wait (name self) (Some 20)) = Ok d ->
      stop w self flag st
      = (extend st (asked ++ [waited;
                              Log INFO ("Stopped container " +:+ name self)]
                    ++ callback_effects self "post" "stop"), Ok tt))
  /\ (forall flag d,
        engine w (trace st ++ asked) (Wait (name self) (Some 20)) = Raise Timeout ->
        engine w (trace st ++ asked ++ [waited; Engine (Kill (name self) 9)])
               (Wait (name self) (Some 20)) = Ok d ->
        stop w self flag st
        = (extend st (asked ++ [waited; Engine (Kill (name self) 9); waited;
                                Log INFO ("Killed container " +:+ name self)]
                      ++ callback_effects self "post" "stop"), Ok tt)).
Proof.
  intros Hcb Hinsp Hpid Hkill asked waited.
  assert (Hhead : forall flag,
             stop w self flag st
             = try_except
                 (try_except
                    (wait w self (Some 20) true;;
                     log INFO ("Stopped container " +:+ name self);;
                     _process_callbacks w self "post" "stop")
                    (on_timeout
                       (client w (Kill (name self) 9);;
                        try_except
                          (wait w self (Some 20) true;;
                           log INFO ("Killed container " +:+ name self);;
                           _process_callbacks w self "post" "stop")
                          (on_timeout
                             (log ERROR ("Unable to kill container " +:+ name self
                                         +:+ ": timed out"))))))
                 (tolerate_status flag 404
                    ("Container " +:+ name self +:+ " does not exist"))
                 (extend st asked)).
  { intros flag. unfold stop.
    erewrite bind_ok by apply log_run.
    unfold try_except at 1 3. rewrite bind_run, client_run, Hinsp.
    apply Z.eqb_neq in Hpid. rewrite Hpid.
    rewrite (bind_ok _ _ _ _ _ (process_callbacks_ok _ _ _ _ _ Hcb)).
    rewrite bind_run, client_run, Hkill. rewrite !extend_extend.
    unfold asked. cbn [app]. rewrite <- ?app_assoc. reflexivity. }
  split.
  - intros flag d Hwait. rewrite (Hhead flag).
    apply try_ok. apply try_ok.
    rewrite (bind_ok _ _ _ _ _
               (wait_tolerant self (Some 20) (extend st asked) d Hwait)).
    erewrite bind_ok by apply log_run.
    rewrite (process_callbacks_ok _ _ _ _ _ Hcb), !extend_extend.
    rewrite <- ?app_assoc; reflexivity.
  - intros flag d Hwait1 Hwait2. rewrite (Hhead flag).
    apply try_ok. erewrite try_raise
      by (apply bind_raise;
          exact (wait_timeout self (Some 20) true (extend st asked) Hwait1)).
    cbn [on_timeout]. rewrite bind_run, client_run, Hkill.
    apply try_ok.
    erewrite bind_ok.
    2:{ apply wait_tolerant. cbn [trace extend]. rewrite <- !app_assoc.
        exact Hwait2. }
    erewrite bind_ok by apply log_run.
    rewrite (process_callbacks_ok _ _ _ _ _ Hcb), !extend_extend.
    rewrite <- ?app_assoc; reflexivity.
Qed.

(** X29.  [start] of a container that is not detached blocks until
    the container has exited.  When it exits with 0, [start] logs
    that and fires the [post start] callbacks.  When it exits with
    any other status, [start] raises [ContainerExitError] with the
    status, the logs and the inspect snapshot, and the [post start]
    callbacks do not fire. *)
Theorem start_attached_waits self st :
  detach self = false -> run_once self = false ->
  (forall hist f, callback_outcome w hist f (name self) = Ok tt) ->
  let asked :=
    (callback_effects self "pre" "start"
     ++ [Log DEBUG ("Attempting to start container " +:+ name self);
         Engine (start_call self);
         Log INFO ("Waiting for container " +:+ name self +:+ " to finish")])%list in
  let waited := Engine (Wait (name self) None) in
  (forall hist, engine w hist (start_call self) = Ok tt) ->
  (engine w (trace st ++ asked) (Wait (name self) None) = Ok (Some 0) ->
   start w self st
   = (extend st (asked ++ [waited;
                           Log INFO ("Container " +:+ name self +:+ " exited ok")]
                 ++ callback_effects self "post" "start"), Ok tt))
  /\ (forall d out info,
        engine w (trace st ++ asked) (Wait (name self) None) = Ok d ->
        default (-1) d <> 0 ->
        engine w (trace st ++ asked ++ [waited]) (Logs (name self)) = Ok out ->
        engine w (trace st ++ asked ++ [waited; Engine (Logs (name self))])
               (InspectContainer (name self)) = Ok info ->
        start w self st
        = (extend st (asked ++ [waited; Engine (Logs (name self));
                                Engine (InspectContainer (name self))]),
           Raise (ContainerExitError (default (-1) d) (Some out) (Some info)))).
Proof.
  intros Hdetach Honce Hcb asked waited Hstart.
  assert (Hhead :
             start w self st
             = (wait w self None false;;
                log INFO ("Container " +:+ name self +:+ " exited ok");;
                _process_callbacks w self "post" "start") (extend st asked)).
  { unfold start. rewrite Honce.
    rewrite (start_body_run w self st (process_callbacks_ok _ _ _ _ _ Hcb)).
    rewrite Hstart. unfold after_start. rewrite Hdetach. cbn [negb].
    rewrite bind_assoc. erewrite bind_ok by apply log_run.
    rewrite bind_assoc, extend_extend. unfold asked.
    rewrite <- ?app_assoc. reflexivity. }
  split.
  - intros Hwait. rewrite Hhead.
    erewrite bind_ok.
    2:{ unfold wait. rewrite bind_run, client_run. cbn [trace extend].
        rewrite Hwait. reflexivity. }
    erewrite bind_ok by apply log_run.
    rewrite (process_callbacks_ok _ _ _ _ _ Hcb), !extend_extend.
    rewrite <- ?app_assoc; reflexivity.
  - intros d out info Hwait Hnz Hlogs Hinsp. rewrite Hhead.
    apply bind_raise. unfold wait. rewrite bind_run, client_run.
    cbn [trace extend]. rewrite Hwait.
    replace (match d with Some status_code => status_code | None => -1 end)
      with (default (-1) d) by (by destruct d).
    apply Z.eqb_neq in Hnz. rewrite Hnz. cbn [orb].
    erewrite bind_ok.
    2:{ apply logs_found. cbn [trace extend]. rewrite <- !app_assoc. exact Hlogs. }
    erewrite bind_ok.
    2:{ apply inspect_found. cbn [trace extend]. rewrite <- !app_assoc.
        exact Hinsp. }
    rewrite !extend_extend, <- ?app_assoc. reflexivity.
Qed.

End StopStart.

Lemma stop_graceful_or_forced_witness :
  dockerext.stop scenario.dies_at_once sample.web true initial
  = (extend initial
       [Log DEBUG "Attempting to stop container web";
        Engine (InspectContainer "web");
        Callback "pre" "stop" "hooks.before_stop" "web";
        Engine (Kill "web" 15);
        Engine (Wait "web" (Some 20));
        Log INFO "Stopped container web";
        Callback "post" "stop" "hooks.after_stop" "web"], Ok tt)
  /\ dockerext.stop scenario.dies_hard sample.web true initial
     = (extend initial
          [Log DEBUG "Attempting to stop container web";
           Engine (InspectContainer "web");
           Callback "pre" "stop" "hooks.before_stop" "web";
           Engine (Kill "web" 15);
           Engine (Wait "web" (Some 20));
           Engine (Kill "web" 9);
           Engine (Wait "web" (Some 20));
           Log INFO "Killed container web";
           Callback "post" "stop" "hooks.after_stop" "web"], Ok tt).
Proof.
  split.
  - exact (proj1 (stop_graceful_or_forced scenario.dies_at_once sample.web initial
                    sample.running (fun _ _ => eq_refl) (fun _ => eq_refl)
                    ltac:(discriminate) (fun _ _ => eq_refl))
                 true (Some 143) eq_refl).
  - exact (proj2 (stop_graceful_or_forced scenario.dies_hard sample.web initial
                    sample.running (fun _ _ => eq_refl) (fun _ => eq_refl)
                    ltac:(discriminate) (fun _ _ => eq_refl))
                 true (Some 137) eq_refl eq_refl).
Defined.

Lemma start_attached_waits_witness :
  dockerext.start (sample.exits 0) scenario.task initial
  = (extend initial
       [Log DEBUG "Attempting to start container task";
        Engine (dockerext.start_call scenario.task);
        Log INFO "Waiting for container task to finish";
        Engine (Wait "task" None);
        Log INFO "Container task exited ok";
        Callback "post" "start" "hooks.after_start" "task"], Ok tt)
  /\ dockerext.start (sample.exits 3) scenario.task initial
     = (extend initial
          [Log DEBUG "Attempting to start container task";
           Engine (dockerext.start_call scenario.task);
           Log INFO "Waiting for container task to finish";
           Engine (Wait "task" None);
           Engine (Logs "task");
           Engine (InspectContainer "task")],
        Raise (ContainerExitError 3 (Some "boom") (Some sample.never_started))).
Proof.
  split.
  - exact (proj1 (start_attached_waits (sample.exits 0) scenario.task initial
                    eq_refl eq_refl (fun _ _ => eq_refl) (fun _ => eq_refl))
                 eq_refl).
  - exact (proj2 (start_attached_waits (sample.exits 3) scenario.task initial
                    eq_refl eq_refl (fun _ _ => eq_refl) (fun _ => eq_refl))
                 (Some 3) "boom" sample.never_started eq_refl
                 ltac:(discriminate) eq_refl eq_refl).
Defined.

(** ** The container system of [build/build.py] *)

(** *** The lifecycle of a container without callbacks *)

Section Bare.
Context (w : World).
Import dockerext.

Lemma uuid4_run st :
  uuid4 w st
  = (mkState (trace st) (S (uuid_next st)) (tmp_next st), Ok (uuids w (uuid_next st))).
Proof. reflexivity. Qed.

Lemma process_callbacks_bare self part ev st :
  callbacks self = [] -> _process_callbacks w self part ev st = (st, Ok tt).
Proof. intros H. unfold _process_callbacks. by rewrite H. Qed.

Lemma create_bare self st :
  callbacks self = [] ->
  (forall hist, engine w hist (create_call self) = Ok tt) ->
  create w self true st
  = (extend st [Log DEBUG ("Attempting to create container " +:+ name self);
                Engine (create_call self);
                Log INFO ("Created container " +:+ name self)],
     Ok tt).
Proof.
  intros Hcb Heng. unfold create. apply try_ok.
  rewrite (bind_ok _ _ _ _ _ (process_callbacks_bare self "pre" "create" st Hcb)).
  erewrite bind_ok by apply log_run.
  rewrite bind_run, client_run. fold (create_call self). rewrite Heng.
  erewrite bind_ok by apply log_run.
  rewrite (process_callbacks_bare _ _ _ _ Hcb), !extend_extend. reflexivity.
Qed.

(** An attached container is awaited by its [start]: the exit status
    0 lets [start] return, any other status makes it raise
    [ContainerExitError] with the status, the logs and an inspect
    snapshot. *)
Lemma start_bare_attached self st (code : Z) :
  bare self -> detach self = false ->
  (forall hist, engine w hist (start_call self) = Ok tt) ->
  (forall hist, engine w hist (Wait (name self) None) = Ok (Some code)) ->
  let begun := [Log DEBUG ("Attempting to start container " +:+ name self);
                Engine (start_call self);
                Log INFO ("Waiting for container " +:+ name self +:+ " to finish");
                Engine (Wait (name self) None)] in
  (code = 0 ->
   start w self st
   = (extend st (begun ++ [Log INFO ("Container " +:+ name self +:+ " exited ok")]),
      Ok tt))
  /\ (code <> 0 ->
      forall out info,
        (forall hist, engine w hist (Logs (name self)) = Ok out) ->
        (forall hist, engine w hist (InspectContainer (name self)) = Ok info) ->
        start w self st
        = (extend st (begun ++ [Engine (Logs (name self));
                                Engine (InspectContainer (name self))]),
           Raise (ContainerExitError code (Some out) (Some info)))).
Proof.
  intros [Hcb Honce] Hdetach Hstart Hwait begun.
  assert (Hhead : start w self st
                  = (wait w self None false;;
                     log INFO ("Container " +:+ name self +:+ " exited ok");;
                     _process_callbacks w self "post" "start")
                      (extend st [Log DEBUG ("Attempting to start container "
                                             +:+ name self);
                                  Engine (start_call self);
                                  Log INFO ("Waiting for container " +:+ name self
                                            +:+ " to finish")])).
  { unfold start. rewrite Honce. unfold start_body.
    rewrite (bind_ok _ _ _ _ _ (process_callbacks_bare self "pre" "start" st Hcb)).
    erewrite bind_ok by apply log_run.
    rewrite bind_run, client_run. fold (start_call self). rewrite Hstart.
    rewrite Hdetach. cbn [negb].
    rewrite bind_assoc. erewrite bind_ok by apply log_run.
    rewrite !extend_extend. rewrite <- bind_assoc. reflexivity. }
  rewrite Hhead. unfold wait.
  rewrite bind_run, bind_run, client_run, Hwait. cbn [orb].
  split.
  - intros ->. cbn [Z.eqb]. unfold mret at 1, M_ret at 1.
    erewrite bind_ok by apply log_run.
    rewrite (process_callbacks_bare _ _ _ _ Hcb), !extend_extend. reflexivity.
  - intros Hcode out info Hlogs Hinspect.
    apply Z.eqb_neq in Hcode. rewrite Hcode.
    rewrite bind_run, logs_run, Hlogs, bind_run, inspect_run, Hinspect.
    unfold raise. rewrite !extend_extend. reflexivity.
Qed.

Lemma start_bare_detached self st :
  bare self -> detach self = true ->
  (forall hist, engine w hist (start_call self) = Ok tt) ->
  start w self st
  = (extend st [Log DEBUG ("Attempting to start container " +:+ name self);
                Engine (start_call self);
                Log INFO ("Started container " +:+ name self)],
     Ok tt).
Proof.
  intros [Hcb Honce] Hdetach Hstart.
  unfold start. rewrite Honce. unfold start_body.
  rewrite (bind_ok _ _ _ _ _ (process_callbacks_bare self "pre" "start" st Hcb)).
  erewrite bind_ok by apply log_run.
  rewrite bind_run, client_run. fold (start_call self). rewrite Hstart.
  rewrite Hdetach. cbn [negb].
  erewrite bind_ok by apply log_run.
  rewrite (process_callbacks_bare _ _ _ _ Hcb), !extend_extend. reflexivity.
Qed.

Lemma init_bare self st :
  bare self ->
  (forall hist, engine w hist (create_call self) = Ok tt) ->
  init w self st
  = (start w self;; mret tt)
      (extend st [Log DEBUG ("Initializing container " +:+ name self);
                  Log DEBUG ("Attempting to create container " +:+ name self);
                  Engine (create_call self);
                  Log INFO ("Created container " +:+ name self)]).
Proof.
  intros [Hcb Honce] Hcreate. unfold init.
  rewrite (bind_ok _ _ _ _ _ (process_callbacks_bare self "pre" "init" st Hcb)).
  erewrite bind_ok by apply log_run.
  rewrite (bind_ok _ _ _ _ _ (create_bare self _ Hcb Hcreate)).
  rewrite !extend_extend. cbn [app].
  rewrite !bind_run. destruct (start w self _) as [st1 [[]|e]]; [|done].
  by rewrite (process_callbacks_bare _ _ _ _ Hcb).
Qed.

Lemma remove_bare self st :
  callbacks self = [] ->
  (forall hist, engine w hist (RemoveContainer (name self) true) = Ok tt) ->
  remove w self true st
  = (extend st [Log DEBUG ("Attempting to remove container " +:+ name self);
                Engine (RemoveContainer (name self) true);
                Log INFO ("Removed container " +:+ name self)],
     Ok tt).
Proof.
  intros Hcb Heng. unfold remove. apply try_ok.
  rewrite (bind_ok _ _ _ _ _ (process_callbacks_bare self "pre" "remove" st Hcb)).
  erewrite bind_ok by apply log_run.
  rewrite bind_run, client_run, Heng.
  erewrite bind_ok by apply log_run.
  rewrite (process_callbacks_bare _ _ _ _ Hcb), !extend_extend. reflexivity.
Qed.

End Bare.

(** *** What an orchestrator run leaves in the trace *)

Lemma on_containers_reads names evs :
  forallb (BuildContainerSystem.on_containers names) evs = true ->
  commits evs = [] /\ builds evs = [] /\ removed evs = []
  /\ Forall (fun n => n ∈ names) (created evs).
Proof.
  induction evs as [|ev evs IH]; [by repeat split|].
  cbn [forallb]. intros H. apply andb_prop in H as [Hev H].
  destruct (IH H) as (Hc & Hb & Hr & Hn).
  destruct ev as [c| | | | |]; try done.
  destruct c; try done.
  cbn in Hev. apply bool_decide_eq_true_1 in Hev.
  repeat split; try done. cbn. by constructor.
Qed.

Lemma created_app a b : created (a ++ b) = (created a ++ created b)%list.
Proof. apply omap_app. Qed.

Lemma removed_app a b : removed (a ++ b) = (removed a ++ removed b)%list.
Proof. apply omap_app. Qed.

Lemma commits_app a b : commits (a ++ b) = (commits a ++ commits b)%list.
Proof. apply omap_app. Qed.

Lemma builds_app a b : builds (a ++ b) = (builds a ++ builds b)%list.
Proof. apply omap_app. Qed.

Section Orchestrator.
Context (w : World).
Import dockerext.

Lemma init_on_containers names self :
  name self ∈ names ->
  emits (BuildContainerSystem.on_containers names) (init w self).
Proof.
  intros Hin. unfold init, create, start, start_body, wait, logs, inspect,
    _process_callbacks, tolerate_status.
  emits_auto.
  apply emits_client. cbn. by apply bool_decide_eq_true_2.
Qed.

Lemma bring_up_auxiliaries names (cs : list Container) :
  (forall c, c ∈ cs -> name c ∈ names) ->
  emits (BuildContainerSystem.on_containers names) (for_each cs (init w)).
Proof.
  induction cs as [|c cs IH]; intros Hin; cbn [for_each].
  - apply emits_ret.
  - apply emits_bind.
    + apply init_on_containers, Hin. by left.
    + intros _. apply IH. intros c' Hc'. apply Hin. by right.
Qed.

(** the teardown asks the engine to remove each container of the list,
    in order, and nothing else *)
Lemma teardown_run (cs : list Container) st :
  Forall (fun c => callbacks c = []) cs ->
  (forall hist n, engine w hist (RemoveContainer n true) = Ok tt) ->
  exists evs,
    for_each cs (fun c => remove w c true) st = (extend st evs, Ok tt)
    /\ removed evs = name <$> cs /\ created evs = []
    /\ commits evs = [] /\ builds evs = [].
Proof.
  intros Hcs Heng. revert st. induction Hcs as [|c cs Hc Hcs IH]; intros st.
  - exists []. by rewrite extend_nil.
  - cbn [for_each].
    rewrite (bind_ok _ _ _ _ _ (remove_bare w c st Hc (fun hist => Heng hist _))).
    destruct (IH (extend st [Log DEBUG ("Attempting to remove container " +:+ name c);
                             Engine (RemoveContainer (name c) true);
                             Log INFO ("Removed container " +:+ name c)]))
      as (evs & -> & Hr & Hcr & Hco & Hb).
    eexists. rewrite extend_extend. split; [reflexivity|].
    rewrite removed_app, created_app, commits_app, builds_app, Hr, Hcr, Hco, Hb.
    done.
Qed.

Lemma TempContainer_bare image detach_ st st' (c : Container) :
  TempContainer w image None detach_ st = (st', Ok c) ->
  bare c /\ detach c = detach_ /\ dockerext.image c = image /\ trace st' = trace st.
Proof.
  rewrite TempContainer_run. intros [= <- <-]. by repeat split.
Qed.

Lemma init_described root_image st st' bcs :
  BuildContainerSystem.__init__ w root_image st = (st', Ok bcs) ->
  BuildContainerSystem.described bcs /\ trace st' = trace st.
Proof.
  unfold BuildContainerSystem.__init__. intros H.
  apply bind_inv in H as (image & st1 & Himg & H).
  apply lift_inv in Himg as [_ ->].
  apply bind_inv in H as (c & st2 & Hc & H).
  apply TempContainer_bare in Hc as (Hbare & Hdetach & _ & Htrace).
  injection H as <- <-. split; [|done].
  split; [done|]. split; [done|]. constructor.
Qed.

Section Block.
Context (volume_include : BuildContainerSystem.system -> Container ->
                          option string -> option string -> bool ->
                          M BuildContainerSystem.system).

(** [parse_dir_spec] of [build/build.py] resolves no spec at all *)
Lemma build_parse_dir_spec_raises spec opt_name image_name :
  exists e, build_system.parse_dir_spec spec opt_name image_name = Raise e.
Proof.
  unfold build_system.parse_dir_spec, invalid_format.
  destruct (re_match dir_spec_pattern spec) as [caps|]; [|eauto].
  cbv zeta. destruct (getitem _ "sourcepath") as [src|e]; cbn; [|eauto].
  destruct (os_path_basename src) as [b|e]; cbn; eauto.
Qed.

Lemma volume_step_described image_name bcs volume_spec st st' bcs' :
  BuildContainerSystem.described bcs ->
  build_system.volume_step w image_name bcs volume_spec st = (st', Ok bcs') ->
  BuildContainerSystem.described bcs'.
Proof.
  intros (Hroot & Hdetach & Haux). unfold build_system.volume_step. intros H.
  apply bind_inv in H as (vol & st1 & _ & H).
  apply bind_inv in H as ([bcs1 c] & st2 & Hc & H).
  unfold BuildContainerSystem.container in Hc.
  apply bind_inv in Hc as (image & st3 & _ & Hc).
  apply bind_inv in Hc as (c' & st4 & Hc' & Hc).
  apply TempContainer_bare in Hc' as (Hbare & _).
  injection Hc as _ <- <-.
  apply bind_inv in H as ([] & st5 & _ & H).
  assert (Hshape : BuildContainerSystem.described
            (BuildContainerSystem.with_root
               (BuildContainerSystem.mkSystem (BuildContainerSystem.root bcs)
                  (BuildContainerSystem.auxiliaries bcs ++ [c'])
                  (BuildContainerSystem.dispositions bcs))
               (add_volume_from (BuildContainerSystem.root bcs) (name c') "rw"))).
  { split; [exact Hroot|]. split; [exact Hdetach|].
    cbn. apply Forall_app. split; [done|]. by constructor. }
  destruct (persist_image vol) as [target|].
  - apply bind_inv in H as ([] & st6 & _ & H). injection H as _ <-.
    exact Hshape.
  - injection H as _ <-. exact Hshape.
Qed.

(** A block that has reached its end has met neither [commit] nor an
    entry point, a library or a link, and it has described bare
    containers. *)
Lemma block_described image_name image_config bcs st st' bcs' :
  BuildContainerSystem.described bcs ->
  build_system.block w volume_include image_name image_config bcs st = (st', Ok bcs') ->
  BuildContainerSystem.described bcs'.
Proof.
  intros Hshape. unfold build_system.block. intros H.
  apply bind_inv in H as (bcs1 & st1 & Hcommit & H).
  assert (bcs1 = bcs) as ->.
  { unfold build_system.commit_part in Hcommit.
    destruct (match image_config !! "commit" with
              | Some v => truthy v | None => false end); [done|].
    by injection Hcommit as _ <-. }
  apply bind_inv in H as (bcs2 & st2 & Hentry & H).
  assert (bcs2 = bcs) as ->.
  { unfold build_system.entrypoint_part in Hentry.
    destruct (image_config !! "entrypoint") as [v|]; [|by injection Hentry as _ <-].
    apply bind_inv in Hentry as (spec & st3 & _ & Hentry).
    apply bind_inv in Hentry as (res & st4 & Hparse & _).
    destruct (build_parse_dir_spec_raises spec "entrypoint" image_name) as [e He].
    rewrite He in Hparse. discriminate. }
  apply bind_inv in H as (lib_specs & st3 & _ & H).
  apply bind_inv in H as (bcs3 & st4 & Hlibs & H).
  assert (bcs3 = bcs) as ->.
  { destruct lib_specs as [|lib_spec lib_specs]; [by injection Hlibs as _ <-|].
    cbn [fold_each] in Hlibs.
    apply bind_inv in Hlibs as (bcs4 & st5 & Hlib & _).
    unfold build_system.lib_step in Hlib.
    apply bind_inv in Hlib as (res & st6 & _ & Hlib). discriminate. }
  apply bind_inv in H as (volume_specs & st5 & _ & H).
  apply bind_inv in H as (bcs4 & st6 & Hvolumes & H).
  assert (Hshape4 : BuildContainerSystem.described bcs4).
  { eapply (fold_each_inv BuildContainerSystem.described); [|exact Hshape|exact Hvolumes].
    intros acc x sta stb acc' Hacc Hstep.
    by eapply volume_step_described. }
  apply bind_inv in H as (link_specs & st7 & _ & H).
  destruct link_specs as [|link_spec link_specs]; [by injection H as _ <-|].
  cbn [fold_each] in H.
  apply bind_inv in H as (bcs5 & st8 & Hlink & _). discriminate.
Qed.

(** The block asks nothing of the engine. *)
Lemma block_on_containers names image_name image_config bcs :
  emits (BuildContainerSystem.on_containers names)
        (build_system.block w volume_include image_name image_config bcs).
Proof.
  unfold build_system.block.
  apply emits_bind.
  { unfold build_system.commit_part. emits_auto. }
  intros bcs1. apply emits_bind.
  { unfold build_system.entrypoint_part.
    destruct (image_config !! "entrypoint") as [v|]; [|apply emits_ret].
    apply emits_bind; [apply emits_lift|]. intros spec.
    destruct (build_parse_dir_spec_raises spec "entrypoint" image_name) as [e ->].
    intros st st' r [= <- _]. exists []. by rewrite app_nil_r. }
  intros bcs2. apply emits_bind.
  { unfold optional_plural. emits_auto. }
  intros lib_specs. apply emits_bind.
  { apply emits_fold_each. intros acc x. unfold build_system.lib_step. emits_auto. }
  intros bcs3. apply emits_bind.
  { unfold optional_plural. emits_auto. }
  intros volume_specs. apply emits_bind.
  { apply emits_fold_each. intros acc x.
    unfold build_system.volume_step, BuildContainerSystem.container,
      TempContainer, Container__init__.
    emits_auto. }
  intros bcs4. apply emits_bind.
  { unfold optional_plural. emits_auto. }
  intros link_specs. apply emits_fold_each. intros acc x.
  unfold build_system.link_step. emits_auto.
Qed.

End Block.

End Orchestrator.

(** *** [build_container_system] *)

Section SystemBuild.
Context (w : World).
Context (volume_include : BuildContainerSystem.system -> dockerext.Container ->
                          option string -> option string -> bool ->
                          M BuildContainerSystem.system).
Import dockerext.

Lemma build_container_system_run image_name image_config quiet st :
  build_system.build_container_system w volume_include image_name image_config quiet st
  = match build_system.container_system w volume_include image_name image_config
            (extend st [Log INFO ("Creating container system for " +:+ image_name)])
    with
    | (st1, Ok _) => (st1, Raise (PyNameError "TempResourceDirectory"))
    | (st1, Raise e) => (st1, Raise e)
    end.
Proof.
  unfold build_system.build_container_system.
  erewrite bind_ok by apply log_run. rewrite bind_run.
  by destruct (build_system.container_system _ _ _ _ _) as [st1 [[]|e]].
Qed.

Lemma container_system_run image_name image_config root_image st st0 st1 bcs0 bcs :
  image_config !! "from" = Some root_image ->
  BuildContainerSystem.__init__ w root_image st = (st0, Ok bcs0) ->
  build_system.block w volume_include image_name image_config bcs0 st0 = (st1, Ok bcs) ->
  build_system.container_system w volume_include image_name image_config st
  = BuildContainerSystem.run w bcs st1.
Proof.
  intros Hfrom Hinit Hblock.
  unfold build_system.container_system, getitem. rewrite Hfrom.
  erewrite bind_ok by reflexivity.
  unfold BuildContainerSystem.with_system.
  rewrite (bind_ok _ _ _ _ _ Hinit). by rewrite (bind_ok _ _ _ _ _ Hblock).
Qed.

(** X25.  [build_container_system] of [build/build.py] never returns:
    when the [with] statement under [BuildContainerSystem] has come to
    its end, whatever was built in it, the next statement names
    [TempResourceDirectory], which the module does not bind, and
    [NameError] is raised from exactly where the [with] statement
    ended; nothing of the inline build below that line is run.  An
    exception of the [with] statement is raised as it is. *)
Theorem build_container_system_never_returns
        (image_name : string) (image_config : gmap string cfgval) (quiet : bool)
        (st : state) :
  let begun := extend st [Log INFO ("Creating container system for " +:+ image_name)] in
  (forall st1,
      build_system.container_system w volume_include image_name image_config begun
      = (st1, Ok tt) ->
      build_system.build_container_system w volume_include image_name image_config
        quiet st
      = (st1, Raise (PyNameError "TempResourceDirectory")))
  /\ (forall st1 e,
         build_system.container_system w volume_include image_name image_config begun
         = (st1, Raise e) ->
         build_system.build_container_system w volume_include image_name image_config
           quiet st
         = (st1, Raise e))
  /\ (build_system.build_container_system w volume_include image_name image_config
        quiet st).2 <> Ok tt.
Proof.
  intros begun. rewrite build_container_system_run. fold begun.
  split; [|split].
  - by intros st1 ->.
  - by intros st1 e ->.
  - by destruct (build_system.container_system _ _ _ _ _) as [st1 [[]|e]].
Qed.


(** C1, for [build_container_system] of [build/build.py] run under the
    orchestrator of the spec.  The block has described the system
    [bcs] and the auxiliary containers have come up.  When the engine
    creates and starts the root and reports that it has exited with a
    [code] other than 0, the build raises [ContainerExitError] with
    that code, the logs and the inspect snapshot of the root.  In the
    whole run no container is committed and no image is built, no
    container is created but those of the system (so no extraction
    helper), and the containers of the system, the root first, are
    removed before the exception leaves the function. *)
Theorem root_failure_removes_containers
        (image_name : string) (image_config : gmap string cfgval) (quiet : bool)
        (root_image : cfgval) (st st0 st1 st2 : state)
        (bcs0 bcs : BuildContainerSystem.system)
        (code : Z) (out : string) (info : inspect_info) :
  let root := BuildContainerSystem.root bcs in
  let names := name <$> BuildContainerSystem.containers bcs in
  image_config !! "from" = Some root_image ->
  BuildContainerSystem.__init__ w root_image
    (extend st [Log INFO ("Creating container system for " +:+ image_name)])
  = (st0, Ok bcs0) ->
  build_system.block w volume_include image_name image_config bcs0 st0 = (st1, Ok bcs) ->
  for_each (BuildContainerSystem.auxiliaries bcs) (init w) st1 = (st2, Ok tt) ->
  (forall hist, engine w hist (create_call root) = Ok tt) ->
  (forall hist, engine w hist (start_call root) = Ok tt) ->
  (forall hist, engine w hist (Wait (name root) None) = Ok (Some code)) ->
  code <> 0 ->
  (forall hist, engine w hist (Logs (name root)) = Ok out) ->
  (forall hist, engine w hist (InspectContainer (name root)) = Ok info) ->
  (forall hist n, engine w hist (RemoveContainer n true) = Ok tt) ->
  exists st' evs,
    build_system.build_container_system w volume_include image_name image_config
      quiet st
    = (st', Raise (ContainerExitError code (Some out) (Some info)))
    /\ trace st' = (trace st ++ evs)%list
    /\ commits evs = [] /\ builds evs = []
    /\ Forall (fun n => n ∈ names) (created evs)
    /\ removed evs = names.
Proof.
  intros root names Hfrom Hinit Hblock Haux Hcreate Hstart Hwait Hcode
    Hlogs Hinspect Hremove.
  destruct (init_described _ _ _ _ _ Hinit) as [Hshape0 Htrace0].
  destruct (block_described _ _ _ _ _ _ _ _ Hshape0 Hblock)
    as (Hroot & Hdetach & Hauxs).
  fold root in Hroot, Hdetach.
  set (E := ContainerExitError code (Some out) (Some info)).
  set (root_events :=
         [Log DEBUG ("Initializing container " +:+ name root);
          Log DEBUG ("Attempting to create container " +:+ name root);
          Engine (create_call root);
          Log INFO ("Created container " +:+ name root);
          Log DEBUG ("Attempting to start container " +:+ name root);
          Engine (start_call root);
          Log INFO ("Waiting for container " +:+ name root +:+ " to finish");
          Engine (Wait (name root) None);
          Engine (Logs (name root));
          Engine (InspectContainer (name root))]).
  assert (Hroot_run : init w root st2 = (extend st2 root_events, Raise E)).
  { rewrite (init_bare w root st2 Hroot Hcreate), bind_run.
    rewrite (proj2 (start_bare_attached w root _ code Hroot Hdetach Hstart Hwait)
               Hcode out info Hlogs Hinspect).
    by rewrite extend_extend. }
  assert (Hbare : Forall (fun c => callbacks c = [])
                    (BuildContainerSystem.containers bcs)).
  { constructor; [apply Hroot|]. eapply Forall_impl; [exact Hauxs|]. by intros c []. }
  destruct (teardown_run w _ (extend st2 root_events) Hbare Hremove)
    as (evs_t & Hteardown & Hremoved_t & Hcreated_t & Hcommits_t & Hbuilds_t).
  assert (Hrun : BuildContainerSystem.run w bcs st1
                 = (extend (extend st2 root_events) evs_t, Raise E)).
  { unfold BuildContainerSystem.run, finally_.
    eapply with_raise; [reflexivity| |exact Hteardown].
    apply bind_raise. unfold BuildContainerSystem.bring_up.
    by rewrite (bind_ok _ _ _ _ _ Haux). }
  (* what the block and the auxiliaries have left in the trace *)
  destruct (block_on_containers w volume_include names _ _ _ _ _ _ Hblock)
    as (evs_b & Htrace_b & Hevs_b).
  assert (Hin : forall c, c ∈ BuildContainerSystem.auxiliaries bcs -> name c ∈ names).
  { intros c Hc. unfold names, BuildContainerSystem.containers.
    rewrite fmap_cons. right. by apply list_elem_of_fmap_2. }
  destruct (bring_up_auxiliaries w names _ Hin _ _ _ Haux)
    as (evs_a & Htrace_a & Hevs_a).
  destruct (on_containers_reads _ _ Hevs_b) as (Hc_b & Hb_b & Hr_b & Hn_b).
  destruct (on_containers_reads _ _ Hevs_a) as (Hc_a & Hb_a & Hr_a & Hn_a).
  eexists _, ([Log INFO ("Creating container system for " +:+ image_name)]
              ++ evs_b ++ evs_a ++ root_events ++ evs_t)%list.
  split; [|split; [|split; [|split; [|split]]]].
  - rewrite build_container_system_run.
    rewrite (container_system_run _ _ _ _ _ _ _ _ Hfrom Hinit Hblock), Hrun.
    reflexivity.
  - cbn [trace extend]. rewrite Htrace_a, Htrace_b, Htrace0. cbn [trace extend].
    by rewrite <- !app_assoc.
  - rewrite !commits_app, Hc_b, Hc_a, Hcommits_t. reflexivity.
  - rewrite !builds_app, Hb_b, Hb_a, Hbuilds_t. reflexivity.
  - rewrite !created_app, Hcreated_t. cbn [created omap app].
    rewrite !Forall_app. repeat split; try done.
    + change (created root_events) with [name root].
      constructor; [|constructor]. unfold names, BuildContainerSystem.containers.
      rewrite fmap_cons. by left.
  - rewrite !removed_app, Hr_b, Hr_a, Hremoved_t. reflexivity.
Qed.

End SystemBuild.

(** *** The extraction *)

Lemma engine_calls_app a b :
  engine_calls (a ++ b) = (engine_calls a ++ engine_calls b)%list.
Proof. apply omap_app. Qed.

Section Extraction.
Context (w : World).
Import dockerext.

(** Around the helper's run, the extraction inspects the source, takes
    a directory, describes the helper, and on every way out removes
    the helper and gives the directory up. *)
Lemma extract_run (source : Container) (target : string) st source_data st1 r :
  let image_root := os_path.join_str "/" (uuids w (uuid_next st)) in
  let host_dir := tmpdirs w (tmp_next st) in
  let self := temp_container "busybox:latest" false (uuids w (S (uuid_next st))) in
  let h := BuildContainerSystem.helper self source host_dir image_root
             (volumes_keys source_data) in
  (forall hist, engine w hist (InspectContainer (name source)) = Ok source_data) ->
  (forall hist, engine w hist (RemoveContainer (name self) true) = Ok tt) ->
  (init w h;;
   client w (Build (Some target) (image source)
               [(os_path.join_str host_dir BuildContainerSystem.archive_name, "/")]))
    (mkState (trace st ++ [Engine (InspectContainer (name source));
                           TempDirEnter host_dir image_root])
             (S (S (S (uuid_next st)))) (S (tmp_next st)))
  = (st1, r) ->
  BuildContainerSystem.extract w source target st
  = (extend st1 [Log DEBUG ("Attempting to remove container " +:+ name self);
                 Engine (RemoveContainer (name self) true);
                 Log INFO ("Removed container " +:+ name self);
                 TempDirExit host_dir],
     r).
Proof.
  intros image_root host_dir self h Hinspect Hremove Hbody.
  unfold BuildContainerSystem.extract.
  rewrite bind_run, client_run, Hinspect.
  assert (Hinner :
    with_TempContainer w "busybox:latest" None false
      (fun self =>
         init w (BuildContainerSystem.helper self source host_dir image_root
                   (volumes_keys source_data));;
         client w (Build (Some target) (image source)
                     [(os_path.join_str host_dir BuildContainerSystem.archive_name,
                       "/")]))
      (mkState (trace st ++ [Engine (InspectContainer (name source));
                             TempDirEnter host_dir image_root])
               (S (uuid_next st)) (S (tmp_next st)))
    = (extend st1 [Log DEBUG ("Attempting to remove container " +:+ name self);
                   Engine (RemoveContainer (name self) true);
                   Log INFO ("Removed container " +:+ name self)],
       r)).
  { unfold with_TempContainer.
    destruct r as [[]|e].
    - eapply with_ok; [apply TempContainer_run|exact Hbody|].
      by apply remove_bare.
    - eapply with_raise; [apply TempContainer_run|exact Hbody|].
      by apply remove_bare. }
  assert (Henter : BuildContainerSystem.extraction_directory w
                     (extend st [Engine (InspectContainer (name source))])
                   = (mkState (trace st ++ [Engine (InspectContainer (name source));
                                            TempDirEnter host_dir image_root])
                              (S (uuid_next st)) (S (tmp_next st)),
                      Ok (host_dir, image_root))).
  { unfold BuildContainerSystem.extraction_directory, BuildContainerSystem.mkdtemp.
    rewrite bind_run, uuid4_run, bind_run. cbn [trace uuid_next tmp_next extend].
    unfold mbind, M_bind, emit, extend. cbn [trace uuid_next tmp_next].
    by rewrite <- app_assoc. }
  destruct r as [[]|e].
  - eapply with_ok; [exact Henter|exact Hinner|].
    unfold BuildContainerSystem.give_up_directory. cbn [fst].
    unfold emit. by rewrite extend_extend.
  - eapply with_raise; [exact Henter|exact Hinner|].
    unfold BuildContainerSystem.give_up_directory. cbn [fst].
    unfold emit. by rewrite extend_extend.
Qed.

(** What the disposition persist to [target] makes of a container
    [source]: the source is inspected and a helper is created from
    [busybox:latest] whose command archives the volume paths that the
    inspection has listed into one file of the extraction directory;
    the helper is started with the directory bound and with the
    volumes of the source, read-only, and awaited.  When it exits with
    0, one image is built: its base is the image of the source, its one
    layer the archive at [/], its tag the target.  When it exits with
    another code, [ContainerExitError] is raised with that code and no
    image is built.  Either way the helper is removed. *)
Lemma apply_disposition_persist
        (bcs : BuildContainerSystem.system) (source : Container) (target : string)
        (st : state) (source_data : inspect_info) (code : Z) :
  let image_root := os_path.join_str "/" (uuids w (uuid_next st)) in
  let host_dir := tmpdirs w (tmp_next st) in
  let helper := "busybox." +:+ Str.take 8 (uuids w (S (uuid_next st))) in
  let create_helper :=
    CreateContainer helper "busybox:latest" false [image_root] None None []
      (["tar"; "-cf"; os_path.join_str image_root "extract.tar"]
       ++ volumes_keys source_data) in
  let start_helper :=
    Start helper [] [] {[ Some host_dir := (image_root, false) ]} []
          [name source +:+ ":ro"] in
  let build_target :=
    Build (Some target) (image source)
          [(os_path.join_str host_dir "extract.tar", "/")] in
  BuildContainerSystem.dispositions bcs !! name source
  = Some (BuildContainerSystem.PersistTo target) ->
  (forall hist, engine w hist (InspectContainer (name source)) = Ok source_data) ->
  (forall hist, engine w hist create_helper = Ok tt) ->
  (forall hist, engine w hist start_helper = Ok tt) ->
  (forall hist, engine w hist (Wait helper None) = Ok (Some code)) ->
  (forall hist, engine w hist (RemoveContainer helper true) = Ok tt) ->
  (code = 0 ->
   (forall hist, engine w hist build_target = Ok tt) ->
   exists st',
     BuildContainerSystem.apply_disposition w bcs source st = (st', Ok tt)
     /\ engine_calls (trace st')
        = (engine_calls (trace st)
           ++ [InspectContainer (name source); create_helper; start_helper;
               Wait helper None;
               build_target; RemoveContainer helper true])%list)
  /\ (code <> 0 ->
      forall out info,
        (forall hist, engine w hist (Logs helper) = Ok out) ->
        (forall hist, engine w hist (InspectContainer helper) = Ok info) ->
        exists st',
          BuildContainerSystem.apply_disposition w bcs source st
          = (st', Raise (ContainerExitError code (Some out) (Some info)))
          /\ engine_calls (trace st')
             = (engine_calls (trace st)
                ++ [InspectContainer (name source); create_helper; start_helper;
               Wait helper None;
                    Logs helper; InspectContainer helper;
                    RemoveContainer helper true])%list).
Proof.
  intros image_root host_dir helper create_helper start_helper build_target
    Hdisposition Hsource Hcreate Hstart Hwait Hremove.
  set (self := temp_container "busybox:latest" false (uuids w (S (uuid_next st)))).
  set (h := BuildContainerSystem.helper self source host_dir image_root
              (volumes_keys source_data)).
  assert (Hbare : bare h) by done.
  assert (Hdetach : detach h = false) by done.
  assert (Happly : BuildContainerSystem.apply_disposition w bcs source st
                   = BuildContainerSystem.extract w source target st).
  { unfold BuildContainerSystem.apply_disposition. by rewrite Hdisposition. }
  rewrite Happly.
  set (st0 := mkState (trace st ++ [Engine (InspectContainer (name source));
                                    TempDirEnter host_dir image_root])
                      (S (S (S (uuid_next st)))) (S (tmp_next st))).
  assert (Hinit : init w h st0
                  = (start w h;; mret tt)
                      (extend st0
                         [Log DEBUG ("Initializing container " +:+ helper);
                          Log DEBUG ("Attempting to create container " +:+ helper);
                          Engine create_helper;
                          Log INFO ("Created container " +:+ helper)])).
  { exact (init_bare w h st0 Hbare Hcreate). }
  destruct (start_bare_attached w h
              (extend st0
                 [Log DEBUG ("Initializing container " +:+ helper);
                  Log DEBUG ("Attempting to create container " +:+ helper);
                  Engine create_helper;
                  Log INFO ("Created container " +:+ helper)])
              code Hbare Hdetach)
    as [Hzero Hnonzero]; [exact Hstart|exact Hwait|].
  change (name h) with helper in Hzero, Hnonzero.
  change (start_call h) with start_helper in Hzero, Hnonzero.
  split.
  - intros Hcode Hbuild. eexists. split.
    + apply (extract_run source target st source_data); [done|done|].
      fold self host_dir image_root h st0.
      rewrite bind_run, Hinit, bind_run, (Hzero Hcode).
      unfold mret at 1, M_ret at 1.
      rewrite client_run. fold build_target. rewrite Hbuild. reflexivity.
    + cbn [trace extend st0]. rewrite !engine_calls_app. cbn [engine_calls omap app].
      by rewrite <- !app_assoc.
  - intros Hcode out info Hlogs Hinspect. eexists. split.
    + apply (extract_run source target st source_data); [done|done|].
      fold self host_dir image_root h st0.
      rewrite bind_run, Hinit, bind_run.
      rewrite (Hnonzero Hcode out info); [reflexivity|done|done].
    + cbn [trace extend st0]. rewrite !engine_calls_app. cbn [engine_calls omap app].
      by rewrite <- !app_assoc.
Qed.

End Extraction.

(** *** The extraction within a build *)

Section Persist.
Context (w : World).
Context (volume_include : BuildContainerSystem.system -> dockerext.Container ->
                          option string -> option string -> bool ->
                          M BuildContainerSystem.system).
Import dockerext.

(** the run of the orchestrator, from where it comes to one of its
    containers *)
Lemma run_reaches (bcs : BuildContainerSystem.system)
      (done : list Container) (source : Container) (rest : list Container)
      st1 st2 st3 st4 (r : result unit) :
  BuildContainerSystem.containers bcs = (done ++ source :: rest)%list ->
  BuildContainerSystem.bring_up w bcs st1 = (st2, Ok tt) ->
  for_each done (BuildContainerSystem.apply_disposition w bcs) st2 = (st3, Ok tt) ->
  BuildContainerSystem.apply_disposition w bcs source st3 = (st4, r) ->
  BuildContainerSystem.run w bcs st1
  = match r with
    | Ok _ =>
        finally_ (for_each rest (BuildContainerSystem.apply_disposition w bcs))
                 (BuildContainerSystem.teardown w bcs) st4
    | Raise e => (BuildContainerSystem.teardown w bcs;; raise e) st4
    end.
Proof.
  intros Hcontainers Hup Hdone Happly.
  assert (Hbody : (BuildContainerSystem.bring_up w bcs;;
                   BuildContainerSystem.dispose w bcs) st1
                  = match r with
                    | Ok _ => for_each rest
                                (BuildContainerSystem.apply_disposition w bcs) st4
                    | Raise e => (st4, Raise e)
                    end).
  { rewrite (bind_ok _ _ _ _ _ Hup). unfold BuildContainerSystem.dispose.
    rewrite Hcontainers, (for_each_app_ok _ _ _ _ _ Hdone). cbn [for_each].
    rewrite bind_run, Happly. by destruct r as [[]|e]. }
  unfold BuildContainerSystem.run, finally_, with_.
  rewrite !bind_run. unfold mret at 1 3, M_ret at 1 3. cbv beta iota.
  rewrite Hbody. by destruct r as [[]|e].
Qed.

(** C2, for [build_container_system] of [build/build.py] run under the
    orchestrator of the spec.  The block has described the system
    [bcs], the system has come up, the root has exited with 0, and the
    dispositions of the containers before [source] are dealt with.
    For [source], whose disposition is persist to [target], the
    orchestrator inspects it and creates a helper from
    [busybox:latest] whose command archives the volume paths that the
    inspection has listed into one file of the extraction directory;
    the helper is started with the directory bound and with the
    volumes of the source, read-only, and awaited.  When it exits with
    0, one image is built (its base the image of the source, its one
    layer the archive at [/], its tag the target), the helper is
    removed, and the build goes on with the containers after [source]
    and the teardown of the system; the function then ends in the
    [NameError] of its next statement.  When the helper exits with
    another code, no image is built, the helper is removed, the system
    is torn down and [ContainerExitError] is raised with that code. *)
Theorem persist_runs_extraction
        (image_name : string) (image_config : gmap string cfgval) (quiet : bool)
        (root_image : cfgval) (st st0 st1 st2 st3 st4 : state)
        (bcs0 bcs : BuildContainerSystem.system)
        (done : list Container) (source : Container) (rest : list Container)
        (target : string) (source_data : inspect_info) (code : Z)
        (r : result unit) :
  let image_root := os_path.join_str "/" (uuids w (uuid_next st3)) in
  let host_dir := tmpdirs w (tmp_next st3) in
  let helper := "busybox." +:+ Str.take 8 (uuids w (S (uuid_next st3))) in
  let create_helper :=
    CreateContainer helper "busybox:latest" false [image_root] None None []
      (["tar"; "-cf"; os_path.join_str image_root "extract.tar"]
       ++ volumes_keys source_data) in
  let start_helper :=
    Start helper [] [] {[ Some host_dir := (image_root, false) ]} []
          [name source +:+ ":ro"] in
  let build_target :=
    Build (Some target) (image source)
          [(os_path.join_str host_dir "extract.tar", "/")] in
  image_config !! "from" = Some root_image ->
  BuildContainerSystem.__init__ w root_image
    (extend st [Log INFO ("Creating container system for " +:+ image_name)])
  = (st0, Ok bcs0) ->
  build_system.block w volume_include image_name image_config bcs0 st0 = (st1, Ok bcs) ->
  BuildContainerSystem.containers bcs = (done ++ source :: rest)%list ->
  BuildContainerSystem.dispositions bcs !! name source
  = Some (BuildContainerSystem.PersistTo target) ->
  BuildContainerSystem.bring_up w bcs st1 = (st2, Ok tt) ->
  for_each done (BuildContainerSystem.apply_disposition w bcs) st2 = (st3, Ok tt) ->
  BuildContainerSystem.apply_disposition w bcs source st3 = (st4, r) ->
  (forall hist, engine w hist (InspectContainer (name source)) = Ok source_data) ->
  (forall hist, engine w hist create_helper = Ok tt) ->
  (forall hist, engine w hist start_helper = Ok tt) ->
  (forall hist, engine w hist (Wait helper None) = Ok (Some code)) ->
  (forall hist, engine w hist (RemoveContainer helper true) = Ok tt) ->
  (code = 0 ->
   (forall hist, engine w hist build_target = Ok tt) ->
   r = Ok tt
   /\ engine_calls (trace st4)
      = (engine_calls (trace st3)
         ++ [InspectContainer (name source); create_helper; start_helper;
             Wait helper None; build_target; RemoveContainer helper true])%list
   /\ build_system.build_container_system w volume_include image_name image_config
        quiet st
      = (finally_ (for_each rest (BuildContainerSystem.apply_disposition w bcs))
                  (BuildContainerSystem.teardown w bcs);;
         raise (PyNameError "TempResourceDirectory")) st4)
  /\ (code <> 0 ->
      forall out info,
        (forall hist, engine w hist (Logs helper) = Ok out) ->
        (forall hist, engine w hist (InspectContainer helper) = Ok info) ->
        r = Raise (ContainerExitError code (Some out) (Some info))
        /\ engine_calls (trace st4)
           = (engine_calls (trace st3)
              ++ [InspectContainer (name source); create_helper; start_helper;
                  Wait helper None; Logs helper; InspectContainer helper;
                  RemoveContainer helper true])%list
        /\ build_system.build_container_system w volume_include image_name
             image_config quiet st
           = (BuildContainerSystem.teardown w bcs;;
              raise (ContainerExitError code (Some out) (Some info))) st4).
Proof.
  intros image_root host_dir helper create_helper start_helper build_target
    Hfrom Hinit Hblock Hcontainers Hdisposition Hup Hdone Happly
    Hsource Hcreate Hstart Hwait Hremove.
  destruct (apply_disposition_persist w bcs source target st3 source_data code
              Hdisposition Hsource Hcreate Hstart Hwait Hremove)
    as [Hzero Hnonzero].
  assert (Hbuild : build_system.build_container_system w volume_include image_name
                     image_config quiet st
                   = match BuildContainerSystem.run w bcs st1 with
                     | (s, Ok _) => (s, Raise (PyNameError "TempResourceDirectory"))
                     | (s, Raise e) => (s, Raise e)
                     end).
  { rewrite build_container_system_run.
    by rewrite (container_system_run w volume_include _ _ _ _ _ _ _ _
                  Hfrom Hinit Hblock). }
  rewrite (run_reaches _ _ _ _ _ _ _ _ _ Hcontainers Hup Hdone Happly) in Hbuild.
  split.
  - intros Hcode Hbuilt.
    destruct (Hzero Hcode Hbuilt) as (st' & Hrun & Hcalls).
    rewrite Happly in Hrun. injection Hrun as <- ->.
    split; [done|]. split; [exact Hcalls|].
    rewrite Hbuild, bind_run.
    by destruct (finally_ _ _ st4) as [s [[]|e]].
  - intros Hcode out info Hlogs Hinspect.
    destruct (Hnonzero Hcode out info Hlogs Hinspect) as (st' & Hrun & Hcalls).
    rewrite Happly in Hrun. injection Hrun as <- ->.
    split; [done|]. split; [exact Hcalls|].
    rewrite Hbuild, !bind_run.
    by destruct (BuildContainerSystem.teardown w bcs st4) as [s [[]|e]].
Qed.

End Persist.

(** *** The builds of the sample images *)

Lemma build_container_system_never_returns_witness :
  exists st1,
    build_system.build_container_system (sample.exits 0) legacy.no_include
      "img" legacy.discard_config false initial
    = (st1, Raise (PyNameError "TempResourceDirectory"))
    /\ created (trace st1) = ["data.2c9a1f3e"; "base.0c9a1f3e"]
    /\ removed (trace st1) = ["base.0c9a1f3e"; "data.2c9a1f3e"].
Proof.
  destruct (build_system.container_system (sample.exits 0) legacy.no_include
              "img" legacy.discard_config
              (extend initial [Log INFO "Creating container system for img"]))
    as [st1 r] eqn:Hrun.
  pose proof Hrun as Hv. vm_compute in Hv.
  injection Hv as Hst Hr. subst r.
  exists st1. split.
  - exact (proj1 (build_container_system_never_returns (sample.exits 0)
                    legacy.no_include "img" legacy.discard_config false initial)
             st1 Hrun).
  - rewrite <- Hst. vm_compute. auto.
Defined.


Lemma root_failure_removes_containers_witness :
  exists st' evs,
    build_system.build_container_system (sample.root_exits 3) legacy.no_include
      "img" sample.persist_config false initial
    = (st', Raise (ContainerExitError 3 (Some "boom") (Some sample.never_started)))
    /\ trace st' = evs
    /\ commits evs = [] /\ builds evs = []
    /\ Forall (fun n => n ∈ ["base.0c9a1f3e"; "data.2c9a1f3e"]) (created evs)
    /\ removed evs = ["base.0c9a1f3e"; "data.2c9a1f3e"].
Proof.
  edestruct (root_failure_removes_containers (sample.root_exits 3) legacy.no_include
               "img" sample.persist_config false (CfgStr "base:latest") initial)
    as (st' & evs & Hrun & Htrace & Hcommits & Hbuilds & Hcreated & Hremoved).
  - reflexivity.
  - reflexivity.
  - reflexivity.
  - reflexivity.
  - intros hist. reflexivity.
  - intros hist. reflexivity.
  - intros hist. reflexivity.
  - discriminate.
  - intros hist. reflexivity.
  - intros hist. reflexivity.
  - intros hist n. reflexivity.
  - exists st', evs. repeat split; assumption.
Defined.

Lemma persist_runs_extraction_witness :
  exists st4,
    engine_calls (trace st4)
    = [create_call legacy.data; dockerext.start_call legacy.data;
       Wait "data.2c9a1f3e" None;
       create_call (BuildContainerSystem.root legacy.persist_system);
       dockerext.start_call (BuildContainerSystem.root legacy.persist_system);
       Wait "base.0c9a1f3e" None;
       InspectContainer "data.2c9a1f3e";
       CreateContainer "busybox.5c9a1f3e" "busybox:latest" false
         ["/4c9a1f3e-5d2b-4f6a-9c1e-7b8d2a4e6f01"] None None []
         ["tar"; "-cf"; "/4c9a1f3e-5d2b-4f6a-9c1e-7b8d2a4e6f01/extract.tar";
          "/data"; "/var/lib/db"];
       Start "busybox.5c9a1f3e" [] []
         {[ Some "/tmp/nagoya0"
            := ("/4c9a1f3e-5d2b-4f6a-9c1e-7b8d2a4e6f01", false) ]} []
         ["data.2c9a1f3e:ro"];
       Wait "busybox.5c9a1f3e" None;
       Build (Some "out") "data:1" [("/tmp/nagoya0/extract.tar", "/")];
       RemoveContainer "busybox.5c9a1f3e" true]
    /\ build_system.build_container_system (sample.helper_exits 0)
         legacy.no_include "img" sample.persist_config false initial
       = (finally_ (for_each [] (BuildContainerSystem.apply_disposition
                                   (sample.helper_exits 0) legacy.persist_system))
                   (BuildContainerSystem.teardown (sample.helper_exits 0)
                      legacy.persist_system);;
          raise (PyNameError "TempResourceDirectory")) st4.
Proof.
  set (w := sample.helper_exits 0).
  set (begun := extend initial [Log INFO "Creating container system for img"]).
  set (bcs0 := BuildContainerSystem.mkSystem
                 (temp_container "base:latest" false (sample.uuid 0)) [] ∅).
  set (st0 := (BuildContainerSystem.__init__ w (CfgStr "base:latest") begun).1).
  set (st1 := (build_system.block w legacy.no_include "img" sample.persist_config
                 bcs0 st0).1).
  set (st2 := (BuildContainerSystem.bring_up w legacy.persist_system st1).1).
  set (st4 := (BuildContainerSystem.apply_disposition w legacy.persist_system
                 legacy.data st2).1).
  destruct (persist_runs_extraction w legacy.no_include
              "img" sample.persist_config false (CfgStr "base:latest") initial
              st0 st1 st2 st2 st4 bcs0 legacy.persist_system
              [BuildContainerSystem.root legacy.persist_system] legacy.data []
              "out" sample.never_started 0 (Ok tt))
    as [Hzero _].
  - reflexivity.
  - vm_compute. reflexivity.
  - vm_compute. reflexivity.
  - reflexivity.
  - vm_compute. reflexivity.
  - vm_compute. reflexivity.
  - vm_compute. reflexivity.
  - vm_compute. reflexivity.
  - intros hist. reflexivity.
  - intros hist. reflexivity.
  - intros hist. reflexivity.
  - intros hist. reflexivity.
  - intros hist. reflexivity.
  - destruct (Hzero eq_refl (fun _ => eq_refl)) as (_ & Hcalls & Hrun).
    exists st4. split; [|exact Hrun].
    rewrite Hcalls. vm_compute. reflexivity.
Defined.

(** The whole build of the image of [sample.persist_config], where
    every container exits with 0: the volume container and the root
    are brought up, the volume container is extracted into the image
    [out] through a helper, the helper, the root and the volume
    container are removed, and then [NameError] is raised. *)
Example persist_build_run :
  (build_system.build_container_system (sample.helper_exits 0) legacy.no_include
     "img" sample.persist_config false initial).2
  = Raise (PyNameError "TempResourceDirectory")
  /\ created (trace (build_system.build_container_system (sample.helper_exits 0)
                       legacy.no_include "img" sample.persist_config false initial).1)
     = ["data.2c9a1f3e"; "base.0c9a1f3e"; "busybox.5c9a1f3e"]
  /\ builds (trace (build_system.build_container_system (sample.helper_exits 0)
                      legacy.no_include "img" sample.persist_config false initial).1)
     = [(Some "out", "data:1", [("/tmp/nagoya0/extract.tar", "/")])]
  /\ removed (trace (build_system.build_container_system (sample.helper_exits 0)
                       legacy.no_include "img" sample.persist_config false initial).1)
     = ["busybox.5c9a1f3e"; "base.0c9a1f3e"; "data.2c9a1f3e"].
Proof. vm_compute. auto. Qed.

(** The same where the helper exits with 2: [ContainerExitError] with
    that code, no image, and the three containers removed. *)
Example persist_build_helper_fails :
  (build_system.build_container_system (sample.helper_exits 2) legacy.no_include
     "img" sample.persist_config false initial).2
  = Raise (ContainerExitError 2 (Some "boom") (Some sample.never_started))
  /\ builds (trace (build_system.build_container_system (sample.helper_exits 2)
                      legacy.no_include "img" sample.persist_config false initial).1)
     = []
  /\ removed (trace (build_system.build_container_system (sample.helper_exits 2)
                       legacy.no_include "img" sample.persist_config false initial).1)
     = ["busybox.5c9a1f3e"; "base.0c9a1f3e"; "data.2c9a1f3e"].
Proof. vm_compute. auto. Qed.
